(** * Inception-v4 (mindcv/models/inception_v4.py): shapes, structure and modes

    A shallow embedding of the model definition.  Every class of the source
    file is a module holding a record [t] (the attributes assigned in
    [__init__]), a constructor [init] and the method [construct].

    Tensors are modelled by their shape (a list of integer extents, as the
    framework's shape tuples) together with an uninterpreted payload: the
    numeric kernels of the tensor runtime are the fields of the class
    [Kernels], so every statement below holds for any kernels.  Framework
    errors (a failed argument check in a constructor, a shape mismatch at run
    time) are [None]. *)

From Stdlib Require Import ZArith QArith List Bool Lia Lqa.
From Stdlib Require String.
Import ListNotations.

Local Open Scope Z_scope.

(** ** The error monad *)

Definition bind {A B : Type} (m : option A) (k : A -> option B) : option B :=
  match m with
  | Some a => k a
  | None => None
  end.

Notation "x <- m ;; k" := (bind m (fun x => k))
  (at level 61, m at next level, right associativity).

(** Python's [assert]-like argument checks of the framework constructors. *)
Definition check (b : bool) : option unit :=
  if b then Some tt else None.

(** ** Shapes, parameters and tensors *)

Definition Shape := list Z.

Definition Shape_eqb (s1 s2 : Shape) : bool :=
  if list_eq_dec Z.eq_dec s1 s2 then true else false.

Inductive DType := float16 | float32.

(** The initializers the file can tell apart: the one a framework layer
    picks for a parameter when the caller passes none, and the one
    [_initialize_weights] installs. *)
Module init.
Inductive Initializer := FrameworkDefault | XavierUniform.

Definition Initializer_eqb (a b : Initializer) : bool :=
  match a, b with
  | FrameworkDefault, FrameworkDefault => true
  | XavierUniform, XavierUniform => true
  | _, _ => false
  end.
End init.

(** A trainable parameter of the framework, described by its shape, its
    element type and the initializer that fills it (the framework
    materialises the data lazily from this description). *)
Record Param := mkParam {
  p_shape : Shape;
  p_dtype : DType;
  p_init : init.Initializer
}.

(** [init.initializer(init, shape, dtype)]. *)
Definition initializer (i : init.Initializer) (shape : Shape) (dtype : DType)
  : Param :=
  mkParam shape dtype i.

(** [set_data] of a parameter: it now holds the given tensor. *)
Definition set_data (p new : Param) : Param := new.

Definition default_parameter (shape : Shape) : Param :=
  mkParam shape float32 init.FrameworkDefault.

Inductive PadMode := same | valid | pad.

(** [kernel_size: Union[int, Tuple]]. *)
Inductive KernelSize :=
| K_int (k : Z)
| K_tuple (kh kw : Z).

Definition twice (k : KernelSize) : Z * Z :=
  match k with
  | K_int k => (k, k)
  | K_tuple kh kw => (kh, kw)
  end.

(** The numeric kernels of the tensor runtime, left uninterpreted. *)
Class Kernels := {
  payload : Type;
  rng : Type;
  conv2d_k : Param -> Z * Z -> Z * Z -> PadMode -> Z -> payload -> payload;
  batch_norm_k :
    Param -> Param -> Param -> Param -> Q -> Q -> bool ->
    payload -> payload;
  relu_k : payload -> payload;
  max_pool_k : Z -> Z -> PadMode -> payload -> payload;
  avg_pool_k : Z -> Z -> PadMode -> payload -> payload;
  concat_k : nat -> list payload -> payload;
  reduce_mean_k : list nat -> bool -> payload -> payload;
  dense_k : Param -> Param -> payload -> payload;
  dropout_k : Q -> rng -> payload -> payload * rng
}.

Record Tensor `{Kernels} := mkTensor {
  shape : Shape;
  data : payload
}.

Arguments mkTensor {_} shape data.

(** ** Output-size arithmetic of convolution and pooling windows *)

(** Python's [math.ceil(a / b)] for a positive [b]. *)
Definition ceil_div (a b : Z) : Z := - ((- a) / b).

(** Modelled from the spec: the window arithmetic of the tensor runtime,
    which is not part of the sources (section 4.1: "valid" is no padding,
    the output shrinks per standard convolution arithmetic; "same" and
    explicit padding control the size as configured).  Extent of one spatial
    axis after a window of size [k], stride [s] and explicit padding [p] on
    both sides, the dilation being 1:
    [same] gives ceil(i / s); [valid] gives ceil((i - (k - 1)) / s);
    [pad] gives floor((i + 2p - k) / s) + 1. *)
Definition out_size (mode : PadMode) (i k s p : Z) : Z :=
  match mode with
  | same => ceil_div i s
  | valid => ceil_div (i - (k - 1)) s
  | pad => (i + 2 * p - k) / s + 1
  end.

(** Modelled from the spec: the shape a window operation of the runtime
    returns for a four-dimensional input (batch, channel, height, width);
    an output without extent is refused. *)
Definition window_shape (mode : PadMode) (kernel_size stride : Z * Z)
    (padding : Z) (channels : Z) (s : Shape) : option Shape :=
  match s with
  | [n; _; h; w] =>
      let h' := out_size mode h (fst kernel_size) (fst stride) padding in
      let w' := out_size mode w (snd kernel_size) (snd stride) padding in
      _ <- check ((0 <? h') && (0 <? w')) ;;
      Some [n; channels; h'; w']
  | _ => None
  end.

(** ** The framework layers used by the file ([mindspore.nn], [mindspore.ops])

    The tensor runtime is an external collaborator (section 1 of the spec)
    and none of its layers is part of the sources.  Each layer below keeps
    the constructor arguments the file passes, the argument checks that make
    a constructor fail, and the shape contract of sections 3 and 4 of the
    spec; the numeric result is the corresponding uninterpreted kernel. *)
Module nn.

Module Conv2d.
Record t := mk {
  in_channels : Z;
  out_channels : Z;
  kernel_size : Z * Z;
  stride : Z * Z;
  pad_mode : PadMode;
  padding : Z;
  weight : Param
}.

(** Modelled from the spec: [nn.Conv2d(in_channels, out_channels,
    kernel_size, stride, pad_mode, padding)] of the runtime.  Dilation and
    group keep their default 1 and there is no bias ([has_bias=False]); the
    padding is given only in mode "pad". *)
Definition init (in_channels out_channels : Z) (kernel_size : KernelSize)
    (stride : Z) (pad_mode : PadMode) (padding : Z) : option t :=
  let ks := twice kernel_size in
  _ <- check ((0 <? in_channels) && (0 <? out_channels)) ;;
  _ <- check ((0 <? fst ks) && (0 <? snd ks) && (0 <? stride)) ;;
  _ <- check (match pad_mode with
              | pad => 0 <=? padding
              | _ => padding =? 0
              end) ;;
  Some (mk in_channels out_channels ks (stride, stride) pad_mode padding
          (default_parameter
             [out_channels; in_channels; fst ks; snd ks])).

Definition set_weight (self : t) (w : Param) : t :=
  mk (in_channels self) (out_channels self) (kernel_size self)
     (stride self) (pad_mode self) (padding self) w.

Section Construct.
Context `{Kernels}.

(** Modelled from the spec: a convolution takes [in_channels] channels
    to [out_channels] channels (section 4.1). *)
Definition construct (self : t) (x : Tensor) : option Tensor :=
  match shape x with
  | [_; c; _; _] =>
      _ <- check (c =? in_channels self) ;;
      s <- window_shape (pad_mode self) (kernel_size self) (stride self)
             (padding self) (out_channels self) (shape x) ;;
      Some (mkTensor s
              (conv2d_k (weight self) (kernel_size self) (stride self)
                 (pad_mode self) (padding self) (data x)))
  | _ => None
  end.
End Construct.
End Conv2d.

Module BatchNorm2d.
Record t := mk {
  num_features : Z;
  eps : Q;
  momentum : Q;
  gamma : Param;
  beta : Param;
  moving_mean : Param;
  moving_variance : Param
}.

(** Modelled from the spec: [nn.BatchNorm2d(num_features, eps, momentum)]
    of the runtime, with its four parameters per channel. *)
Definition init (num_features : Z) (eps momentum : Q) : option t :=
  _ <- check (0 <? num_features) ;;
  Some (mk num_features eps momentum
          (default_parameter [num_features])
          (default_parameter [num_features])
          (default_parameter [num_features])
          (default_parameter [num_features])).

Section Construct.
Context `{Kernels}.

(** Modelled from the spec: normalises over the channel axis and keeps
    the shape; batch statistics when [training], the stored moving
    statistics otherwise.  Parameters are descriptions here, not values, so
    the update of the moving statistics that a training step performs is
    not part of the model. *)
Definition construct (self : t) (training : bool) (x : Tensor)
  : option Tensor :=
  match shape x with
  | [_; c; _; _] =>
      _ <- check (c =? num_features self) ;;
      Some (mkTensor (shape x)
              (batch_norm_k (gamma self) (beta self) (moving_mean self)
                 (moving_variance self) (eps self) (momentum self)
                 training (data x)))
  | _ => None
  end.
End Construct.
End BatchNorm2d.

Module ReLU.
Inductive t := mk.

Definition init : t := mk.

Section Construct.
Context `{Kernels}.

(** Modelled from the spec: the rectified-linear activation of the
    runtime, element by element. *)
Definition construct (self : t) (x : Tensor) : option Tensor :=
  Some (mkTensor (shape x) (relu_k (data x))).
End Construct.
End ReLU.

(** Modelled from the spec: pooling windows know only the modes "same"
    and "valid". *)
Definition pool_mode_ok (m : PadMode) : bool :=
  match m with
  | pad => false
  | _ => true
  end.

Module MaxPool2d.
Record t := mk {
  kernel_size : Z;
  stride : Z;
  pad_mode : PadMode
}.

(** Modelled from the spec: [nn.MaxPool2d(kernel_size, stride, pad_mode)]
    of the runtime, [pad_mode] being "valid" when omitted. *)
Definition init (kernel_size stride : Z) (pad_mode : PadMode) : option t :=
  _ <- check ((0 <? kernel_size) && (0 <? stride)) ;;
  _ <- check (pool_mode_ok pad_mode) ;;
  Some (mk kernel_size stride pad_mode).

Section Construct.
Context `{Kernels}.

(** Modelled from the spec: a pooling window keeps the channels. *)
Definition construct (self : t) (x : Tensor) : option Tensor :=
  match shape x with
  | [_; c; _; _] =>
      s <- window_shape (pad_mode self)
             (kernel_size self, kernel_size self)
             (stride self, stride self) 0 c (shape x) ;;
      Some (mkTensor s
              (max_pool_k (kernel_size self) (stride self)
                 (pad_mode self) (data x)))
  | _ => None
  end.
End Construct.
End MaxPool2d.

Module AvgPool2d.
Record t := mk {
  kernel_size : Z;
  stride : Z;
  pad_mode : PadMode
}.

(** Modelled from the spec: [nn.AvgPool2d(kernel_size, stride, pad_mode)]
    of the runtime. *)
Definition init (kernel_size stride : Z) (pad_mode : PadMode) : option t :=
  _ <- check ((0 <? kernel_size) && (0 <? stride)) ;;
  _ <- check (pool_mode_ok pad_mode) ;;
  Some (mk kernel_size stride pad_mode).

Section Construct.
Context `{Kernels}.

(** Modelled from the spec: a pooling window keeps the channels. *)
Definition construct (self : t) (x : Tensor) : option Tensor :=
  match shape x with
  | [_; c; _; _] =>
      s <- window_shape (pad_mode self)
             (kernel_size self, kernel_size self)
             (stride self, stride self) 0 c (shape x) ;;
      Some (mkTensor s
              (avg_pool_k (kernel_size self) (stride self)
                 (pad_mode self) (data x)))
  | _ => None
  end.
End Construct.
End AvgPool2d.

Module Dropout.
Record t := mk { keep_prob : Q }.

(** Modelled from the spec: [nn.Dropout(keep_prob)] of the runtime, which
    accepts a keep probability in (0, 1]. *)
Definition init (keep_prob : Q) : option t :=
  _ <- check (negb (Qle_bool keep_prob 0) && Qle_bool keep_prob 1) ;;
  Some (mk keep_prob).

Section Construct.
Context `{Kernels}.

(** Modelled from the spec: the dropout layer of the runtime is "active
    only during training" (section 4.8), where it draws its mask from the
    random state; it is the identity otherwise. *)
Definition construct (self : t) (training : bool) (x : Tensor) (r : rng)
  : Tensor * rng :=
  if training then
    let (d, r') := dropout_k (keep_prob self) r (data x) in
    (mkTensor (shape x) d, r')
  else (x, r).
End Construct.
End Dropout.

Module Dense.
Record t := mk {
  in_channels : Z;
  out_channels : Z;
  weight : Param;
  bias : Param
}.

(** Modelled from the spec: [nn.Dense(in_channels, out_channels)] of the
    runtime, with a weight and a bias. *)
Definition init (in_channels out_channels : Z) : option t :=
  _ <- check ((0 <? in_channels) && (0 <? out_channels)) ;;
  Some (mk in_channels out_channels
          (default_parameter [out_channels; in_channels])
          (default_parameter [out_channels])).

Section Construct.
Context `{Kernels}.

(** Modelled from the spec: the fully-connected projection of the last
    axis to [out_channels] outputs (section 4.8). *)
Definition construct (self : t) (x : Tensor) : option Tensor :=
  match rev (shape x) with
  | c :: lead =>
      _ <- check (c =? in_channels self) ;;
      Some (mkTensor (rev (out_channels self :: lead))
              (dense_k (weight self) (bias self) (data x)))
  | [] => None
  end.
End Construct.
End Dense.

Module SequentialCell.
Section Construct.
Context `{Kernels} {A : Type}.

(** Modelled from the spec: the cells of an [nn.SequentialCell] are
    applied one after the other (section 3, "a named sequence of layers");
    [call] is the way a cell of type [A] is applied. *)
Fixpoint construct (call : A -> Tensor -> option Tensor)
    (cell_list : list A) (x : Tensor) : option Tensor :=
  match cell_list with
  | [] => Some x
  | cell :: rest =>
      y <- call cell x ;;
      construct call rest y
  end.
End Construct.
End SequentialCell.

End nn.

Module ops.
(** The extent along [axis] and the remaining extents. *)
Fixpoint split_axis (axis : nat) (s : Shape) : option (Z * Shape) :=
  match axis, s with
  | O, d :: rest => Some (d, rest)
  | S a, d :: rest =>
      match split_axis a rest with
      | Some (e, others) => Some (e, d :: others)
      | None => None
      end
  | _, [] => None
  end.

Fixpoint join_axis (axis : nat) (d : Z) (others : Shape) : Shape :=
  match axis, others with
  | O, _ => d :: others
  | S a, e :: rest => e :: join_axis a d rest
  | S _, [] => [d]
  end.

(** Sum of the extents along [axis] of shapes that agree with [others]
    on every other axis. *)
Fixpoint concat_extent (axis : nat) (others : Shape) (ss : list Shape)
  : option Z :=
  match ss with
  | [] => Some 0
  | s :: rest =>
      match split_axis axis s with
      | Some (d, o) =>
          _ <- check (Shape_eqb o others) ;;
          e <- concat_extent axis others rest ;;
          Some (d + e)
      | None => None
      end
  end.

(** Modelled from the spec: the shape left by a reduction over the axes
    [axes], [i] being the index of the first extent of [s]: a reduced axis
    disappears, or is kept with extent 1 under [keep_dims]. *)
Fixpoint reduce_axes (axes : list nat) (keep_dims : bool) (i : nat)
    (s : Shape) : Shape :=
  match s with
  | [] => []
  | d :: rest =>
      (if existsb (Nat.eqb i) axes
       then (if keep_dims then [1] else [])
       else [d])
      ++ reduce_axes axes keep_dims (S i) rest
  end.

Section Concat.
Context `{Kernels}.

(** Modelled from the spec: [ops.concat(tensors, axis)] of the runtime;
    the inputs must have the same shape except along [axis], where the
    extents add up (section 3, "concatenated along the channel
    dimension"). *)
Definition concat (tensors : list Tensor) (axis : nat) : option Tensor :=
  match tensors with
  | [] => None
  | x :: _ =>
      match split_axis axis (shape x) with
      | Some (_, others) =>
          d <- concat_extent axis others (map shape tensors) ;;
          Some (mkTensor (join_axis axis d others)
                  (concat_k axis (map data tensors)))
      | None => None
      end
  end.

(** Modelled from the spec: [ops.mean(x, axis, keep_dims)] of the runtime
    averages over the given axes of a tensor of any rank; every axis must
    be one of the tensor's, and an empty [axis] stands for all of them. *)
Definition mean (x : Tensor) (axis : list nat) (keep_dims : bool)
  : option Tensor :=
  let axes :=
    match axis with
    | [] => seq 0 (length (shape x))
    | _ => axis
    end in
  _ <- check (forallb (fun a => Nat.ltb a (length (shape x))) axes) ;;
  Some (mkTensor (reduce_axes axes keep_dims 0 (shape x))
          (reduce_mean_k axis keep_dims (data x))).
End Concat.
End ops.

(** [sequence] turns a list of constructor calls into the list of the cells
    built, failing as soon as one call fails. *)
Fixpoint sequence {A : Type} (l : list (option A)) : option (list A) :=
  match l with
  | [] => Some []
  | m :: rest =>
      a <- m ;;
      r <- sequence rest ;;
      Some (a :: r)
  end.

(** ** [mindcv.models.layers.pooling.GlobalAvgPooling] *)

Module GlobalAvgPooling.
Record t := mk { keep_dims : bool }.

(** Modelled from the spec: the class [GlobalAvgPooling] of
    [layers/pooling.py] is imported by the file but is not among the
    sources.  Section 4.8 describes it as the global average pool over the
    spatial dimensions, and section 8 gives the model's output as
    (batch, num_classes), so the two spatial axes are dropped when the cell
    is built, as here, without arguments. *)
Definition init : t := mk false.

Section Construct.
Context `{Kernels}.

(** Modelled from the spec: the mean over the axes (2, 3) of the missing
    class [GlobalAvgPooling] (section 4.8, "global-average-pool over
    spatial dimensions"). *)
Definition construct (self : t) (x : Tensor) : option Tensor :=
  ops.mean x [2%nat; 3%nat] (keep_dims self).
End Construct.
End GlobalAvgPooling.

(** ** The cells a traversal of the model meets

    [cells_and_names] walks the tree of cells.  The containers of the file
    own no parameter themselves and are no [nn.Conv2d], so the walk is
    modelled on the framework layers they hold, in registration order; the
    names it yields are ignored by the file and left out. *)
Inductive LeafCell :=
| Conv2d_cell (c : nn.Conv2d.t)
| BatchNorm2d_cell (b : nn.BatchNorm2d.t)
| ReLU_cell (r : nn.ReLU.t)
| MaxPool2d_cell (p : nn.MaxPool2d.t)
| AvgPool2d_cell (p : nn.AvgPool2d.t)
| GlobalAvgPooling_cell (p : GlobalAvgPooling.t)
| Dropout_cell (d : nn.Dropout.t)
| Dense_cell (d : nn.Dense.t).

(** In-place visit of one sub-cell: the visitor sees the cell and the
    attribute keeps holding a cell of its class. *)
Module visit.
Section Visit.
Variable f : LeafCell -> LeafCell.

Definition Conv2d (c : nn.Conv2d.t) : nn.Conv2d.t :=
  match f (Conv2d_cell c) with Conv2d_cell c' => c' | _ => c end.
Definition BatchNorm2d (b : nn.BatchNorm2d.t) : nn.BatchNorm2d.t :=
  match f (BatchNorm2d_cell b) with BatchNorm2d_cell b' => b' | _ => b end.
Definition ReLU (r : nn.ReLU.t) : nn.ReLU.t :=
  match f (ReLU_cell r) with ReLU_cell r' => r' | _ => r end.
Definition MaxPool2d (p : nn.MaxPool2d.t) : nn.MaxPool2d.t :=
  match f (MaxPool2d_cell p) with MaxPool2d_cell p' => p' | _ => p end.
Definition AvgPool2d (p : nn.AvgPool2d.t) : nn.AvgPool2d.t :=
  match f (AvgPool2d_cell p) with AvgPool2d_cell p' => p' | _ => p end.
Definition GlobalAvgPooling (p : GlobalAvgPooling.t) : GlobalAvgPooling.t :=
  match f (GlobalAvgPooling_cell p) with
  | GlobalAvgPooling_cell p' => p'
  | _ => p
  end.
Definition Dropout (d : nn.Dropout.t) : nn.Dropout.t :=
  match f (Dropout_cell d) with Dropout_cell d' => d' | _ => d end.
Definition Dense (d : nn.Dense.t) : nn.Dense.t :=
  match f (Dense_cell d) with Dense_cell d' => d' | _ => d end.
End Visit.
End visit.

(** ** [BasicConv2d]: convolution, batch normalisation, rectifier *)

Module BasicConv2d.
Record t := mk {
  conv : nn.Conv2d.t;
  bn : nn.BatchNorm2d.t;
  relu : nn.ReLU.t
}.

(** The defaults of the source are [kernel_size=1], [stride=1],
    [padding=0] and [pad_mode='same']; call sites spell them out. *)
Definition init (in_channels out_channels : Z) (kernel_size : KernelSize)
    (stride : Z) (padding : Z) (pad_mode : PadMode) : option t :=
  conv <- nn.Conv2d.init in_channels out_channels kernel_size stride
            pad_mode padding ;;
  bn <- nn.BatchNorm2d.init out_channels (1 # 1000)%Q (9997 # 10000)%Q ;;
  Some (mk conv bn nn.ReLU.init).

Definition cells (self : t) : list LeafCell :=
  [Conv2d_cell (conv self); BatchNorm2d_cell (bn self);
   ReLU_cell (relu self)].

Definition visit_cells (f : LeafCell -> LeafCell) (self : t) : t :=
  mk (visit.Conv2d f (conv self)) (visit.BatchNorm2d f (bn self))
     (visit.ReLU f (relu self)).

Section Construct.
Context `{Kernels}.

Definition construct (self : t) (training : bool) (x : Tensor)
  : option Tensor :=
  x <- nn.Conv2d.construct (conv self) x ;;
  x <- nn.BatchNorm2d.construct (bn self) training x ;;
  x <- nn.ReLU.construct (relu self) x ;;
  Some x.
End Construct.
End BasicConv2d.

(** The members of the [nn.SequentialCell] branches of the file: a
    [BasicConv2d] or an average pool. *)
Module Member.
Inductive t :=
| conv (c : BasicConv2d.t)
| avg_pool (p : nn.AvgPool2d.t).

Definition BasicConv2d (in_channels out_channels : Z)
    (kernel_size : KernelSize) (stride : Z) (padding : Z)
    (pad_mode : PadMode) : option t :=
  c <- BasicConv2d.init in_channels out_channels kernel_size stride padding
         pad_mode ;;
  Some (conv c).

Definition AvgPool2d (kernel_size stride : Z) (pad_mode : PadMode)
  : option t :=
  p <- nn.AvgPool2d.init kernel_size stride pad_mode ;;
  Some (avg_pool p).

Definition cells (self : t) : list LeafCell :=
  match self with
  | conv c => BasicConv2d.cells c
  | avg_pool p => [AvgPool2d_cell p]
  end.

Definition visit_cells (f : LeafCell -> LeafCell) (self : t) : t :=
  match self with
  | conv c => conv (BasicConv2d.visit_cells f c)
  | avg_pool p => avg_pool (visit.AvgPool2d f p)
  end.

Section Construct.
Context `{Kernels}.

Definition construct (training : bool) (self : t) (x : Tensor)
  : option Tensor :=
  match self with
  | conv c => BasicConv2d.construct c training x
  | avg_pool p => nn.AvgPool2d.construct p x
  end.
End Construct.
End Member.

(** A branch built by [nn.SequentialCell([...])]. *)
Module Branch.
Definition t := list Member.t.

Definition init (cells : list (option Member.t)) : option t :=
  sequence cells.

Definition cells (self : t) : list LeafCell :=
  flat_map Member.cells self.

Definition visit_cells (f : LeafCell -> LeafCell) (self : t) : t :=
  map (Member.visit_cells f) self.

Section Construct.
Context `{Kernels}.

Definition construct (self : t) (training : bool) (x : Tensor)
  : option Tensor :=
  nn.SequentialCell.construct (Member.construct training) self x.
End Construct.
End Branch.

(** ** [Stem] *)

Module Stem.
Record t := mk {
  conv2d_1a_3x3 : BasicConv2d.t;
  conv2d_2a_3x3 : BasicConv2d.t;
  conv2d_2b_3x3 : BasicConv2d.t;
  mixed_3a_branch_0 : nn.MaxPool2d.t;
  mixed_3a_branch_1 : BasicConv2d.t;
  mixed_4a_branch_0 : Branch.t;
  mixed_4a_branch_1 : Branch.t;
  mixed_5a_branch_0 : BasicConv2d.t;
  mixed_5a_branch_1 : nn.MaxPool2d.t
}.

Definition init (in_channels : Z) : option t :=
  conv2d_1a_3x3 <- BasicConv2d.init in_channels 32 (K_int 3) 2 0 valid ;;
  conv2d_2a_3x3 <- BasicConv2d.init 32 32 (K_int 3) 1 0 valid ;;
  conv2d_2b_3x3 <- BasicConv2d.init 32 64 (K_int 3) 1 1 pad ;;
  mixed_3a_branch_0 <- nn.MaxPool2d.init 3 2 valid ;;
  mixed_3a_branch_1 <- BasicConv2d.init 64 96 (K_int 3) 2 0 valid ;;
  mixed_4a_branch_0 <- Branch.init [
    Member.BasicConv2d 160 64 (K_int 1) 1 0 same;
    Member.BasicConv2d 64 96 (K_int 3) 1 0 valid] ;;
  mixed_4a_branch_1 <- Branch.init [
    Member.BasicConv2d 160 64 (K_int 1) 1 0 same;
    Member.BasicConv2d 64 64 (K_tuple 1 7) 1 0 same;
    Member.BasicConv2d 64 64 (K_tuple 7 1) 1 0 same;
    Member.BasicConv2d 64 96 (K_int 3) 1 0 valid] ;;
  mixed_5a_branch_0 <- BasicConv2d.init 192 192 (K_int 3) 2 0 valid ;;
  mixed_5a_branch_1 <- nn.MaxPool2d.init 3 2 valid ;;
  Some (mk conv2d_1a_3x3 conv2d_2a_3x3 conv2d_2b_3x3 mixed_3a_branch_0
          mixed_3a_branch_1 mixed_4a_branch_0 mixed_4a_branch_1
          mixed_5a_branch_0 mixed_5a_branch_1).

Definition cells (self : t) : list LeafCell :=
  BasicConv2d.cells (conv2d_1a_3x3 self)
  ++ BasicConv2d.cells (conv2d_2a_3x3 self)
  ++ BasicConv2d.cells (conv2d_2b_3x3 self)
  ++ [MaxPool2d_cell (mixed_3a_branch_0 self)]
  ++ BasicConv2d.cells (mixed_3a_branch_1 self)
  ++ Branch.cells (mixed_4a_branch_0 self)
  ++ Branch.cells (mixed_4a_branch_1 self)
  ++ BasicConv2d.cells (mixed_5a_branch_0 self)
  ++ [MaxPool2d_cell (mixed_5a_branch_1 self)].

Definition visit_cells (f : LeafCell -> LeafCell) (self : t) : t :=
  mk (BasicConv2d.visit_cells f (conv2d_1a_3x3 self))
     (BasicConv2d.visit_cells f (conv2d_2a_3x3 self))
     (BasicConv2d.visit_cells f (conv2d_2b_3x3 self))
     (visit.MaxPool2d f (mixed_3a_branch_0 self))
     (BasicConv2d.visit_cells f (mixed_3a_branch_1 self))
     (Branch.visit_cells f (mixed_4a_branch_0 self))
     (Branch.visit_cells f (mixed_4a_branch_1 self))
     (BasicConv2d.visit_cells f (mixed_5a_branch_0 self))
     (visit.MaxPool2d f (mixed_5a_branch_1 self)).

Section Construct.
Context `{Kernels}.

Definition construct (self : t) (training : bool) (x : Tensor)
  : option Tensor :=
  x <- BasicConv2d.construct (conv2d_1a_3x3 self) training x ;;
  x <- BasicConv2d.construct (conv2d_2a_3x3 self) training x ;;
  x <- BasicConv2d.construct (conv2d_2b_3x3 self) training x ;;

  x0 <- nn.MaxPool2d.construct (mixed_3a_branch_0 self) x ;;
  x1 <- BasicConv2d.construct (mixed_3a_branch_1 self) training x ;;
  x <- ops.concat [x0; x1] 1 ;;

  x0 <- Branch.construct (mixed_4a_branch_0 self) training x ;;
  x1 <- Branch.construct (mixed_4a_branch_1 self) training x ;;
  x <- ops.concat [x0; x1] 1 ;;

  x0 <- BasicConv2d.construct (mixed_5a_branch_0 self) training x ;;
  x1 <- nn.MaxPool2d.construct (mixed_5a_branch_1 self) x ;;
  x <- ops.concat [x0; x1] 1 ;;
  Some x.
End Construct.
End Stem.

(** ** [InceptionA] *)

Module InceptionA.
Record t := mk {
  branch_0 : BasicConv2d.t;
  branch_1 : Branch.t;
  branch_2 : Branch.t;
  branch_3 : Branch.t
}.

Definition init : option t :=
  branch_0 <- BasicConv2d.init 384 96 (K_int 1) 1 0 same ;;
  branch_1 <- Branch.init [
    Member.BasicConv2d 384 64 (K_int 1) 1 0 same;
    Member.BasicConv2d 64 96 (K_int 3) 1 1 pad] ;;
  branch_2 <- Branch.init [
    Member.BasicConv2d 384 64 (K_int 1) 1 0 same;
    Member.BasicConv2d 64 96 (K_int 3) 1 1 pad;
    Member.BasicConv2d 96 96 (K_int 3) 1 1 pad] ;;
  branch_3 <- Branch.init [
    Member.AvgPool2d 3 1 same;
    Member.BasicConv2d 384 96 (K_int 1) 1 0 same] ;;
  Some (mk branch_0 branch_1 branch_2 branch_3).

Definition cells (self : t) : list LeafCell :=
  BasicConv2d.cells (branch_0 self)
  ++ Branch.cells (branch_1 self)
  ++ Branch.cells (branch_2 self)
  ++ Branch.cells (branch_3 self).

Definition visit_cells (f : LeafCell -> LeafCell) (self : t) : t :=
  mk (BasicConv2d.visit_cells f (branch_0 self))
     (Branch.visit_cells f (branch_1 self))
     (Branch.visit_cells f (branch_2 self))
     (Branch.visit_cells f (branch_3 self)).

Section Construct.
Context `{Kernels}.

Definition construct (self : t) (training : bool) (x : Tensor)
  : option Tensor :=
  x0 <- BasicConv2d.construct (branch_0 self) training x ;;
  x1 <- Branch.construct (branch_1 self) training x ;;
  x2 <- Branch.construct (branch_2 self) training x ;;
  x3 <- Branch.construct (branch_3 self) training x ;;
  x4 <- ops.concat [x0; x1; x2; x3] 1 ;;
  Some x4.
End Construct.
End InceptionA.

(** ** [InceptionB] *)

Module InceptionB.
Record t := mk {
  branch_0 : BasicConv2d.t;
  branch_1 : Branch.t;
  branch_2 : Branch.t;
  branch_3 : Branch.t
}.

Definition init : option t :=
  branch_0 <- BasicConv2d.init 1024 384 (K_int 1) 1 0 same ;;
  branch_1 <- Branch.init [
    Member.BasicConv2d 1024 192 (K_int 1) 1 0 same;
    Member.BasicConv2d 192 224 (K_tuple 1 7) 1 0 same;
    Member.BasicConv2d 224 256 (K_tuple 7 1) 1 0 same] ;;
  branch_2 <- Branch.init [
    Member.BasicConv2d 1024 192 (K_int 1) 1 0 same;
    Member.BasicConv2d 192 192 (K_tuple 7 1) 1 0 same;
    Member.BasicConv2d 192 224 (K_tuple 1 7) 1 0 same;
    Member.BasicConv2d 224 224 (K_tuple 7 1) 1 0 same;
    Member.BasicConv2d 224 256 (K_tuple 1 7) 1 0 same] ;;
  branch_3 <- Branch.init [
    Member.AvgPool2d 3 1 same;
    Member.BasicConv2d 1024 128 (K_int 1) 1 0 same] ;;
  Some (mk branch_0 branch_1 branch_2 branch_3).

Definition cells (self : t) : list LeafCell :=
  BasicConv2d.cells (branch_0 self)
  ++ Branch.cells (branch_1 self)
  ++ Branch.cells (branch_2 self)
  ++ Branch.cells (branch_3 self).

Definition visit_cells (f : LeafCell -> LeafCell) (self : t) : t :=
  mk (BasicConv2d.visit_cells f (branch_0 self))
     (Branch.visit_cells f (branch_1 self))
     (Branch.visit_cells f (branch_2 self))
     (Branch.visit_cells f (branch_3 self)).

Section Construct.
Context `{Kernels}.

Definition construct (self : t) (training : bool) (x : Tensor)
  : option Tensor :=
  x0 <- BasicConv2d.construct (branch_0 self) training x ;;
  x1 <- Branch.construct (branch_1 self) training x ;;
  x2 <- Branch.construct (branch_2 self) training x ;;
  x3 <- Branch.construct (branch_3 self) training x ;;
  x4 <- ops.concat [x0; x1; x2; x3] 1 ;;
  Some x4.
End Construct.
End InceptionB.

(** ** [ReductionA] *)

Module ReductionA.
Record t := mk {
  branch_0 : BasicConv2d.t;
  branch_1 : Branch.t;
  branch_2 : nn.MaxPool2d.t
}.

Definition init : option t :=
  branch_0 <- BasicConv2d.init 384 384 (K_int 3) 2 0 valid ;;
  branch_1 <- Branch.init [
    Member.BasicConv2d 384 192 (K_int 1) 1 0 same;
    Member.BasicConv2d 192 224 (K_int 3) 1 1 pad;
    Member.BasicConv2d 224 256 (K_int 3) 2 0 valid] ;;
  branch_2 <- nn.MaxPool2d.init 3 2 valid ;;
  Some (mk branch_0 branch_1 branch_2).

Definition cells (self : t) : list LeafCell :=
  BasicConv2d.cells (branch_0 self)
  ++ Branch.cells (branch_1 self)
  ++ [MaxPool2d_cell (branch_2 self)].

Definition visit_cells (f : LeafCell -> LeafCell) (self : t) : t :=
  mk (BasicConv2d.visit_cells f (branch_0 self))
     (Branch.visit_cells f (branch_1 self))
     (visit.MaxPool2d f (branch_2 self)).

Section Construct.
Context `{Kernels}.

Definition construct (self : t) (training : bool) (x : Tensor)
  : option Tensor :=
  x0 <- BasicConv2d.construct (branch_0 self) training x ;;
  x1 <- Branch.construct (branch_1 self) training x ;;
  x2 <- nn.MaxPool2d.construct (branch_2 self) x ;;
  x3 <- ops.concat [x0; x1; x2] 1 ;;
  Some x3.
End Construct.
End ReductionA.

(** ** [ReductionB] *)

Module ReductionB.
Record t := mk {
  branch_0 : Branch.t;
  branch_1 : Branch.t;
  branch_2 : nn.MaxPool2d.t
}.

Definition init : option t :=
  branch_0 <- Branch.init [
    Member.BasicConv2d 1024 192 (K_int 1) 1 0 same;
    Member.BasicConv2d 192 192 (K_int 3) 2 0 valid] ;;
  branch_1 <- Branch.init [
    Member.BasicConv2d 1024 256 (K_int 1) 1 0 same;
    Member.BasicConv2d 256 256 (K_tuple 1 7) 1 0 same;
    Member.BasicConv2d 256 320 (K_tuple 7 1) 1 0 same;
    Member.BasicConv2d 320 320 (K_int 3) 2 0 valid] ;;
  branch_2 <- nn.MaxPool2d.init 3 2 valid ;;
  Some (mk branch_0 branch_1 branch_2).

Definition cells (self : t) : list LeafCell :=
  Branch.cells (branch_0 self)
  ++ Branch.cells (branch_1 self)
  ++ [MaxPool2d_cell (branch_2 self)].

Definition visit_cells (f : LeafCell -> LeafCell) (self : t) : t :=
  mk (Branch.visit_cells f (branch_0 self))
     (Branch.visit_cells f (branch_1 self))
     (visit.MaxPool2d f (branch_2 self)).

Section Construct.
Context `{Kernels}.

Definition construct (self : t) (training : bool) (x : Tensor)
  : option Tensor :=
  x0 <- Branch.construct (branch_0 self) training x ;;
  x1 <- Branch.construct (branch_1 self) training x ;;
  x2 <- nn.MaxPool2d.construct (branch_2 self) x ;;
  x3 <- ops.concat [x0; x1; x2] 1 ;;
  Some x3.
End Construct.
End ReductionB.

(** ** [InceptionC] *)

Module InceptionC.
Record t := mk {
  branch_0 : BasicConv2d.t;
  branch_1 : BasicConv2d.t;
  branch_1_1 : BasicConv2d.t;
  branch_1_2 : BasicConv2d.t;
  branch_2 : Branch.t;
  branch_2_1 : BasicConv2d.t;
  branch_2_2 : BasicConv2d.t;
  branch_3 : Branch.t
}.

Definition init : option t :=
  branch_0 <- BasicConv2d.init 1536 256 (K_int 1) 1 0 same ;;

  branch_1 <- BasicConv2d.init 1536 384 (K_int 1) 1 0 same ;;
  branch_1_1 <- BasicConv2d.init 384 256 (K_tuple 1 3) 1 0 same ;;
  branch_1_2 <- BasicConv2d.init 384 256 (K_tuple 3 1) 1 0 same ;;

  branch_2 <- Branch.init [
    Member.BasicConv2d 1536 384 (K_int 1) 1 0 same;
    Member.BasicConv2d 384 448 (K_tuple 3 1) 1 0 same;
    Member.BasicConv2d 448 512 (K_tuple 1 3) 1 0 same] ;;
  branch_2_1 <- BasicConv2d.init 512 256 (K_tuple 1 3) 1 0 same ;;
  branch_2_2 <- BasicConv2d.init 512 256 (K_tuple 3 1) 1 0 same ;;

  branch_3 <- Branch.init [
    Member.AvgPool2d 3 1 same;
    Member.BasicConv2d 1536 256 (K_int 1) 1 0 same] ;;
  Some (mk branch_0 branch_1 branch_1_1 branch_1_2 branch_2 branch_2_1
          branch_2_2 branch_3).

Definition cells (self : t) : list LeafCell :=
  BasicConv2d.cells (branch_0 self)
  ++ BasicConv2d.cells (branch_1 self)
  ++ BasicConv2d.cells (branch_1_1 self)
  ++ BasicConv2d.cells (branch_1_2 self)
  ++ Branch.cells (branch_2 self)
  ++ BasicConv2d.cells (branch_2_1 self)
  ++ BasicConv2d.cells (branch_2_2 self)
  ++ Branch.cells (branch_3 self).

Definition visit_cells (f : LeafCell -> LeafCell) (self : t) : t :=
  mk (BasicConv2d.visit_cells f (branch_0 self))
     (BasicConv2d.visit_cells f (branch_1 self))
     (BasicConv2d.visit_cells f (branch_1_1 self))
     (BasicConv2d.visit_cells f (branch_1_2 self))
     (Branch.visit_cells f (branch_2 self))
     (BasicConv2d.visit_cells f (branch_2_1 self))
     (BasicConv2d.visit_cells f (branch_2_2 self))
     (Branch.visit_cells f (branch_3 self)).

Section Construct.
Context `{Kernels}.

Definition construct (self : t) (training : bool) (x : Tensor)
  : option Tensor :=
  x0 <- BasicConv2d.construct (branch_0 self) training x ;;
  x1 <- BasicConv2d.construct (branch_1 self) training x ;;
  x1_1 <- BasicConv2d.construct (branch_1_1 self) training x1 ;;
  x1_2 <- BasicConv2d.construct (branch_1_2 self) training x1 ;;
  x1 <- ops.concat [x1_1; x1_2] 1 ;;
  x2 <- Branch.construct (branch_2 self) training x ;;
  x2_1 <- BasicConv2d.construct (branch_2_1 self) training x2 ;;
  x2_2 <- BasicConv2d.construct (branch_2_2 self) training x2 ;;
  x2 <- ops.concat [x2_1; x2_2] 1 ;;
  x3 <- Branch.construct (branch_3 self) training x ;;
  ops.concat [x0; x1; x2; x3] 1.
End Construct.
End InceptionC.

(** ** The blocks of the feature extractor *)

Module Block.
Inductive t :=
| stem (s : Stem.t)
| inception_a (a : InceptionA.t)
| reduction_a (a : ReductionA.t)
| inception_b (b : InceptionB.t)
| reduction_b (b : ReductionB.t)
| inception_c (c : InceptionC.t).

Definition Stem (in_channels : Z) : option t :=
  s <- Stem.init in_channels ;; Some (stem s).
Definition InceptionA : option t :=
  a <- InceptionA.init ;; Some (inception_a a).
Definition ReductionA : option t :=
  a <- ReductionA.init ;; Some (reduction_a a).
Definition InceptionB : option t :=
  b <- InceptionB.init ;; Some (inception_b b).
Definition ReductionB : option t :=
  b <- ReductionB.init ;; Some (reduction_b b).
Definition InceptionC : option t :=
  c <- InceptionC.init ;; Some (inception_c c).

Definition cells (self : t) : list LeafCell :=
  match self with
  | stem s => Stem.cells s
  | inception_a a => InceptionA.cells a
  | reduction_a a => ReductionA.cells a
  | inception_b b => InceptionB.cells b
  | reduction_b b => ReductionB.cells b
  | inception_c c => InceptionC.cells c
  end.

Definition visit_cells (f : LeafCell -> LeafCell) (self : t) : t :=
  match self with
  | stem s => stem (Stem.visit_cells f s)
  | inception_a a => inception_a (InceptionA.visit_cells f a)
  | reduction_a a => reduction_a (ReductionA.visit_cells f a)
  | inception_b b => inception_b (InceptionB.visit_cells f b)
  | reduction_b b => reduction_b (ReductionB.visit_cells f b)
  | inception_c c => inception_c (InceptionC.visit_cells f c)
  end.

Section Construct.
Context `{Kernels}.

Definition construct (training : bool) (self : t) (x : Tensor)
  : option Tensor :=
  match self with
  | stem s => Stem.construct s training x
  | inception_a a => InceptionA.construct a training x
  | reduction_a a => ReductionA.construct a training x
  | inception_b b => InceptionB.construct b training x
  | reduction_b b => ReductionB.construct b training x
  | inception_c c => InceptionC.construct c training x
  end.
End Construct.
End Block.

(** ** [InceptionV4] *)

Module InceptionV4.
Record t := mk {
  features : list Block.t;
  pool : GlobalAvgPooling.t;
  dropout : nn.Dropout.t;
  num_features : Z;
  classifier : nn.Dense.t
}.

Definition cells (self : t) : list LeafCell :=
  flat_map Block.cells (features self)
  ++ [GlobalAvgPooling_cell (pool self); Dropout_cell (dropout self);
      Dense_cell (classifier self)].

Definition visit_cells (f : LeafCell -> LeafCell) (self : t) : t :=
  mk (map (Block.visit_cells f) (features self))
     (visit.GlobalAvgPooling f (pool self))
     (visit.Dropout f (dropout self))
     (num_features self)
     (visit.Dense f (classifier self)).

(** The body of the loop of [_initialize_weights]: a cell that is an
    [nn.Conv2d] gets a fresh Xavier-uniform weight of the shape and element
    type it had; any other cell is left alone. *)
Definition _initialize_cell (cell : LeafCell) : LeafCell :=
  match cell with
  | Conv2d_cell c =>
      Conv2d_cell
        (nn.Conv2d.set_weight c
           (set_data (nn.Conv2d.weight c)
              (initializer init.XavierUniform
                 (p_shape (nn.Conv2d.weight c))
                 (p_dtype (nn.Conv2d.weight c)))))
  | _ => cell
  end.

Definition _initialize_weights (self : t) : t :=
  visit_cells _initialize_cell self.

(** The defaults of the source are [in_channels=3], [num_classes=1000]
    and [drop_rate=0.2]; the drop rate, a float in the source, is a
    rational here, and [1 - drop_rate] is exact where the source rounds it
    to the nearest float: a negative drop rate too small to move 1 is
    refused here and taken by the source with a keep probability of 1. *)
Definition init (in_channels num_classes : Z) (drop_rate : Q) : option t :=
  blocks <- sequence (
    [Block.Stem in_channels]
    ++ repeat Block.InceptionA 4
    ++ [Block.ReductionA]
    ++ repeat Block.InceptionB 7
    ++ [Block.ReductionB]
    ++ repeat Block.InceptionC 3) ;;
  let features := blocks in
  let pool := GlobalAvgPooling.init in
  dropout <- nn.Dropout.init (1 - drop_rate)%Q ;;
  let num_features := 1536 in
  classifier <- nn.Dense.init num_features num_classes ;;
  Some (_initialize_weights
          (mk features pool dropout num_features classifier)).

Section Construct.
Context `{Kernels}.

Definition forward_features (self : t) (training : bool) (x : Tensor)
  : option Tensor :=
  x <- nn.SequentialCell.construct (Block.construct training)
         (features self) x ;;
  Some x.

(** The dropout layer is the only cell of the model that reads the
    random state, which is therefore threaded through the head. *)
Definition forward_head (self : t) (training : bool) (x : Tensor)
    (r : rng) : option (Tensor * rng) :=
  x <- GlobalAvgPooling.construct (pool self) x ;;
  let (x, r) := nn.Dropout.construct (dropout self) training x r in
  x <- nn.Dense.construct (classifier self) x ;;
  Some (x, r).

Definition construct (self : t) (training : bool) (x : Tensor) (r : rng)
  : option (Tensor * rng) :=
  x <- forward_features self training x ;;
  forward_head self training x r.
End Construct.
End InceptionV4.

(** ** The default configuration: [_cfg] and [default_cfgs] *)

Module config.
Import Stdlib.Strings.String.
Local Open Scope string_scope.

(** The values of the configuration are strings and integers. *)
Inductive Value :=
| V_str (s : string)
| V_int (n : Z).

(** A Python dict with string keys: the items in insertion order, every
    key once. *)
Definition Dict := list (string * Value).

Fixpoint get (key : string) (d : Dict) : option Value :=
  match d with
  | [] => None
  | (k, v) :: rest => if String.eqb key k then Some v else get key rest
  end.

(** [d[key] = value]: a key that is present keeps its place, a new key
    goes to the end. *)
Fixpoint set (key : string) (value : Value) (d : Dict) : Dict :=
  match d with
  | [] => [(key, value)]
  | (k, v) :: rest =>
      if String.eqb key k then (k, value) :: rest
      else (k, v) :: set key value rest
  end.

(** The items of [kwargs] unpacked into a dict under construction. *)
Definition unpack (d kwargs : Dict) : Dict :=
  fold_left (fun acc item => set (fst item) (snd item) acc) kwargs d.

Definition _cfg (url : string) (kwargs : Dict) : Dict :=
  unpack
    [("url", V_str url);
     ("num_classes", V_int 1000);
     ("first_conv", V_str ""); ("classifier", V_str "")]
    kwargs.

Definition default_cfgs : list (string * Dict) :=
  [("inception_v4", _cfg "" [])].
End config.

(** ** The registered constructor [inception_v4] *)

Section Factory.
(** [load_pretrained] of [utils.py] is not among the sources: it is taken
    as a parameter, a function of the model and of the two arguments the
    file passes besides the (constant) default configuration. *)
Variable load_pretrained : InceptionV4.t -> Z -> Z -> InceptionV4.t.

(** [**kwargs] can only carry [drop_rate], the one argument of
    [InceptionV4] that is left. *)
Definition inception_v4 (pretrained : bool) (num_classes in_channels : Z)
    (drop_rate : Q) : option InceptionV4.t :=
  model <- InceptionV4.init in_channels num_classes drop_rate ;;
  Some (if pretrained
        then load_pretrained model num_classes in_channels
        else model).
End Factory.

(** ** Vocabulary of the statements *)

(** The blocks a model is built from, before its weights are initialized. *)
Definition blocks_of (s : Stem.t) (a : InceptionA.t) (ra : ReductionA.t)
    (b : InceptionB.t) (rb : ReductionB.t) (c : InceptionC.t)
  : list Block.t :=
  [Block.stem s]
  ++ repeat (Block.inception_a a) 4
  ++ [Block.reduction_a ra]
  ++ repeat (Block.inception_b b) 7
  ++ [Block.reduction_b rb]
  ++ repeat (Block.inception_c c) 3.

(** A block as its constructor builds it, or as it stands in a model after
    [_initialize_weights] has visited its cells. *)
Definition is_Stem (in_channels : Z) (s' : Stem.t) : Prop :=
  exists s, Stem.init in_channels = Some s /\
    (s' = s \/ s' = Stem.visit_cells InceptionV4._initialize_cell s).

Definition is_InceptionA (a' : InceptionA.t) : Prop :=
  exists a, InceptionA.init = Some a /\
    (a' = a \/ a' = InceptionA.visit_cells InceptionV4._initialize_cell a).

Definition is_InceptionB (b' : InceptionB.t) : Prop :=
  exists b, InceptionB.init = Some b /\
    (b' = b \/ b' = InceptionB.visit_cells InceptionV4._initialize_cell b).

Definition is_InceptionC (c' : InceptionC.t) : Prop :=
  exists c, InceptionC.init = Some c /\
    (c' = c \/ c' = InceptionC.visit_cells InceptionV4._initialize_cell c).

Definition is_ReductionA (a' : ReductionA.t) : Prop :=
  exists a, ReductionA.init = Some a /\
    (a' = a \/ a' = ReductionA.visit_cells InceptionV4._initialize_cell a).

Definition is_ReductionB (b' : ReductionB.t) : Prop :=
  exists b, ReductionB.init = Some b /\
    (b' = b \/ b' = ReductionB.visit_cells InceptionV4._initialize_cell b).

(** Extent left by a 3-wide window moved by steps of 2 without padding,
    and the extents that leave the Stem and the whole feature extractor. *)
Definition halve (i : Z) : Z := (i - 1) / 2.

Definition Stem_out (i : Z) : Z := halve (halve (halve i - 2) - 2).

Definition features_out (i : Z) : Z := halve (halve (Stem_out i)).



(** The visitor hands every cell back as a cell of the same class. *)
Definition same_class (c c' : LeafCell) : Prop :=
  match c, c' with
  | Conv2d_cell _, Conv2d_cell _
  | BatchNorm2d_cell _, BatchNorm2d_cell _
  | ReLU_cell _, ReLU_cell _
  | MaxPool2d_cell _, MaxPool2d_cell _
  | AvgPool2d_cell _, AvgPool2d_cell _
  | GlobalAvgPooling_cell _, GlobalAvgPooling_cell _
  | Dropout_cell _, Dropout_cell _
  | Dense_cell _, Dense_cell _ => True
  | _, _ => False
  end.

Definition keeps_class (f : LeafCell -> LeafCell) : Prop :=
  forall c, same_class c (f c).

Definition is_default (p : Param) : bool :=
  init.Initializer_eqb (p_init p) init.FrameworkDefault.

Definition is_xavier (p : Param) : bool :=
  init.Initializer_eqb (p_init p) init.XavierUniform.

(** Every parameter of the cell holds what the framework gave it. *)
Definition untouched (cell : LeafCell) : bool :=
  match cell with
  | Conv2d_cell c => is_default (nn.Conv2d.weight c)
  | BatchNorm2d_cell b =>
      is_default (nn.BatchNorm2d.gamma b)
      && is_default (nn.BatchNorm2d.beta b)
      && is_default (nn.BatchNorm2d.moving_mean b)
      && is_default (nn.BatchNorm2d.moving_variance b)
  | Dense_cell d =>
      is_default (nn.Dense.weight d) && is_default (nn.Dense.bias d)
  | _ => true
  end.

(** The state of the parameters after the initialization pass: Xavier
    uniform for the weight of a convolution, the framework's default for
    everything else. *)
Definition initialized (cell : LeafCell) : bool :=
  match cell with
  | Conv2d_cell c => is_xavier (nn.Conv2d.weight c)
  | _ => untouched cell
  end.

Definition is_Conv2d (cell : LeafCell) : bool :=
  match cell with
  | Conv2d_cell _ => true
  | _ => false
  end.

(** The class of a block, and the order of section 3 of the spec. *)
Inductive BlockClass :=
| Stem_class
| InceptionA_class
| ReductionA_class
| InceptionB_class
| ReductionB_class
| InceptionC_class.

Definition class_of (b : Block.t) : BlockClass :=
  match b with
  | Block.stem _ => Stem_class
  | Block.inception_a _ => InceptionA_class
  | Block.reduction_a _ => ReductionA_class
  | Block.inception_b _ => InceptionB_class
  | Block.reduction_b _ => ReductionB_class
  | Block.inception_c _ => InceptionC_class
  end.

Definition claimed_order : list BlockClass :=
  [Stem_class]
  ++ repeat InceptionA_class 4
  ++ [ReductionA_class]
  ++ repeat InceptionB_class 7
  ++ [ReductionB_class]
  ++ repeat InceptionC_class 3.

(** The feature extractor is made of [count] blocks, in the claimed order. *)
Definition features_as_claimed (count : nat) (m : InceptionV4.t) : Prop :=
  length (InceptionV4.features m) = count /\
  map class_of (InceptionV4.features m) = claimed_order.

(** Kernels without content, to run the model on shapes alone. *)
Definition unit_kernels : Kernels := {|
  payload := unit;
  rng := unit;
  conv2d_k := fun _ _ _ _ _ _ => tt;
  batch_norm_k := fun _ _ _ _ _ _ _ _ => tt;
  relu_k := fun _ => tt;
  max_pool_k := fun _ _ _ _ => tt;
  avg_pool_k := fun _ _ _ _ => tt;
  concat_k := fun _ _ => tt;
  reduce_mean_k := fun _ _ _ => tt;
  dense_k := fun _ _ _ => tt;
  dropout_k := fun _ r _ => (tt, r)
|}.

(** A tensor without content, of the given shape. *)
Definition blank (s : Shape) : @Tensor unit_kernels :=
  @mkTensor unit_kernels s tt.

(** Kernels that only record the random state the dropout mask was drawn
    from: the payload is the state read last, the state a counter. *)
Definition tracing_kernels : Kernels := {|
  payload := Z;
  rng := Z;
  conv2d_k := fun _ _ _ _ _ d => d;
  batch_norm_k := fun _ _ _ _ _ _ _ d => d;
  relu_k := fun d => d;
  max_pool_k := fun _ _ _ d => d;
  avg_pool_k := fun _ _ _ d => d;
  concat_k := fun _ ds => fold_right Z.max 0 ds;
  reduce_mean_k := fun _ _ d => d;
  dense_k := fun _ _ d => d;
  dropout_k := fun _ r _ => (r, r + 1)
|}.

Section Vocabulary.
Context `{Kernels}.

(** The call succeeds and the tensor it returns has shape [s]. *)
Definition yields (m : option Tensor) (s : Shape) : Prop :=
  exists y, m = Some y /\ shape y = s.

(** The tensors have four axes and agree on batch, height and width: they
    may differ in their channel count only. *)
Definition same_spatial (ts : list Tensor) : Prop :=
  exists n h w, Forall (fun t => exists c, shape t = [n; c; h; w]) ts.

(** Parallel branches applied to one input and concatenated along [axis]. *)
Definition fork (branches : list (Tensor -> option Tensor)) (axis : nat)
    (x : Tensor) : option Tensor :=
  ts <- sequence (map (fun branch => branch x) branches) ;;
  ops.concat ts axis.

(** Whenever all the branches accept an input, their results agree on
    batch, height and width. *)
Definition aligned (branches : list (Tensor -> option Tensor)) : Prop :=
  forall x ts,
    sequence (map (fun branch => branch x) branches) = Some ts ->
    same_spatial ts.

(** The branches that meet at each [ops.concat] of the file. *)
Definition Stem_mixed_3a (s : Stem.t) (training : bool) :=
  [nn.MaxPool2d.construct (Stem.mixed_3a_branch_0 s);
   BasicConv2d.construct (Stem.mixed_3a_branch_1 s) training].

Definition Stem_mixed_4a (s : Stem.t) (training : bool) :=
  [Branch.construct (Stem.mixed_4a_branch_0 s) training;
   Branch.construct (Stem.mixed_4a_branch_1 s) training].

Definition Stem_mixed_5a (s : Stem.t) (training : bool) :=
  [BasicConv2d.construct (Stem.mixed_5a_branch_0 s) training;
   nn.MaxPool2d.construct (Stem.mixed_5a_branch_1 s)].

Definition InceptionA_branches (a : InceptionA.t) (training : bool) :=
  [BasicConv2d.construct (InceptionA.branch_0 a) training;
   Branch.construct (InceptionA.branch_1 a) training;
   Branch.construct (InceptionA.branch_2 a) training;
   Branch.construct (InceptionA.branch_3 a) training].

Definition InceptionB_branches (b : InceptionB.t) (training : bool) :=
  [BasicConv2d.construct (InceptionB.branch_0 b) training;
   Branch.construct (InceptionB.branch_1 b) training;
   Branch.construct (InceptionB.branch_2 b) training;
   Branch.construct (InceptionB.branch_3 b) training].

Definition ReductionA_branches (a : ReductionA.t) (training : bool) :=
  [BasicConv2d.construct (ReductionA.branch_0 a) training;
   Branch.construct (ReductionA.branch_1 a) training;
   nn.MaxPool2d.construct (ReductionA.branch_2 a)].

Definition ReductionB_branches (b : ReductionB.t) (training : bool) :=
  [Branch.construct (ReductionB.branch_0 b) training;
   Branch.construct (ReductionB.branch_1 b) training;
   nn.MaxPool2d.construct (ReductionB.branch_2 b)].

Definition InceptionC_split_1 (c : InceptionC.t) (training : bool) :=
  [BasicConv2d.construct (InceptionC.branch_1_1 c) training;
   BasicConv2d.construct (InceptionC.branch_1_2 c) training].

Definition InceptionC_split_2 (c : InceptionC.t) (training : bool) :=
  [BasicConv2d.construct (InceptionC.branch_2_1 c) training;
   BasicConv2d.construct (InceptionC.branch_2_2 c) training].

Definition InceptionC_branches (c : InceptionC.t) (training : bool) :=
  [BasicConv2d.construct (InceptionC.branch_0 c) training;
   (fun x =>
      x1 <- BasicConv2d.construct (InceptionC.branch_1 c) training x ;;
      fork (InceptionC_split_1 c training) 1 x1);
   (fun x =>
      x2 <- Branch.construct (InceptionC.branch_2 c) training x ;;
      fork (InceptionC_split_2 c training) 1 x2);
   Branch.construct (InceptionC.branch_3 c) training].
(** The tensor that reaches the classifier: features, pool, dropout. *)
Definition before_classifier (m : InceptionV4.t) (training : bool)
    (x : Tensor) (r : rng) : option (Tensor * rng) :=
  f <- InceptionV4.forward_features m training x ;;
  p <- GlobalAvgPooling.construct (InceptionV4.pool m) f ;;
  Some (nn.Dropout.construct (InceptionV4.dropout m) training p r).

(** The tensor that leaves the [k]-th block of the feature extractor. *)
Definition after_block (k : nat) (m : InceptionV4.t) (training : bool)
    (x : Tensor) : option Tensor :=
  nn.SequentialCell.construct (Block.construct training)
    (firstn k (InceptionV4.features m)) x.
End Vocabulary.

(** * Properties *)

(** ** The error monad *)

Lemma bind_Some {A B : Type} (m : option A) (k : A -> option B) (b : B) :
  bind m k = Some b <-> exists a, m = Some a /\ k a = Some b.
Proof.
  split.
  - destruct m as [a|]; cbn; [eauto | discriminate].
  - intros (a & -> & Hk). exact Hk.
Qed.

Lemma check_Some (b : bool) (u : unit) : check b = Some u <-> b = true.
Proof.
  destruct b, u; cbn; split; congruence.
Qed.

(** ** Window arithmetic *)

Lemma ceil_div_1 (a : Z) : ceil_div a 1 = a.
Proof.
  unfold ceil_div. rewrite Z.div_1_r. lia.
Qed.

(** A stride of one in mode "same" keeps the extent, whatever the window. *)
Lemma out_size_same_1 (i k p : Z) : out_size same i k 1 p = i.
Proof.
  apply ceil_div_1.
Qed.

(** So does a 3-wide window with a padding of one on both sides. *)
Lemma out_size_pad_3_1_1 (i : Z) : out_size pad i 3 1 1 = i.
Proof.
  unfold out_size. rewrite Z.div_1_r. lia.
Qed.

Lemma Shape_eqb_eq (s1 s2 : Shape) : Shape_eqb s1 s2 = true <-> s1 = s2.
Proof.
  unfold Shape_eqb. destruct (list_eq_dec Z.eq_dec s1 s2); split; congruence.
Qed.

Lemma Shape_eqb_refl (s : Shape) : Shape_eqb s s = true.
Proof.
  now apply Shape_eqb_eq.
Qed.

Lemma window_shape_Some (mode : PadMode) (ks st : Z * Z) (p ch : Z)
    (s s' : Shape) :
  window_shape mode ks st p ch s = Some s' <->
  exists n c h w,
    s = [n; c; h; w] /\
    0 < out_size mode h (fst ks) (fst st) p /\
    0 < out_size mode w (snd ks) (snd st) p /\
    s' = [n; ch; out_size mode h (fst ks) (fst st) p;
          out_size mode w (snd ks) (snd st) p].
Proof.
  unfold window_shape. split.
  - destruct s as [|n [|c [|h [|w [|? ?]]]]]; try discriminate.
    intros H. apply bind_Some in H as ([] & Hc & Hs).
    apply check_Some, andb_true_iff in Hc as [Hh Hw].
    apply Z.ltb_lt in Hh, Hw. inversion Hs; subst.
    exists n, c, h, w. auto.
  - intros (n & c & h & w & -> & Hh & Hw & ->).
    apply Z.ltb_lt in Hh, Hw. now rewrite Hh, Hw.
Qed.

(** ** Shapes through the layers *)

Section Shapes.
Context `{Kernels}.

Lemma yields_Some (x : Tensor) (s : Shape) :
  shape x = s -> yields (Some x) s.
Proof.
  intros Hx. now exists x.
Qed.

Lemma yields_bind (m : option Tensor) (k : Tensor -> option Tensor)
    (s1 s2 : Shape) :
  yields m s1 ->
  (forall y, shape y = s1 -> yields (k y) s2) ->
  yields (bind m k) s2.
Proof.
  intros (y & -> & Hy) Hk. cbn. now apply Hk.
Qed.

(** *** Forward rules: a well-shaped input is accepted *)

Lemma Conv2d_yields (c : nn.Conv2d.t) (x : Tensor) (n ci h w oc oh ow : Z) :
  shape x = [n; ci; h; w] ->
  ci = nn.Conv2d.in_channels c ->
  oc = nn.Conv2d.out_channels c ->
  oh = out_size (nn.Conv2d.pad_mode c) h (fst (nn.Conv2d.kernel_size c))
         (fst (nn.Conv2d.stride c)) (nn.Conv2d.padding c) ->
  ow = out_size (nn.Conv2d.pad_mode c) w (snd (nn.Conv2d.kernel_size c))
         (snd (nn.Conv2d.stride c)) (nn.Conv2d.padding c) ->
  0 < oh -> 0 < ow ->
  yields (nn.Conv2d.construct c x) [n; oc; oh; ow].
Proof.
  intros Hx -> -> -> -> Hh Hw. unfold nn.Conv2d.construct.
  rewrite Hx, Z.eqb_refl. cbn [check bind].
  replace (window_shape _ _ _ _ _ _) with
    (Some [n; nn.Conv2d.out_channels c;
           out_size (nn.Conv2d.pad_mode c) h
             (fst (nn.Conv2d.kernel_size c)) (fst (nn.Conv2d.stride c))
             (nn.Conv2d.padding c);
           out_size (nn.Conv2d.pad_mode c) w
             (snd (nn.Conv2d.kernel_size c)) (snd (nn.Conv2d.stride c))
             (nn.Conv2d.padding c)]).
  - cbn [bind]. eexists. split; reflexivity.
  - symmetry. apply window_shape_Some. exists n, (nn.Conv2d.in_channels c), h, w.
    auto.
Qed.

Lemma BatchNorm2d_yields (b : nn.BatchNorm2d.t) (training : bool)
    (x : Tensor) (n c h w : Z) :
  shape x = [n; c; h; w] ->
  c = nn.BatchNorm2d.num_features b ->
  yields (nn.BatchNorm2d.construct b training x) [n; c; h; w].
Proof.
  intros Hx ->. unfold nn.BatchNorm2d.construct.
  rewrite Hx, Z.eqb_refl. cbn. eexists. split; reflexivity.
Qed.

Lemma ReLU_yields (r : nn.ReLU.t) (x : Tensor) (s : Shape) :
  shape x = s -> yields (nn.ReLU.construct r x) s.
Proof.
  intros <-. eexists. split; reflexivity.
Qed.

Lemma BasicConv2d_yields (b : BasicConv2d.t) (training : bool) (x : Tensor)
    (n ci h w oc oh ow : Z) :
  shape x = [n; ci; h; w] ->
  ci = nn.Conv2d.in_channels (BasicConv2d.conv b) ->
  oc = nn.Conv2d.out_channels (BasicConv2d.conv b) ->
  oc = nn.BatchNorm2d.num_features (BasicConv2d.bn b) ->
  oh = out_size (nn.Conv2d.pad_mode (BasicConv2d.conv b)) h
         (fst (nn.Conv2d.kernel_size (BasicConv2d.conv b)))
         (fst (nn.Conv2d.stride (BasicConv2d.conv b)))
         (nn.Conv2d.padding (BasicConv2d.conv b)) ->
  ow = out_size (nn.Conv2d.pad_mode (BasicConv2d.conv b)) w
         (snd (nn.Conv2d.kernel_size (BasicConv2d.conv b)))
         (snd (nn.Conv2d.stride (BasicConv2d.conv b)))
         (nn.Conv2d.padding (BasicConv2d.conv b)) ->
  0 < oh -> 0 < ow ->
  yields (BasicConv2d.construct b training x) [n; oc; oh; ow].
Proof.
  intros Hx Hci Hoc Hnf Hoh How Hh Hw. unfold BasicConv2d.construct.
  eapply yields_bind.
  { eapply Conv2d_yields; eassumption. }
  intros y Hy. eapply yields_bind.
  { eapply BatchNorm2d_yields; eassumption. }
  intros z Hz. eapply yields_bind.
  { apply ReLU_yields. eassumption. }
  intros u Hu. now apply yields_Some.
Qed.

Lemma MaxPool2d_yields (p : nn.MaxPool2d.t) (x : Tensor)
    (n c h w oh ow : Z) :
  shape x = [n; c; h; w] ->
  oh = out_size (nn.MaxPool2d.pad_mode p) h (nn.MaxPool2d.kernel_size p)
         (nn.MaxPool2d.stride p) 0 ->
  ow = out_size (nn.MaxPool2d.pad_mode p) w (nn.MaxPool2d.kernel_size p)
         (nn.MaxPool2d.stride p) 0 ->
  0 < oh -> 0 < ow ->
  yields (nn.MaxPool2d.construct p x) [n; c; oh; ow].
Proof.
  intros Hx -> -> Hh Hw. unfold nn.MaxPool2d.construct. rewrite Hx.
  match goal with
  | |- yields (bind ?ws _) _ =>
      replace ws with
        (Some [n; c;
               out_size (nn.MaxPool2d.pad_mode p) h
                 (nn.MaxPool2d.kernel_size p) (nn.MaxPool2d.stride p) 0;
               out_size (nn.MaxPool2d.pad_mode p) w
                 (nn.MaxPool2d.kernel_size p) (nn.MaxPool2d.stride p) 0])
  end.
  - cbn [bind]. eexists. split; reflexivity.
  - symmetry. apply window_shape_Some. exists n, c, h, w. auto.
Qed.

Lemma AvgPool2d_yields (p : nn.AvgPool2d.t) (x : Tensor)
    (n c h w oh ow : Z) :
  shape x = [n; c; h; w] ->
  oh = out_size (nn.AvgPool2d.pad_mode p) h (nn.AvgPool2d.kernel_size p)
         (nn.AvgPool2d.stride p) 0 ->
  ow = out_size (nn.AvgPool2d.pad_mode p) w (nn.AvgPool2d.kernel_size p)
         (nn.AvgPool2d.stride p) 0 ->
  0 < oh -> 0 < ow ->
  yields (nn.AvgPool2d.construct p x) [n; c; oh; ow].
Proof.
  intros Hx -> -> Hh Hw. unfold nn.AvgPool2d.construct. rewrite Hx.
  match goal with
  | |- yields (bind ?ws _) _ =>
      replace ws with
        (Some [n; c;
               out_size (nn.AvgPool2d.pad_mode p) h
                 (nn.AvgPool2d.kernel_size p) (nn.AvgPool2d.stride p) 0;
               out_size (nn.AvgPool2d.pad_mode p) w
                 (nn.AvgPool2d.kernel_size p) (nn.AvgPool2d.stride p) 0])
  end.
  - cbn [bind]. eexists. split; reflexivity.
  - symmetry. apply window_shape_Some. exists n, c, h, w. auto.
Qed.

(** Tensors that agree on batch, height and width concatenate along the
    channel axis, where their channel counts add up. *)
Lemma concat_extent_channels (n h w : Z) (ts : list Tensor) (cs : list Z) :
  Forall2 (fun t c => shape t = [n; c; h; w]) ts cs ->
  ops.concat_extent 1 [n; h; w] (map shape ts)
  = Some (fold_right Z.add 0 cs).
Proof.
  induction 1 as [|t c ts cs Ht _ IH]; [reflexivity|].
  cbn [map ops.concat_extent]. rewrite Ht. cbn [ops.split_axis].
  rewrite Shape_eqb_refl, IH. reflexivity.
Qed.

Lemma concat_yields (ts : list Tensor) (cs : list Z) (n h w c : Z) :
  ts <> [] ->
  Forall2 (fun t c => shape t = [n; c; h; w]) ts cs ->
  c = fold_right Z.add 0 cs ->
  yields (ops.concat ts 1) [n; c; h; w].
Proof.
  intros Hne Hts ->. unfold ops.concat.
  destruct Hts as [|t c0 ts cs Ht Hts]; [congruence|].
  rewrite Ht. cbn [ops.split_axis].
  rewrite (concat_extent_channels n h w (t :: ts) (c0 :: cs))
    by (constructor; assumption).
  cbn [bind]. eexists. split; reflexivity.
Qed.

Lemma GlobalAvgPooling_yields (x : Tensor) (n c h w : Z) :
  shape x = [n; c; h; w] ->
  yields (GlobalAvgPooling.construct GlobalAvgPooling.init x) [n; c].
Proof.
  intros Hx. unfold GlobalAvgPooling.construct, ops.mean. rewrite Hx.
  eexists. split; reflexivity.
Qed.

Lemma Dense_yields (d : nn.Dense.t) (x : Tensor) (n c : Z) :
  shape x = [n; c] ->
  c = nn.Dense.in_channels d ->
  yields (nn.Dense.construct d x) [n; nn.Dense.out_channels d].
Proof.
  intros Hx ->. unfold nn.Dense.construct. rewrite Hx. cbn [rev app].
  rewrite Z.eqb_refl. cbn. eexists. split; reflexivity.
Qed.

(** *** Stepping through a [construct] body *)

Ltac reduce_cfg :=
  cbn [BasicConv2d.conv BasicConv2d.bn
       nn.Conv2d.in_channels nn.Conv2d.out_channels nn.Conv2d.kernel_size
       nn.Conv2d.stride nn.Conv2d.pad_mode nn.Conv2d.padding
       nn.BatchNorm2d.num_features
       nn.MaxPool2d.kernel_size nn.MaxPool2d.stride nn.MaxPool2d.pad_mode
       nn.AvgPool2d.kernel_size nn.AvgPool2d.stride nn.AvgPool2d.pad_mode
       fst snd].

(** Solves [?v = e] by giving [?v] the value of [e]; extents that a layer
    keeps are rewritten first, so that [e] may mention a symbolic extent. *)
Ltac value_eq :=
  reduce_cfg; rewrite ?out_size_same_1, ?out_size_pad_3_1_1;
  lazymatch goal with
  | |- _ = ?e => let v := eval vm_compute in e in change e with v
  end;
  reflexivity.

Ltac shape_fwd :=
  lazymatch goal with
  | |- yields (bind _ _) _ =>
      eapply yields_bind; [shape_fwd | intros ? ?; shape_fwd]
  | |- yields (Some _) _ =>
      apply yields_Some; eassumption
  | |- yields (BasicConv2d.construct _ _ _) _ =>
      eapply BasicConv2d_yields;
      [eassumption | reflexivity | value_eq | reflexivity
       | value_eq | value_eq | lia | lia]
  | |- yields (nn.MaxPool2d.construct _ _) _ =>
      eapply MaxPool2d_yields; [eassumption | value_eq | value_eq | lia | lia]
  | |- yields (nn.AvgPool2d.construct _ _) _ =>
      eapply AvgPool2d_yields; [eassumption | value_eq | value_eq | lia | lia]
  | |- yields (Branch.construct _ _ _) _ =>
      cbn [Branch.construct nn.SequentialCell.construct Member.construct];
      shape_fwd
  | |- yields (ops.concat _ _) _ =>
      eapply concat_yields;
      [discriminate
      | repeat (eapply Forall2_cons; [eassumption|]); apply Forall2_nil
      | value_eq]
  end.

(** *** The blocks

    A block is looked at twice: as its constructor builds it, and as it
    stands in a model, after [_initialize_weights] has visited its cells. *)

Ltac open_block Hinit :=
  vm_compute in Hinit; injection Hinit as <-;
  lazymatch goal with
  | |- yields (_ ?blk _ _) _ =>
      let v := eval vm_compute in blk in change blk with v
  end.

Lemma Stem_init_Some (in_channels : Z) :
  0 < in_channels -> exists s, Stem.init in_channels = Some s.
Proof.
  intros Hic. destruct in_channels as [|p|p]; try lia.
  eexists. vm_compute. reflexivity.
Qed.

Lemma Stem_shape (in_channels : Z) (s s' : Stem.t) (training : bool)
    (x : Tensor) (n : Z) :
  Stem.init in_channels = Some s ->
  s' = s \/ s' = Stem.visit_cells InceptionV4._initialize_cell s ->
  shape x = [n; in_channels; 299; 299] ->
  yields (Stem.construct s' training x) [n; 384; 35; 35].
Proof.
  intros Hs Hs' Hx.
  destruct in_channels as [|p|p]; try (vm_compute in Hs; discriminate).
  destruct Hs' as [-> | ->]; open_block Hs;
    unfold Stem.construct;
    cbn [Stem.conv2d_1a_3x3 Stem.conv2d_2a_3x3 Stem.conv2d_2b_3x3
         Stem.mixed_3a_branch_0 Stem.mixed_3a_branch_1
         Stem.mixed_4a_branch_0 Stem.mixed_4a_branch_1
         Stem.mixed_5a_branch_0 Stem.mixed_5a_branch_1];
    shape_fwd.
Qed.

Lemma InceptionA_shape (a a' : InceptionA.t) (training : bool) (x : Tensor)
    (n h w : Z) :
  InceptionA.init = Some a ->
  a' = a \/ a' = InceptionA.visit_cells InceptionV4._initialize_cell a ->
  shape x = [n; 384; h; w] -> 0 < h -> 0 < w ->
  yields (InceptionA.construct a' training x) [n; 384; h; w].
Proof.
  intros Ha Ha' Hx Hh Hw.
  destruct Ha' as [-> | ->]; open_block Ha;
    unfold InceptionA.construct;
    cbn [InceptionA.branch_0 InceptionA.branch_1 InceptionA.branch_2
         InceptionA.branch_3];
    shape_fwd.
Qed.

Lemma InceptionB_shape (b b' : InceptionB.t) (training : bool) (x : Tensor)
    (n h w : Z) :
  InceptionB.init = Some b ->
  b' = b \/ b' = InceptionB.visit_cells InceptionV4._initialize_cell b ->
  shape x = [n; 1024; h; w] -> 0 < h -> 0 < w ->
  yields (InceptionB.construct b' training x) [n; 1024; h; w].
Proof.
  intros Hb Hb' Hx Hh Hw.
  destruct Hb' as [-> | ->]; open_block Hb;
    unfold InceptionB.construct;
    cbn [InceptionB.branch_0 InceptionB.branch_1 InceptionB.branch_2
         InceptionB.branch_3];
    shape_fwd.
Qed.

Lemma InceptionC_shape (c c' : InceptionC.t) (training : bool) (x : Tensor)
    (n h w : Z) :
  InceptionC.init = Some c ->
  c' = c \/ c' = InceptionC.visit_cells InceptionV4._initialize_cell c ->
  shape x = [n; 1536; h; w] -> 0 < h -> 0 < w ->
  yields (InceptionC.construct c' training x) [n; 1536; h; w].
Proof.
  intros Hc Hc' Hx Hh Hw.
  destruct Hc' as [-> | ->]; open_block Hc;
    unfold InceptionC.construct;
    cbn [InceptionC.branch_0 InceptionC.branch_1 InceptionC.branch_1_1
         InceptionC.branch_1_2 InceptionC.branch_2 InceptionC.branch_2_1
         InceptionC.branch_2_2 InceptionC.branch_3];
    shape_fwd.
Qed.

Lemma ReductionA_shape (a a' : ReductionA.t) (training : bool) (x : Tensor)
    (n : Z) :
  ReductionA.init = Some a ->
  a' = a \/ a' = ReductionA.visit_cells InceptionV4._initialize_cell a ->
  shape x = [n; 384; 35; 35] ->
  yields (ReductionA.construct a' training x) [n; 1024; 17; 17].
Proof.
  intros Ha Ha' Hx.
  destruct Ha' as [-> | ->]; open_block Ha;
    unfold ReductionA.construct;
    cbn [ReductionA.branch_0 ReductionA.branch_1 ReductionA.branch_2];
    shape_fwd.
Qed.

Lemma ReductionB_shape (b b' : ReductionB.t) (training : bool) (x : Tensor)
    (n : Z) :
  ReductionB.init = Some b ->
  b' = b \/ b' = ReductionB.visit_cells InceptionV4._initialize_cell b ->
  shape x = [n; 1024; 17; 17] ->
  yields (ReductionB.construct b' training x) [n; 1536; 8; 8].
Proof.
  intros Hb Hb' Hx.
  destruct Hb' as [-> | ->]; open_block Hb;
    unfold ReductionB.construct;
    cbn [ReductionB.branch_0 ReductionB.branch_1 ReductionB.branch_2];
    shape_fwd.
Qed.

(** *** Building the model *)

Lemma Dropout_init_Some (drop_rate : Q) :
  (0 <= drop_rate)%Q -> (drop_rate < 1)%Q ->
  nn.Dropout.init (1 - drop_rate)%Q
  = Some (nn.Dropout.mk (1 - drop_rate)%Q).
Proof.
  intros H0 H1. unfold nn.Dropout.init.
  assert (Hlo : Qle_bool (1 - drop_rate) 0 = false).
  { destruct (Qle_bool (1 - drop_rate) 0) eqn:E; [|reflexivity].
    apply Qle_bool_iff in E. lra. }
  assert (Hhi : Qle_bool (1 - drop_rate) 1 = true).
  { apply Qle_bool_iff. lra. }
  rewrite Hlo, Hhi. reflexivity.
Qed.

Lemma Dense_init_Some (in_channels out_channels : Z) :
  0 < in_channels -> 0 < out_channels ->
  nn.Dense.init in_channels out_channels
  = Some (nn.Dense.mk in_channels out_channels
            (default_parameter [out_channels; in_channels])
            (default_parameter [out_channels])).
Proof.
  intros Hi Ho. unfold nn.Dense.init.
  apply Z.ltb_lt in Hi, Ho. rewrite Hi, Ho. reflexivity.
Qed.

Lemma Dense_init_inv (in_channels out_channels : Z) (d : nn.Dense.t) :
  nn.Dense.init in_channels out_channels = Some d ->
  0 < out_channels /\
  d = nn.Dense.mk in_channels out_channels
        (default_parameter [out_channels; in_channels])
        (default_parameter [out_channels]).
Proof.
  unfold nn.Dense.init. intros H1.
  apply bind_Some in H1 as (u & Hc & H1).
  apply check_Some, andb_true_iff in Hc as [_ Ho]. apply Z.ltb_lt in Ho.
  now inversion H1.
Qed.

Lemma InceptionV4_init_inv (in_channels num_classes : Z) (drop_rate : Q)
    (m : InceptionV4.t) :
  InceptionV4.init in_channels num_classes drop_rate = Some m ->
  exists s a ra b rb c d cl,
    Stem.init in_channels = Some s /\
    InceptionA.init = Some a /\
    ReductionA.init = Some ra /\
    InceptionB.init = Some b /\
    ReductionB.init = Some rb /\
    InceptionC.init = Some c /\
    nn.Dropout.init (1 - drop_rate)%Q = Some d /\
    nn.Dense.init 1536 num_classes = Some cl /\
    m = InceptionV4._initialize_weights
          (InceptionV4.mk (blocks_of s a ra b rb c) GlobalAvgPooling.init d
             1536 cl).
Proof.
  unfold InceptionV4.init, Block.Stem, Block.InceptionA, Block.ReductionA,
    Block.InceptionB, Block.ReductionB, Block.InceptionC.
  intros Hm.
  destruct (Stem.init in_channels) as [s|]; [|discriminate].
  destruct InceptionA.init as [a|]; [|discriminate].
  destruct ReductionA.init as [ra|]; [|discriminate].
  destruct InceptionB.init as [b|]; [|discriminate].
  destruct ReductionB.init as [rb|]; [|discriminate].
  destruct InceptionC.init as [c|]; [|discriminate].
  cbn [bind app repeat sequence] in Hm.
  destruct (nn.Dropout.init (1 - drop_rate)) as [d|]; [|discriminate].
  destruct (nn.Dense.init 1536 num_classes) as [cl|]; [|discriminate].
  cbn [bind] in Hm. injection Hm as <-.
  exists s, a, ra, b, rb, c, d, cl. repeat split; reflexivity.
Qed.

Lemma InceptionV4_init_Some (in_channels num_classes : Z) (drop_rate : Q) :
  0 < in_channels -> 0 < num_classes ->
  (0 <= drop_rate)%Q -> (drop_rate < 1)%Q ->
  exists m, InceptionV4.init in_channels num_classes drop_rate = Some m.
Proof.
  intros Hic Hnc H0 H1.
  destruct (Stem_init_Some in_channels Hic) as [s Hs].
  assert (exists a, InceptionA.init = Some a) as [a Ha]
    by (eexists; vm_compute; reflexivity).
  assert (exists ra, ReductionA.init = Some ra) as [ra Hra]
    by (eexists; vm_compute; reflexivity).
  assert (exists b, InceptionB.init = Some b) as [b Hb]
    by (eexists; vm_compute; reflexivity).
  assert (exists rb, ReductionB.init = Some rb) as [rb Hrb]
    by (eexists; vm_compute; reflexivity).
  assert (exists c, InceptionC.init = Some c) as [c Hc]
    by (eexists; vm_compute; reflexivity).
  unfold InceptionV4.init, Block.Stem, Block.InceptionA, Block.ReductionA,
    Block.InceptionB, Block.ReductionB, Block.InceptionC.
  rewrite Hs, Ha, Hra, Hb, Hrb, Hc.
  rewrite (Dropout_init_Some drop_rate H0 H1).
  rewrite (Dense_init_Some 1536 num_classes) by lia.
  cbn [bind app repeat sequence]. eexists. reflexivity.
Qed.

(** *** The whole model *)

Ltac net_fwd :=
  lazymatch goal with
  | |- yields (bind _ _) _ =>
      eapply yields_bind; [net_fwd | intros ? ?; net_fwd]
  | |- yields (Some _) _ =>
      apply yields_Some; eassumption
  | |- yields (Stem.construct _ _ _) _ =>
      eapply Stem_shape; [eassumption | right; reflexivity | eassumption]
  | |- yields (InceptionA.construct _ _ _) _ =>
      eapply InceptionA_shape;
      [eassumption | right; reflexivity | eassumption | lia | lia]
  | |- yields (ReductionA.construct _ _ _) _ =>
      eapply ReductionA_shape;
      [eassumption | right; reflexivity | eassumption]
  | |- yields (InceptionB.construct _ _ _) _ =>
      eapply InceptionB_shape;
      [eassumption | right; reflexivity | eassumption | lia | lia]
  | |- yields (ReductionB.construct _ _ _) _ =>
      eapply ReductionB_shape;
      [eassumption | right; reflexivity | eassumption]
  | |- yields (InceptionC.construct _ _ _) _ =>
      eapply InceptionC_shape;
      [eassumption | right; reflexivity | eassumption | lia | lia]
  end.

Lemma forward_features_shape (in_channels num_classes : Z) (drop_rate : Q)
    (m : InceptionV4.t) (training : bool) (x : Tensor) (n : Z) :
  InceptionV4.init in_channels num_classes drop_rate = Some m ->
  shape x = [n; in_channels; 299; 299] ->
  yields (InceptionV4.forward_features m training x) [n; 1536; 8; 8].
Proof.
  intros Hm Hx.
  apply InceptionV4_init_inv in Hm
    as (s & a & ra & b & rb & c & d & cl
        & Hs & Ha & Hra & Hb & Hrb & Hc & _ & _ & ->).
  unfold InceptionV4.forward_features, InceptionV4._initialize_weights,
    InceptionV4.visit_cells, blocks_of.
  cbn [InceptionV4.features app repeat map Block.visit_cells
       nn.SequentialCell.construct Block.construct].
  net_fwd.
Qed.

Lemma Dropout_shape (d : nn.Dropout.t) (training : bool) (x : Tensor)
    (r : rng) :
  shape (fst (nn.Dropout.construct d training x r)) = shape x.
Proof.
  unfold nn.Dropout.construct. destruct training; [|reflexivity].
  destruct (dropout_k _ _ _). reflexivity.
Qed.

Lemma forward_head_shape (in_channels num_classes : Z) (drop_rate : Q)
    (m : InceptionV4.t) (training : bool) (x : Tensor) (r : rng)
    (n c h w : Z) :
  InceptionV4.init in_channels num_classes drop_rate = Some m ->
  shape x = [n; c; h; w] -> c = 1536 ->
  exists y r',
    InceptionV4.forward_head m training x r = Some (y, r') /\
    shape y = [n; num_classes].
Proof.
  intros Hm Hx ->.
  apply InceptionV4_init_inv in Hm
    as (s & a & ra & b & rb & c0 & d & cl
        & _ & _ & _ & _ & _ & _ & _ & Hcl & ->).
  apply Dense_init_inv in Hcl as [_ ->].
  unfold InceptionV4.forward_head, InceptionV4._initialize_weights,
    InceptionV4.visit_cells.
  cbn [InceptionV4.pool InceptionV4.dropout InceptionV4.classifier
       visit.GlobalAvgPooling visit.Dropout visit.Dense
       InceptionV4._initialize_cell].
  destruct (GlobalAvgPooling_yields x n 1536 h w Hx) as (p & -> & Hp).
  cbn [bind].
  pose proof (Dropout_shape d training p r) as Hd.
  destruct (nn.Dropout.construct d training p r) as [q r']. cbn [fst] in Hd.
  rewrite Hp in Hd.
  match goal with
  | |- context [nn.Dense.construct ?cl q] =>
      destruct (Dense_yields cl q n 1536 Hd eq_refl) as (y & -> & Hy)
  end.
  cbn [bind]. exists y, r'. split; [reflexivity | exact Hy].
Qed.

Lemma construct_shape (in_channels num_classes : Z) (drop_rate : Q)
    (m : InceptionV4.t) (training : bool) (x : Tensor) (r : rng) (n : Z) :
  InceptionV4.init in_channels num_classes drop_rate = Some m ->
  shape x = [n; in_channels; 299; 299] ->
  exists y r',
    InceptionV4.construct m training x r = Some (y, r') /\
    shape y = [n; num_classes].
Proof.
  intros Hm Hx. unfold InceptionV4.construct.
  destruct (forward_features_shape _ _ _ m training x n Hm Hx)
    as (f & -> & Hf).
  cbn [bind]. eapply forward_head_shape; eauto.
Qed.

(** *** Backward rules: what an accepted input looked like *)

Lemma Conv2d_inv (c : nn.Conv2d.t) (x y : Tensor) :
  nn.Conv2d.construct c x = Some y ->
  exists n h w,
    shape x = [n; nn.Conv2d.in_channels c; h; w] /\
    shape y =
      [n; nn.Conv2d.out_channels c;
       out_size (nn.Conv2d.pad_mode c) h (fst (nn.Conv2d.kernel_size c))
         (fst (nn.Conv2d.stride c)) (nn.Conv2d.padding c);
       out_size (nn.Conv2d.pad_mode c) w (snd (nn.Conv2d.kernel_size c))
         (snd (nn.Conv2d.stride c)) (nn.Conv2d.padding c)].
Proof.
  unfold nn.Conv2d.construct. intros Hy.
  destruct (shape x) as [|n [|ci [|h [|w [|? ?]]]]] eqn:Hx; try discriminate.
  apply bind_Some in Hy as (u & Hc & Hy).
  apply check_Some, Z.eqb_eq in Hc. subst ci.
  apply bind_Some in Hy as (s & Hs & Hy).
  apply window_shape_Some in Hs
    as (n' & c' & h' & w' & Hx' & _ & _ & ->).
  injection Hx' as <- <- <- <-. injection Hy as <-.
  exists n, h, w. split; reflexivity.
Qed.

Lemma BatchNorm2d_inv (b : nn.BatchNorm2d.t) (training : bool)
    (x y : Tensor) :
  nn.BatchNorm2d.construct b training x = Some y -> shape y = shape x.
Proof.
  unfold nn.BatchNorm2d.construct. intros Hy.
  destruct (shape x) as [|n [|ci [|h [|w [|? ?]]]]] eqn:Hx; try discriminate.
  apply bind_Some in Hy as (u & _ & Hy). injection Hy as <-.
  reflexivity.
Qed.

Lemma BasicConv2d_inv (b : BasicConv2d.t) (training : bool) (x y : Tensor) :
  BasicConv2d.construct b training x = Some y ->
  exists n h w,
    shape x = [n; nn.Conv2d.in_channels (BasicConv2d.conv b); h; w] /\
    shape y =
      [n; nn.Conv2d.out_channels (BasicConv2d.conv b);
       out_size (nn.Conv2d.pad_mode (BasicConv2d.conv b)) h
         (fst (nn.Conv2d.kernel_size (BasicConv2d.conv b)))
         (fst (nn.Conv2d.stride (BasicConv2d.conv b)))
         (nn.Conv2d.padding (BasicConv2d.conv b));
       out_size (nn.Conv2d.pad_mode (BasicConv2d.conv b)) w
         (snd (nn.Conv2d.kernel_size (BasicConv2d.conv b)))
         (snd (nn.Conv2d.stride (BasicConv2d.conv b)))
         (nn.Conv2d.padding (BasicConv2d.conv b))].
Proof.
  unfold BasicConv2d.construct. intros Hy.
  apply bind_Some in Hy as (x1 & H1 & Hy).
  apply bind_Some in Hy as (x2 & H2 & Hy).
  apply bind_Some in Hy as (x3 & H3 & Hy).
  injection Hy as <-. injection H3 as <-. cbn [shape].
  apply BatchNorm2d_inv in H2. rewrite H2.
  now apply Conv2d_inv.
Qed.

Lemma MaxPool2d_inv (p : nn.MaxPool2d.t) (x y : Tensor) :
  nn.MaxPool2d.construct p x = Some y ->
  exists n c h w,
    shape x = [n; c; h; w] /\
    shape y =
      [n; c;
       out_size (nn.MaxPool2d.pad_mode p) h (nn.MaxPool2d.kernel_size p)
         (nn.MaxPool2d.stride p) 0;
       out_size (nn.MaxPool2d.pad_mode p) w (nn.MaxPool2d.kernel_size p)
         (nn.MaxPool2d.stride p) 0].
Proof.
  unfold nn.MaxPool2d.construct. intros Hy.
  destruct (shape x) as [|n [|c [|h [|w [|? ?]]]]] eqn:Hx; try discriminate.
  apply bind_Some in Hy as (s & Hs & Hy).
  apply window_shape_Some in Hs
    as (n' & c' & h' & w' & Hx' & _ & _ & ->).
  injection Hx' as <- <- <- <-. injection Hy as <-.
  exists n, c, h, w. split; reflexivity.
Qed.

Lemma AvgPool2d_inv (p : nn.AvgPool2d.t) (x y : Tensor) :
  nn.AvgPool2d.construct p x = Some y ->
  exists n c h w,
    shape x = [n; c; h; w] /\
    shape y =
      [n; c;
       out_size (nn.AvgPool2d.pad_mode p) h (nn.AvgPool2d.kernel_size p)
         (nn.AvgPool2d.stride p) 0;
       out_size (nn.AvgPool2d.pad_mode p) w (nn.AvgPool2d.kernel_size p)
         (nn.AvgPool2d.stride p) 0].
Proof.
  unfold nn.AvgPool2d.construct. intros Hy.
  destruct (shape x) as [|n [|c [|h [|w [|? ?]]]]] eqn:Hx; try discriminate.
  apply bind_Some in Hy as (s & Hs & Hy).
  apply window_shape_Some in Hs
    as (n' & c' & h' & w' & Hx' & _ & _ & ->).
  injection Hx' as <- <- <- <-. injection Hy as <-.
  exists n, c, h, w. split; reflexivity.
Qed.

(** *** Branches that meet at a concatenation *)

Lemma concat_inv (t : Tensor) (ts : list Tensor) (y : Tensor)
    (n c h w : Z) :
  ops.concat (t :: ts) 1 = Some y ->
  shape t = [n; c; h; w] ->
  exists c', shape y = [n; c'; h; w].
Proof.
  unfold ops.concat. intros Hy Ht. rewrite Ht in Hy.
  cbn [ops.split_axis] in Hy.
  apply bind_Some in Hy as (d & _ & Hy). injection Hy as <-.
  exists d. reflexivity.
Qed.

(** Takes the hypotheses [branch x = Some y] apart, layer by layer, into
    the shapes of the tensors met on the way. *)
Ltac invert_calls :=
  repeat match goal with
  | H : fork _ _ _ = Some _ |- _ => unfold fork in H; cbn [map sequence] in H
  | H : ops.concat (?t :: _) 1 = Some _, Ht : shape ?t = [_; _; _; _] |- _ =>
      eapply concat_inv in H; [|exact Ht]; destruct H as (? & H)
  | H : bind _ _ = Some _ |- _ =>
      let H1 := fresh "Hcall" in
      apply bind_Some in H as (? & H1 & H)
  | H : Some _ = Some _ |- _ => injection H as H; subst
  | H : Branch.construct _ _ _ = Some _ |- _ =>
      cbn [Branch.construct nn.SequentialCell.construct Member.construct] in H
  | H : BasicConv2d.construct _ _ _ = Some _ |- _ =>
      apply BasicConv2d_inv in H as (? & ? & ? & ? & ?)
  | H : nn.MaxPool2d.construct _ _ = Some _ |- _ =>
      apply MaxPool2d_inv in H as (? & ? & ? & ? & ? & ?)
  | H : nn.AvgPool2d.construct _ _ = Some _ |- _ =>
      apply AvgPool2d_inv in H as (? & ? & ? & ? & ? & ?)
  end.

Ltac reduce_cfg_in H :=
  cbn [BasicConv2d.conv BasicConv2d.bn
       nn.Conv2d.in_channels nn.Conv2d.out_channels nn.Conv2d.kernel_size
       nn.Conv2d.stride nn.Conv2d.pad_mode nn.Conv2d.padding
       nn.BatchNorm2d.num_features
       nn.MaxPool2d.kernel_size nn.MaxPool2d.stride nn.MaxPool2d.pad_mode
       nn.AvgPool2d.kernel_size nn.AvgPool2d.stride nn.AvgPool2d.pad_mode
       fst snd] in H.

(** Two descriptions of the shape of one tensor are identified. *)
Ltac unify_shapes :=
  repeat match goal with
  | H : shape _ = _ |- _ =>
      progress (reduce_cfg_in H;
                rewrite ?out_size_same_1, ?out_size_pad_3_1_1 in H)
  | H1 : shape ?y = _, H2 : shape ?y = _ |- _ =>
      rewrite H1 in H2; injection H2 as H2; subst
  end.

Ltac solve_aligned :=
  intros x ts Hts; cbn [map sequence] in Hts;
  invert_calls; unify_shapes;
  do 3 eexists;
  repeat (apply Forall_cons; [eexists; eassumption|]);
  apply Forall_nil.

(** The cells of a visited block, written out. *)
Ltac reduce_visit :=
  cbn [Stem.visit_cells InceptionA.visit_cells InceptionB.visit_cells
       InceptionC.visit_cells ReductionA.visit_cells ReductionB.visit_cells
       Branch.visit_cells Member.visit_cells BasicConv2d.visit_cells map
       visit.Conv2d visit.BatchNorm2d visit.ReLU visit.MaxPool2d
       visit.AvgPool2d InceptionV4._initialize_cell
       BasicConv2d.conv BasicConv2d.bn BasicConv2d.relu
       Stem.conv2d_1a_3x3 Stem.conv2d_2a_3x3 Stem.conv2d_2b_3x3
       Stem.mixed_3a_branch_0 Stem.mixed_3a_branch_1
       Stem.mixed_4a_branch_0 Stem.mixed_4a_branch_1
       Stem.mixed_5a_branch_0 Stem.mixed_5a_branch_1
       InceptionA.branch_0 InceptionA.branch_1 InceptionA.branch_2
       InceptionA.branch_3
       InceptionB.branch_0 InceptionB.branch_1 InceptionB.branch_2
       InceptionB.branch_3
       InceptionC.branch_0 InceptionC.branch_1 InceptionC.branch_1_1
       InceptionC.branch_1_2 InceptionC.branch_2 InceptionC.branch_2_1
       InceptionC.branch_2_2 InceptionC.branch_3
       ReductionA.branch_0 ReductionA.branch_1 ReductionA.branch_2
       ReductionB.branch_0 ReductionB.branch_1 ReductionB.branch_2].

Lemma Stem_aligned (in_channels : Z) (s : Stem.t) (training : bool) :
  is_Stem in_channels s ->
  aligned (Stem_mixed_3a s training) /\
  aligned (Stem_mixed_4a s training) /\
  aligned (Stem_mixed_5a s training).
Proof.
  intros (s0 & Hs0 & Hs).
  destruct in_channels as [|p|p]; try (vm_compute in Hs0; discriminate).
  vm_compute in Hs0. injection Hs0 as <-.
  unfold Stem_mixed_3a, Stem_mixed_4a, Stem_mixed_5a.
  destruct Hs as [-> | ->]; reduce_visit; repeat split; solve_aligned.
Qed.

Lemma InceptionA_aligned (a : InceptionA.t) (training : bool) :
  is_InceptionA a -> aligned (InceptionA_branches a training).
Proof.
  intros (a0 & Ha0 & Ha). vm_compute in Ha0. injection Ha0 as <-.
  unfold InceptionA_branches.
  destruct Ha as [-> | ->]; reduce_visit; solve_aligned.
Qed.

Lemma InceptionB_aligned (b : InceptionB.t) (training : bool) :
  is_InceptionB b -> aligned (InceptionB_branches b training).
Proof.
  intros (b0 & Hb0 & Hb). vm_compute in Hb0. injection Hb0 as <-.
  unfold InceptionB_branches.
  destruct Hb as [-> | ->]; reduce_visit; solve_aligned.
Qed.

Lemma ReductionA_aligned (a : ReductionA.t) (training : bool) :
  is_ReductionA a -> aligned (ReductionA_branches a training).
Proof.
  intros (a0 & Ha0 & Ha). vm_compute in Ha0. injection Ha0 as <-.
  unfold ReductionA_branches.
  destruct Ha as [-> | ->]; reduce_visit; solve_aligned.
Qed.

Lemma ReductionB_aligned (b : ReductionB.t) (training : bool) :
  is_ReductionB b -> aligned (ReductionB_branches b training).
Proof.
  intros (b0 & Hb0 & Hb). vm_compute in Hb0. injection Hb0 as <-.
  unfold ReductionB_branches.
  destruct Hb as [-> | ->]; reduce_visit; solve_aligned.
Qed.

Lemma InceptionC_aligned (c : InceptionC.t) (training : bool) :
  is_InceptionC c ->
  aligned (InceptionC_split_1 c training) /\
  aligned (InceptionC_split_2 c training) /\
  aligned (InceptionC_branches c training).
Proof.
  intros (c0 & Hc0 & Hc). vm_compute in Hc0. injection Hc0 as <-.
  unfold InceptionC_branches, InceptionC_split_1, InceptionC_split_2.
  destruct Hc as [-> | ->]; reduce_visit; repeat split; solve_aligned.
Qed.

(** Every [construct] with branches is made of such forks, all of them
    along axis 1, the channel axis. *)
Ltac split_calls :=
  repeat (cbn [bind];
          repeat match goal with
                 | E : ?m = _ |- context [bind ?m _] => rewrite E; cbn [bind]
                 end;
          match goal with
          | |- context [bind ?m _] =>
              lazymatch m with
              | bind _ _ => fail
              | _ => destruct m eqn:?
              end
          end);
  reflexivity.

Lemma Stem_forks (s : Stem.t) (training : bool) (x : Tensor) :
  Stem.construct s training x =
  (x <- BasicConv2d.construct (Stem.conv2d_1a_3x3 s) training x ;;
   x <- BasicConv2d.construct (Stem.conv2d_2a_3x3 s) training x ;;
   x <- BasicConv2d.construct (Stem.conv2d_2b_3x3 s) training x ;;
   x <- fork (Stem_mixed_3a s training) 1 x ;;
   x <- fork (Stem_mixed_4a s training) 1 x ;;
   fork (Stem_mixed_5a s training) 1 x).
Proof.
  unfold Stem.construct, fork, Stem_mixed_3a, Stem_mixed_4a, Stem_mixed_5a.
  cbn [map sequence]. split_calls.
Qed.

Lemma InceptionA_forks (a : InceptionA.t) (training : bool) (x : Tensor) :
  InceptionA.construct a training x
  = fork (InceptionA_branches a training) 1 x.
Proof.
  unfold InceptionA.construct, fork, InceptionA_branches.
  cbn [map sequence]. split_calls.
Qed.

Lemma InceptionB_forks (b : InceptionB.t) (training : bool) (x : Tensor) :
  InceptionB.construct b training x
  = fork (InceptionB_branches b training) 1 x.
Proof.
  unfold InceptionB.construct, fork, InceptionB_branches.
  cbn [map sequence]. split_calls.
Qed.

Lemma ReductionA_forks (a : ReductionA.t) (training : bool) (x : Tensor) :
  ReductionA.construct a training x
  = fork (ReductionA_branches a training) 1 x.
Proof.
  unfold ReductionA.construct, fork, ReductionA_branches.
  cbn [map sequence]. split_calls.
Qed.

Lemma ReductionB_forks (b : ReductionB.t) (training : bool) (x : Tensor) :
  ReductionB.construct b training x
  = fork (ReductionB_branches b training) 1 x.
Proof.
  unfold ReductionB.construct, fork, ReductionB_branches.
  cbn [map sequence]. split_calls.
Qed.

Lemma InceptionC_forks (c : InceptionC.t) (training : bool) (x : Tensor) :
  InceptionC.construct c training x
  = fork (InceptionC_branches c training) 1 x.
Proof.
  unfold InceptionC.construct, InceptionC_branches, InceptionC_split_1,
    InceptionC_split_2, fork.
  cbn [map sequence]. split_calls.
Qed.
End Shapes.

(** ** The walk over the cells *)

Section Walk.
Variable f : LeafCell -> LeafCell.
Hypothesis f_keeps_class : keeps_class f.

Ltac visit_kind c :=
  let Hc := fresh in
  pose proof (f_keeps_class c) as Hc;
  cbv [visit.Conv2d visit.BatchNorm2d visit.ReLU visit.MaxPool2d
       visit.AvgPool2d visit.GlobalAvgPooling visit.Dropout visit.Dense];
  destruct (f c); cbn in Hc; try contradiction; reflexivity.

Lemma visit_Conv2d (c : nn.Conv2d.t) :
  Conv2d_cell (visit.Conv2d f c) = f (Conv2d_cell c).
Proof. visit_kind (Conv2d_cell c). Qed.

Lemma visit_BatchNorm2d (b : nn.BatchNorm2d.t) :
  BatchNorm2d_cell (visit.BatchNorm2d f b) = f (BatchNorm2d_cell b).
Proof. visit_kind (BatchNorm2d_cell b). Qed.

Lemma visit_ReLU (r : nn.ReLU.t) :
  ReLU_cell (visit.ReLU f r) = f (ReLU_cell r).
Proof. visit_kind (ReLU_cell r). Qed.

Lemma visit_MaxPool2d (p : nn.MaxPool2d.t) :
  MaxPool2d_cell (visit.MaxPool2d f p) = f (MaxPool2d_cell p).
Proof. visit_kind (MaxPool2d_cell p). Qed.

Lemma visit_AvgPool2d (p : nn.AvgPool2d.t) :
  AvgPool2d_cell (visit.AvgPool2d f p) = f (AvgPool2d_cell p).
Proof. visit_kind (AvgPool2d_cell p). Qed.

Lemma visit_GlobalAvgPooling (p : GlobalAvgPooling.t) :
  GlobalAvgPooling_cell (visit.GlobalAvgPooling f p)
  = f (GlobalAvgPooling_cell p).
Proof. visit_kind (GlobalAvgPooling_cell p). Qed.

Lemma visit_Dropout (d : nn.Dropout.t) :
  Dropout_cell (visit.Dropout f d) = f (Dropout_cell d).
Proof. visit_kind (Dropout_cell d). Qed.

Lemma visit_Dense (d : nn.Dense.t) :
  Dense_cell (visit.Dense f d) = f (Dense_cell d).
Proof. visit_kind (Dense_cell d). Qed.

Lemma BasicConv2d_cells_visit (b : BasicConv2d.t) :
  BasicConv2d.cells (BasicConv2d.visit_cells f b)
  = map f (BasicConv2d.cells b).
Proof.
  unfold BasicConv2d.cells, BasicConv2d.visit_cells. cbn [map
    BasicConv2d.conv BasicConv2d.bn BasicConv2d.relu].
  now rewrite visit_Conv2d, visit_BatchNorm2d, visit_ReLU.
Qed.

Lemma Member_cells_visit (m : Member.t) :
  Member.cells (Member.visit_cells f m) = map f (Member.cells m).
Proof.
  destruct m as [c|p]; cbn [Member.cells Member.visit_cells map].
  - apply BasicConv2d_cells_visit.
  - now rewrite visit_AvgPool2d.
Qed.

Lemma Branch_cells_visit (b : Branch.t) :
  Branch.cells (Branch.visit_cells f b) = map f (Branch.cells b).
Proof.
  unfold Branch.cells, Branch.visit_cells.
  induction b as [|m b IH]; [reflexivity|].
  cbn [map flat_map]. now rewrite map_app, Member_cells_visit, IH.
Qed.

Ltac walk :=
  repeat first [rewrite map_app | progress cbn [map app]];
  rewrite ?BasicConv2d_cells_visit, ?Branch_cells_visit, ?visit_MaxPool2d;
  reflexivity.

Lemma Stem_cells_visit (s : Stem.t) :
  Stem.cells (Stem.visit_cells f s) = map f (Stem.cells s).
Proof.
  destruct s. unfold Stem.cells, Stem.visit_cells.
  cbn [Stem.conv2d_1a_3x3 Stem.conv2d_2a_3x3 Stem.conv2d_2b_3x3
       Stem.mixed_3a_branch_0 Stem.mixed_3a_branch_1
       Stem.mixed_4a_branch_0 Stem.mixed_4a_branch_1
       Stem.mixed_5a_branch_0 Stem.mixed_5a_branch_1].
  walk.
Qed.

Lemma InceptionA_cells_visit (a : InceptionA.t) :
  InceptionA.cells (InceptionA.visit_cells f a)
  = map f (InceptionA.cells a).
Proof.
  destruct a. unfold InceptionA.cells, InceptionA.visit_cells.
  cbn [InceptionA.branch_0 InceptionA.branch_1 InceptionA.branch_2
       InceptionA.branch_3].
  walk.
Qed.

Lemma InceptionB_cells_visit (b : InceptionB.t) :
  InceptionB.cells (InceptionB.visit_cells f b)
  = map f (InceptionB.cells b).
Proof.
  destruct b. unfold InceptionB.cells, InceptionB.visit_cells.
  cbn [InceptionB.branch_0 InceptionB.branch_1 InceptionB.branch_2
       InceptionB.branch_3].
  walk.
Qed.

Lemma ReductionA_cells_visit (a : ReductionA.t) :
  ReductionA.cells (ReductionA.visit_cells f a)
  = map f (ReductionA.cells a).
Proof.
  destruct a. unfold ReductionA.cells, ReductionA.visit_cells.
  cbn [ReductionA.branch_0 ReductionA.branch_1 ReductionA.branch_2].
  walk.
Qed.

Lemma ReductionB_cells_visit (b : ReductionB.t) :
  ReductionB.cells (ReductionB.visit_cells f b)
  = map f (ReductionB.cells b).
Proof.
  destruct b. unfold ReductionB.cells, ReductionB.visit_cells.
  cbn [ReductionB.branch_0 ReductionB.branch_1 ReductionB.branch_2].
  walk.
Qed.

Lemma InceptionC_cells_visit (c : InceptionC.t) :
  InceptionC.cells (InceptionC.visit_cells f c)
  = map f (InceptionC.cells c).
Proof.
  destruct c. unfold InceptionC.cells, InceptionC.visit_cells.
  cbn [InceptionC.branch_0 InceptionC.branch_1 InceptionC.branch_1_1
       InceptionC.branch_1_2 InceptionC.branch_2 InceptionC.branch_2_1
       InceptionC.branch_2_2 InceptionC.branch_3].
  walk.
Qed.

Lemma Block_cells_visit (b : Block.t) :
  Block.cells (Block.visit_cells f b) = map f (Block.cells b).
Proof.
  destruct b; cbn [Block.cells Block.visit_cells].
  - apply Stem_cells_visit.
  - apply InceptionA_cells_visit.
  - apply ReductionA_cells_visit.
  - apply InceptionB_cells_visit.
  - apply ReductionB_cells_visit.
  - apply InceptionC_cells_visit.
Qed.

Lemma InceptionV4_cells_visit (m : InceptionV4.t) :
  InceptionV4.cells (InceptionV4.visit_cells f m)
  = map f (InceptionV4.cells m).
Proof.
  unfold InceptionV4.cells, InceptionV4.visit_cells.
  cbn [InceptionV4.features InceptionV4.pool InceptionV4.dropout
       InceptionV4.classifier].
  rewrite map_app. cbn [map].
  rewrite visit_GlobalAvgPooling, visit_Dropout, visit_Dense. f_equal.
  induction (InceptionV4.features m) as [|b bs IH]; [reflexivity|].
  cbn [map flat_map]. now rewrite map_app, Block_cells_visit, IH.
Qed.
End Walk.

Lemma _initialize_cell_keeps_class :
  keeps_class InceptionV4._initialize_cell.
Proof.
  intros []; exact I.
Qed.

Lemma _initialize_cell_initialized (cell : LeafCell) :
  untouched cell = true ->
  initialized (InceptionV4._initialize_cell cell) = true.
Proof.
  destruct cell; cbn; auto.
Qed.

(** A freshly built model holds the framework's defaults everywhere. *)
Lemma fresh_model_untouched (in_channels num_classes : Z) (s : Stem.t)
    (a : InceptionA.t) (ra : ReductionA.t) (b : InceptionB.t)
    (rb : ReductionB.t) (c : InceptionC.t) (d : nn.Dropout.t)
    (cl : nn.Dense.t) :
  Stem.init in_channels = Some s ->
  InceptionA.init = Some a ->
  ReductionA.init = Some ra ->
  InceptionB.init = Some b ->
  ReductionB.init = Some rb ->
  InceptionC.init = Some c ->
  nn.Dense.init 1536 num_classes = Some cl ->
  forallb untouched
    (InceptionV4.cells
       (InceptionV4.mk (blocks_of s a ra b rb c) GlobalAvgPooling.init d
          1536 cl)) = true.
Proof.
  intros Hs Ha Hra Hb Hrb Hc Hcl.
  apply Dense_init_inv in Hcl as [_ ->].
  destruct in_channels as [|p|p]; try (vm_compute in Hs; discriminate).
  vm_compute in Hs, Ha, Hra, Hb, Hrb, Hc.
  injection Hs as <-. injection Ha as <-. injection Hra as <-.
  injection Hb as <-. injection Hrb as <-. injection Hc as <-.
  vm_compute. reflexivity.
Qed.

Lemma initialized_model (in_channels num_classes : Z) (drop_rate : Q)
    (m : InceptionV4.t) :
  InceptionV4.init in_channels num_classes drop_rate = Some m ->
  forallb initialized (InceptionV4.cells m) = true.
Proof.
  intros Hm.
  apply InceptionV4_init_inv in Hm
    as (s & a & ra & b & rb & c & d & cl
        & Hs & Ha & Hra & Hb & Hrb & Hc & _ & Hcl & ->).
  pose proof (fresh_model_untouched in_channels num_classes s a ra b rb c d
                cl Hs Ha Hra Hb Hrb Hc Hcl) as Hfresh.
  unfold InceptionV4._initialize_weights.
  rewrite InceptionV4_cells_visit by apply _initialize_cell_keeps_class.
  rewrite forallb_forall in Hfresh |- *.
  intros cell Hin. apply in_map_iff in Hin as (cell0 & <- & Hin0).
  apply _initialize_cell_initialized. now apply Hfresh.
Qed.

Lemma conv_cells_of_model (in_channels num_classes : Z) (drop_rate : Q)
    (m : InceptionV4.t) :
  InceptionV4.init in_channels num_classes drop_rate = Some m ->
  length (filter is_Conv2d (InceptionV4.cells m)) = 149%nat.
Proof.
  intros Hm.
  apply InceptionV4_init_inv in Hm
    as (s & a & ra & b & rb & c & d & cl
        & Hs & Ha & Hra & Hb & Hrb & Hc & _ & Hcl & ->).
  destruct in_channels as [|p|p]; try (vm_compute in Hs; discriminate).
  vm_compute in Hs, Ha, Hra, Hb, Hrb, Hc.
  injection Hs as <-. injection Ha as <-. injection Hra as <-.
  injection Hb as <-. injection Hrb as <-. injection Hc as <-.
  vm_compute. reflexivity.
Qed.

(** The blocks without arguments can be built. *)
Lemma InceptionA_init_Some : exists a, InceptionA.init = Some a.
Proof. eexists. vm_compute. reflexivity. Qed.

Lemma InceptionB_init_Some : exists b, InceptionB.init = Some b.
Proof. eexists. vm_compute. reflexivity. Qed.

Lemma InceptionC_init_Some : exists c, InceptionC.init = Some c.
Proof. eexists. vm_compute. reflexivity. Qed.

Lemma ReductionA_init_Some : exists a, ReductionA.init = Some a.
Proof. eexists. vm_compute. reflexivity. Qed.

Lemma ReductionB_init_Some : exists b, ReductionB.init = Some b.
Proof. eexists. vm_compute. reflexivity. Qed.

(** * The claims *)

Section Claims.
Context `{Kernels}.

(** C1. For every configured [num_classes] (and drop rate), the forward
    pass of an InceptionV4 built for three input channels, that is
    [forward_features] followed by [forward_head], accepts every input of
    shape (1, 3, 299, 299), in training and in inference mode, and returns a
    tensor of shape (1, num_classes).  The configurations are the positive
    class counts and the drop rates in [0, 1). *)
Theorem C1_forward_output_shape (num_classes : Z) (drop_rate : Q)
    (training : bool) (x : Tensor) (r : rng) :
  shape x = [1; 3; 299; 299] ->
  (0 < num_classes -> (0 <= drop_rate)%Q -> (drop_rate < 1)%Q ->
   exists m, InceptionV4.init 3 num_classes drop_rate = Some m) /\
  (forall m,
     InceptionV4.init 3 num_classes drop_rate = Some m ->
     exists f y r',
       InceptionV4.forward_features m training x = Some f /\
       InceptionV4.forward_head m training f r = Some (y, r') /\
       InceptionV4.construct m training x r = Some (y, r') /\
       shape y = [1; num_classes]).
Proof.
  intros Hx. split.
  - intros Hnc H0 H1. apply InceptionV4_init_Some; [lia | assumption ..].
  - intros m Hm.
    destruct (forward_features_shape 3 num_classes drop_rate m training x 1
                Hm Hx) as (f & Hf & Hfs).
    destruct (forward_head_shape 3 num_classes drop_rate m training f r
                1 1536 8 8 Hm Hfs eq_refl) as (y & r' & Hy & Hys).
    exists f, y, r'. repeat split; try assumption.
    unfold InceptionV4.construct. rewrite Hf. exact Hy.
Qed.

(** C2. For every input channel count, a Stem can be built, and for every
    input of spatial size 299 x 299 with that many channels
    [Stem.construct] returns a tensor with 384 channels and spatial size
    35 x 35; the batch extent is kept. *)
Theorem C2_stem_output_shape (in_channels : Z) (training : bool)
    (x : Tensor) (n : Z) :
  0 < in_channels ->
  shape x = [n; in_channels; 299; 299] ->
  (exists s, Stem.init in_channels = Some s) /\
  (forall s, is_Stem in_channels s ->
     yields (Stem.construct s training x) [n; 384; 35; 35]).
Proof.
  intros Hic Hx. split.
  - now apply Stem_init_Some.
  - intros s (s0 & Hs0 & Hs).
    exact (Stem_shape in_channels s0 s training x n Hs0 Hs Hx).
Qed.

(** C3. Applied to a tensor with its declared channel count (384, 1024,
    1536), each of InceptionA, InceptionB and InceptionC returns a tensor
    with the same channel count, height and width (and batch extent) as
    its input. *)
Theorem C3_inception_blocks_keep_shape (training : bool) (x : Tensor)
    (n h w : Z) :
  0 < h -> 0 < w ->
  ((exists a, InceptionA.init = Some a) /\
   (exists b, InceptionB.init = Some b) /\
   (exists c, InceptionC.init = Some c)) /\
  (forall a, is_InceptionA a -> shape x = [n; 384; h; w] ->
     yields (InceptionA.construct a training x) [n; 384; h; w]) /\
  (forall b, is_InceptionB b -> shape x = [n; 1024; h; w] ->
     yields (InceptionB.construct b training x) [n; 1024; h; w]) /\
  (forall c, is_InceptionC c -> shape x = [n; 1536; h; w] ->
     yields (InceptionC.construct c training x) [n; 1536; h; w]).
Proof.
  intros Hh Hw. split; [|repeat split].
  - split; [apply InceptionA_init_Some|].
    split; [apply InceptionB_init_Some | apply InceptionC_init_Some].
  - intros a (a0 & Ha0 & Ha) Hx.
    exact (InceptionA_shape a0 a training x n h w Ha0 Ha Hx Hh Hw).
  - intros b (b0 & Hb0 & Hb) Hx.
    exact (InceptionB_shape b0 b training x n h w Hb0 Hb Hx Hh Hw).
  - intros c (c0 & Hc0 & Hc) Hx.
    exact (InceptionC_shape c0 c training x n h w Hc0 Hc Hx Hh Hw).
Qed.

(** C4. [ReductionA.construct] maps a tensor of 384 channels and 35 x 35
    to one of 1024 channels and 17 x 17, and [ReductionB.construct] maps a
    tensor of 1024 channels and 17 x 17 to one of 1536 channels and 8 x 8. *)
Theorem C4_reduction_blocks_shapes (training : bool) (x : Tensor) (n : Z) :
  ((exists a, ReductionA.init = Some a) /\
   (exists b, ReductionB.init = Some b)) /\
  (forall a, is_ReductionA a -> shape x = [n; 384; 35; 35] ->
     yields (ReductionA.construct a training x) [n; 1024; 17; 17]) /\
  (forall b, is_ReductionB b -> shape x = [n; 1024; 17; 17] ->
     yields (ReductionB.construct b training x) [n; 1536; 8; 8]).
Proof.
  split; [|split].
  - split; [apply ReductionA_init_Some | apply ReductionB_init_Some].
  - intros a (a0 & Ha0 & Ha) Hx.
    exact (ReductionA_shape a0 a training x n Ha0 Ha Hx).
  - intros b (b0 & Hb0 & Hb) Hx.
    exact (ReductionB_shape b0 b training x n Hb0 Hb Hx).
Qed.

Lemma fold_calls_None {A : Type} (call : A -> Tensor -> option Tensor)
    (cells : list A) :
  fold_left (fun acc cell => y <- acc ;; call cell y) cells None = None.
Proof.
  induction cells as [|c cells IH]; [reflexivity | exact IH].
Qed.

(** A [nn.SequentialCell] is the composition of its cells in list order. *)
Lemma SequentialCell_fold {A : Type} (call : A -> Tensor -> option Tensor)
    (cells : list A) (x : Tensor) :
  nn.SequentialCell.construct call cells x
  = fold_left (fun acc cell => y <- acc ;; call cell y) cells (Some x).
Proof.
  revert x. induction cells as [|c cells IH]; intros x; [reflexivity|].
  cbn [nn.SequentialCell.construct fold_left bind].
  destruct (call c x) as [y|]; cbn [bind].
  - apply IH.
  - symmetry. apply fold_calls_None.
Qed.

Lemma features_of_model (in_channels num_classes : Z) (drop_rate : Q)
    (m : InceptionV4.t) :
  InceptionV4.init in_channels num_classes drop_rate = Some m ->
  map class_of (InceptionV4.features m) = claimed_order.
Proof.
  intros Hm.
  apply InceptionV4_init_inv in Hm
    as (s & a & ra & b & rb & c & d & cl & _ & _ & _ & _ & _ & _ & _ & _ & ->).
  reflexivity.
Qed.

(** C5, amended. The feature extractor of a model is the sequential
    composition of 17 blocks (not 16): Stem, 4 x InceptionA, ReductionA,
    7 x InceptionB, ReductionB, 3 x InceptionC, in that order; the head
    applied afterwards is the global average pool, then dropout, then the
    fully-connected projection to [num_classes] outputs. *)
Theorem C5_model_composition (in_channels num_classes : Z) (drop_rate : Q)
    (m : InceptionV4.t) :
  InceptionV4.init in_channels num_classes drop_rate = Some m ->
  features_as_claimed 17 m /\
  (forall training x,
     InceptionV4.forward_features m training x
     = fold_left (fun acc block => y <- acc ;; Block.construct training block y)
         (InceptionV4.features m) (Some x)) /\
  (forall training x r,
     InceptionV4.forward_head m training x r
     = (pooled <- GlobalAvgPooling.construct (InceptionV4.pool m) x ;;
        let (dropped, r') :=
          nn.Dropout.construct (InceptionV4.dropout m) training pooled r in
        y <- nn.Dense.construct (InceptionV4.classifier m) dropped ;;
        Some (y, r'))) /\
  (forall training x r,
     InceptionV4.construct m training x r
     = (f <- InceptionV4.forward_features m training x ;;
        InceptionV4.forward_head m training f r)) /\
  nn.Dense.out_channels (InceptionV4.classifier m) = num_classes.
Proof.
  intros Hm. pose proof (features_of_model _ _ _ _ Hm) as Horder.
  repeat split.
  - rewrite <- (length_map class_of), Horder. reflexivity.
  - exact Horder.
  - intros training x. unfold InceptionV4.forward_features.
    rewrite <- SequentialCell_fold.
    destruct (nn.SequentialCell.construct _ _ x); reflexivity.
  - apply InceptionV4_init_inv in Hm
      as (s & a & ra & b & rb & c & d & cl
          & _ & _ & _ & _ & _ & _ & _ & Hcl & ->).
    apply Dense_init_inv in Hcl as [_ ->]. reflexivity.
Qed.

(** C6. In inference mode the dropout stage is the identity, whatever the
    configured drop rate, so that [forward_head] is the global average pool
    followed directly by the classifier, and the random state is untouched. *)
Theorem C6_dropout_identity_in_inference (m : InceptionV4.t) (x : Tensor)
    (r : rng) :
  (forall keep_prob y,
     nn.Dropout.construct (nn.Dropout.mk keep_prob) false y r = (y, r)) /\
  nn.Dropout.construct (InceptionV4.dropout m) false x r = (x, r) /\
  InceptionV4.forward_head m false x r
  = (pooled <- GlobalAvgPooling.construct (InceptionV4.pool m) x ;;
     y <- nn.Dense.construct (InceptionV4.classifier m) pooled ;;
     Some (y, r)).
Proof.
  split; [|split].
  - intros keep_prob y. reflexivity.
  - reflexivity.
  - unfold InceptionV4.forward_head.
    destruct (GlobalAvgPooling.construct (InceptionV4.pool m) x)
      as [pooled|]; reflexivity.
Qed.

Lemma init_agree (in_channels nc1 nc2 : Z) (drop_rate : Q)
    (m1 m2 : InceptionV4.t) :
  InceptionV4.init in_channels nc1 drop_rate = Some m1 ->
  InceptionV4.init in_channels nc2 drop_rate = Some m2 ->
  InceptionV4.features m1 = InceptionV4.features m2 /\
  InceptionV4.pool m1 = InceptionV4.pool m2 /\
  InceptionV4.dropout m1 = InceptionV4.dropout m2 /\
  InceptionV4.num_features m1 = InceptionV4.num_features m2 /\
  InceptionV4.classifier m1
  = nn.Dense.mk 1536 nc1 (default_parameter [nc1; 1536])
      (default_parameter [nc1]) /\
  InceptionV4.classifier m2
  = nn.Dense.mk 1536 nc2 (default_parameter [nc2; 1536])
      (default_parameter [nc2]).
Proof.
  intros H1 H2.
  apply InceptionV4_init_inv in H1
    as (s & a & ra & b & rb & c & d & cl
        & Hs & Ha & Hra & Hb & Hrb & Hc & Hd & Hcl & ->).
  apply InceptionV4_init_inv in H2
    as (s' & a' & ra' & b' & rb' & c' & d' & cl'
        & Hs' & Ha' & Hra' & Hb' & Hrb' & Hc' & Hd' & Hcl' & ->).
  rewrite Hs in Hs'. rewrite Ha in Ha'. rewrite Hra in Hra'.
  rewrite Hb in Hb'. rewrite Hrb in Hrb'. rewrite Hc in Hc'.
  rewrite Hd in Hd'.
  injection Hs' as <-. injection Ha' as <-. injection Hra' as <-.
  injection Hb' as <-. injection Hrb' as <-. injection Hc' as <-.
  injection Hd' as <-.
  apply Dense_init_inv in Hcl as [_ ->].
  apply Dense_init_inv in Hcl' as [_ ->].
  repeat split.
Qed.

(** C7. Two models built with the same [in_channels] and [drop_rate] but
    different [num_classes] differ in the classifier's output width only:
    every cell before the classifier is configured identically, the
    classifiers read the same 1536 features, and for the same input every
    intermediate tensor, after each block, after the pool and after the
    dropout, has the same shape in both models. *)
Theorem C7_num_classes_frame (in_channels nc1 nc2 : Z) (drop_rate : Q)
    (m1 m2 : InceptionV4.t) :
  InceptionV4.init in_channels nc1 drop_rate = Some m1 ->
  InceptionV4.init in_channels nc2 drop_rate = Some m2 ->
  (InceptionV4.features m1 = InceptionV4.features m2 /\
   InceptionV4.pool m1 = InceptionV4.pool m2 /\
   InceptionV4.dropout m1 = InceptionV4.dropout m2 /\
   InceptionV4.num_features m1 = InceptionV4.num_features m2) /\
  (exists before,
     InceptionV4.cells m1
     = before ++ [Dense_cell (InceptionV4.classifier m1)] /\
     InceptionV4.cells m2
     = before ++ [Dense_cell (InceptionV4.classifier m2)]) /\
  (nn.Dense.in_channels (InceptionV4.classifier m1)
   = nn.Dense.in_channels (InceptionV4.classifier m2) /\
   nn.Dense.out_channels (InceptionV4.classifier m1) = nc1 /\
   nn.Dense.out_channels (InceptionV4.classifier m2) = nc2) /\
  (forall training x r k,
     option_map shape (after_block k m1 training x)
     = option_map shape (after_block k m2 training x) /\
     option_map shape (InceptionV4.forward_features m1 training x)
     = option_map shape (InceptionV4.forward_features m2 training x) /\
     option_map (fun p => shape (fst p)) (before_classifier m1 training x r)
     = option_map (fun p => shape (fst p))
         (before_classifier m2 training x r)) /\
  (forall load_pretrained,
     inception_v4 load_pretrained false nc1 in_channels drop_rate = Some m1 /\
     inception_v4 load_pretrained false nc2 in_channels drop_rate = Some m2).
Proof.
  intros H1 H2.
  destruct (init_agree in_channels nc1 nc2 drop_rate m1 m2 H1 H2)
    as (Hf & Hp & Hd & Hn & Hc1 & Hc2).
  split; [auto|]. split; [|split; [|split]].
  - exists (flat_map Block.cells (InceptionV4.features m1)
            ++ [GlobalAvgPooling_cell (InceptionV4.pool m1);
                Dropout_cell (InceptionV4.dropout m1)]).
    unfold InceptionV4.cells. rewrite <- Hf, <- Hp, <- Hd.
    rewrite <- !app_assoc. split; reflexivity.
  - rewrite Hc1, Hc2. repeat split.
  - intros training x r k.
    unfold after_block, before_classifier, InceptionV4.forward_features.
    rewrite Hf, Hp, Hd. repeat split.
  - intros load_pretrained. unfold inception_v4.
    rewrite H1, H2. split; reflexivity.
Qed.

(** C8. The initialization pass that ends the construction visits every
    cell of a model that held the framework's defaults everywhere; it gives
    the weight of every convolution, and nothing else, a Xavier-uniform
    initializer (of the shape and element type the weight had) and leaves
    the batch-normalisation parameters and the classifier's weight and bias
    at the framework's default.  The convolutions have no bias. *)
Theorem C8_weight_initialization (in_channels num_classes : Z)
    (drop_rate : Q) (m : InceptionV4.t) :
  InceptionV4.init in_channels num_classes drop_rate = Some m ->
  (exists m0,
     m = InceptionV4._initialize_weights m0 /\
     forallb untouched (InceptionV4.cells m0) = true /\
     InceptionV4.cells m
     = map InceptionV4._initialize_cell (InceptionV4.cells m0)) /\
  (forall c,
     InceptionV4._initialize_cell (Conv2d_cell c)
     = Conv2d_cell
         (nn.Conv2d.set_weight c
            (mkParam (p_shape (nn.Conv2d.weight c))
               (p_dtype (nn.Conv2d.weight c)) init.XavierUniform))) /\
  (forall cell,
     is_Conv2d cell = false -> InceptionV4._initialize_cell cell = cell) /\
  (forall cell, In cell (InceptionV4.cells m) -> initialized cell = true) /\
  length (filter is_Conv2d (InceptionV4.cells m)) = 149%nat.
Proof.
  intros Hm. split; [|split; [|split; [|split]]].
  - pose proof Hm as Hm'.
    apply InceptionV4_init_inv in Hm'
      as (s & a & ra & b & rb & c & d & cl
          & Hs & Ha & Hra & Hb & Hrb & Hc & _ & Hcl & ->).
    eexists. split; [reflexivity|]. split.
    + exact (fresh_model_untouched in_channels num_classes s a ra b rb c d
               cl Hs Ha Hra Hb Hrb Hc Hcl).
    + unfold InceptionV4._initialize_weights.
      apply InceptionV4_cells_visit, _initialize_cell_keeps_class.
  - intros c. reflexivity.
  - intros [] Hcell; try reflexivity. discriminate.
  - pose proof (initialized_model _ _ _ _ Hm) as Hall.
    rewrite forallb_forall in Hall. exact Hall.
  - exact (conv_cells_of_model _ _ _ _ Hm).
Qed.

(** C9. At every concatenation of the file (three in Stem, one in each of
    InceptionA, InceptionB, ReductionA and ReductionB, three in InceptionC)
    the branches that are concatenated return, for the same input, tensors
    of the same batch extent, height and width, which differ in their
    channel count only; and every [construct] with branches is made of
    these concatenations, each along axis 1, the channel axis. *)
Theorem C9_concatenated_branches_agree (in_channels : Z) (s : Stem.t)
    (a : InceptionA.t) (b : InceptionB.t) (ra : ReductionA.t)
    (rb : ReductionB.t) (c : InceptionC.t) (training : bool) :
  is_Stem in_channels s -> is_InceptionA a -> is_InceptionB b ->
  is_ReductionA ra -> is_ReductionB rb -> is_InceptionC c ->
  (aligned (Stem_mixed_3a s training) /\
   aligned (Stem_mixed_4a s training) /\
   aligned (Stem_mixed_5a s training) /\
   forall x,
     Stem.construct s training x =
     (x <- BasicConv2d.construct (Stem.conv2d_1a_3x3 s) training x ;;
      x <- BasicConv2d.construct (Stem.conv2d_2a_3x3 s) training x ;;
      x <- BasicConv2d.construct (Stem.conv2d_2b_3x3 s) training x ;;
      x <- fork (Stem_mixed_3a s training) 1 x ;;
      x <- fork (Stem_mixed_4a s training) 1 x ;;
      fork (Stem_mixed_5a s training) 1 x)) /\
  (aligned (InceptionA_branches a training) /\
   forall x, InceptionA.construct a training x
             = fork (InceptionA_branches a training) 1 x) /\
  (aligned (InceptionB_branches b training) /\
   forall x, InceptionB.construct b training x
             = fork (InceptionB_branches b training) 1 x) /\
  (aligned (ReductionA_branches ra training) /\
   forall x, ReductionA.construct ra training x
             = fork (ReductionA_branches ra training) 1 x) /\
  (aligned (ReductionB_branches rb training) /\
   forall x, ReductionB.construct rb training x
             = fork (ReductionB_branches rb training) 1 x) /\
  (aligned (InceptionC_split_1 c training) /\
   aligned (InceptionC_split_2 c training) /\
   aligned (InceptionC_branches c training) /\
   forall x, InceptionC.construct c training x
             = fork (InceptionC_branches c training) 1 x).
Proof.
  intros Hs Ha Hb Hra Hrb Hc.
  destruct (Stem_aligned in_channels s training Hs) as (H3a & H4a & H5a).
  destruct (InceptionC_aligned c training Hc) as (Hc1 & Hc2 & Hc3).
  repeat split; try assumption.
  - apply Stem_forks.
  - now apply InceptionA_aligned.
  - apply InceptionA_forks.
  - now apply InceptionB_aligned.
  - apply InceptionB_forks.
  - now apply ReductionA_aligned.
  - apply ReductionA_forks.
  - now apply ReductionB_aligned.
  - apply ReductionB_forks.
  - apply InceptionC_forks.
Qed.
End Claims.

(** * The claims at concrete inputs *)

(** The model with the defaults of the source, and one with 10 classes. *)
Lemma default_model_Some :
  exists m, InceptionV4.init 3 1000 (1 # 5) = Some m.
Proof. eexists. vm_compute. reflexivity. Qed.

Lemma ten_class_model_Some :
  exists m, InceptionV4.init 3 10 (1 # 5) = Some m.
Proof. eexists. vm_compute. reflexivity. Qed.

(** The default model (3 input channels, 1000 classes, drop rate 0.2) on an
    image of 299 x 299. *)
Lemma C1_witness :
  exists m f y r',
    InceptionV4.init 3 1000 (1 # 5) = Some m /\
    InceptionV4.forward_features m false (blank [1; 3; 299; 299]) = Some f /\
    InceptionV4.forward_head m false f tt = Some (y, r') /\
    InceptionV4.construct m false (blank [1; 3; 299; 299]) tt
    = Some (y, r') /\
    shape y = [1; 1000].
Proof.
  destruct (@C1_forward_output_shape unit_kernels 1000 (1 # 5) false
              (blank [1; 3; 299; 299]) tt eq_refl) as [Hbuilt Hrun].
  destruct Hbuilt as [m Hm]; [reflexivity | discriminate | reflexivity |].
  destruct (Hrun m Hm) as (f & y & r' & Hf & Hh & Hc & Hs).
  exists m, f, y, r'. repeat split; assumption.
Defined.

Lemma C2_witness :
  exists s,
    Stem.init 3 = Some s /\
    yields (Stem.construct s false (blank [1; 3; 299; 299]))
      [1; 384; 35; 35].
Proof.
  destruct (@C2_stem_output_shape unit_kernels 3 false
              (blank [1; 3; 299; 299]) 1) as [[s Hs] Hrun];
    [reflexivity | reflexivity |].
  exists s. split; [exact Hs|].
  apply Hrun. exists s. split; [exact Hs | left; reflexivity].
Defined.

Lemma C3_witness :
  exists a b c,
    InceptionA.init = Some a /\ InceptionB.init = Some b /\
    InceptionC.init = Some c /\
    yields (InceptionA.construct a false (blank [1; 384; 35; 35]))
      [1; 384; 35; 35] /\
    yields (InceptionB.construct b false (blank [1; 1024; 17; 17]))
      [1; 1024; 17; 17] /\
    yields (InceptionC.construct c false (blank [1; 1536; 8; 8]))
      [1; 1536; 8; 8].
Proof.
  destruct (@C3_inception_blocks_keep_shape unit_kernels false
              (blank [1; 384; 35; 35]) 1 35 35)
    as (([a Ha] & _ & _) & HA & _ & _); [reflexivity | reflexivity |].
  destruct (@C3_inception_blocks_keep_shape unit_kernels false
              (blank [1; 1024; 17; 17]) 1 17 17)
    as ((_ & [b Hb] & _) & _ & HB & _); [reflexivity | reflexivity |].
  destruct (@C3_inception_blocks_keep_shape unit_kernels false
              (blank [1; 1536; 8; 8]) 1 8 8)
    as ((_ & _ & [c Hc]) & _ & _ & HC); [reflexivity | reflexivity |].
  exists a, b, c. repeat split; try assumption.
  - apply HA; [|reflexivity].
    exists a. split; [exact Ha | left; reflexivity].
  - apply HB; [|reflexivity].
    exists b. split; [exact Hb | left; reflexivity].
  - apply HC; [|reflexivity].
    exists c. split; [exact Hc | left; reflexivity].
Defined.

Lemma C4_witness :
  exists a b,
    ReductionA.init = Some a /\ ReductionB.init = Some b /\
    yields (ReductionA.construct a false (blank [1; 384; 35; 35]))
      [1; 1024; 17; 17] /\
    yields (ReductionB.construct b false (blank [1; 1024; 17; 17]))
      [1; 1536; 8; 8].
Proof.
  destruct (@C4_reduction_blocks_shapes unit_kernels false
              (blank [1; 384; 35; 35]) 1)
    as (([a Ha] & _) & HA & _).
  destruct (@C4_reduction_blocks_shapes unit_kernels false
              (blank [1; 1024; 17; 17]) 1)
    as ((_ & [b Hb]) & _ & HB).
  exists a, b. repeat split; try assumption.
  - apply HA; [|reflexivity].
    exists a. split; [exact Ha | left; reflexivity].
  - apply HB; [|reflexivity].
    exists b. split; [exact Hb | left; reflexivity].
Defined.

Lemma C5_witness :
  exists m,
    InceptionV4.init 3 1000 (1 # 5) = Some m /\
    features_as_claimed 17 m /\
    nn.Dense.out_channels (InceptionV4.classifier m) = 1000.
Proof.
  destruct default_model_Some as [m Hm].
  exists m. split; [exact Hm|].
  destruct (@C5_model_composition unit_kernels 3 1000 (1 # 5) m Hm)
    as (Hf & _ & _ & _ & Hc).
  split; assumption.
Defined.

(** The feature extractor of the default model counts 17 blocks, so it is
    not a composition of 16. *)
Lemma C5_counterexample :
  exists m,
    InceptionV4.init 3 1000 (1 # 5) = Some m /\
    length (InceptionV4.features m) = 17%nat /\
    ~ features_as_claimed 16 m.
Proof.
  destruct default_model_Some as [m Hm].
  exists m. split; [exact Hm|].
  pose proof (features_of_model 3 1000 (1 # 5) m Hm) as Horder.
  apply (f_equal (@length _)) in Horder.
  rewrite length_map in Horder. cbn in Horder.
  split; [exact Horder|].
  intros [Hlen _]. rewrite Hlen in Horder. discriminate.
Qed.

Lemma C7_witness :
  exists m1 m2,
    InceptionV4.init 3 1000 (1 # 5) = Some m1 /\
    InceptionV4.init 3 10 (1 # 5) = Some m2 /\
    InceptionV4.features m1 = InceptionV4.features m2 /\
    nn.Dense.out_channels (InceptionV4.classifier m1) = 1000 /\
    nn.Dense.out_channels (InceptionV4.classifier m2) = 10.
Proof.
  destruct default_model_Some as [m1 H1].
  destruct ten_class_model_Some as [m2 H2].
  exists m1, m2.
  destruct (@C7_num_classes_frame unit_kernels 3 1000 10 (1 # 5) m1 m2 H1 H2)
    as ((Hf & _) & _ & (_ & Ho1 & Ho2) & _).
  repeat split; assumption.
Defined.

Lemma C8_witness :
  exists m,
    InceptionV4.init 3 1000 (1 # 5) = Some m /\
    (forall cell, In cell (InceptionV4.cells m) -> initialized cell = true) /\
    length (filter is_Conv2d (InceptionV4.cells m)) = 149%nat.
Proof.
  destruct default_model_Some as [m Hm].
  exists m. split; [exact Hm|].
  destruct (C8_weight_initialization 3 1000 (1 # 5) m Hm)
    as (_ & _ & _ & Hall & Hlen).
  split; assumption.
Defined.

Lemma C9_witness :
  exists s a b ra rb c,
    Stem.init 3 = Some s /\ InceptionA.init = Some a /\
    InceptionB.init = Some b /\ ReductionA.init = Some ra /\
    ReductionB.init = Some rb /\ InceptionC.init = Some c /\
    @aligned unit_kernels (Stem_mixed_3a s false) /\
    @aligned unit_kernels (InceptionA_branches a false) /\
    @aligned unit_kernels (InceptionB_branches b false) /\
    @aligned unit_kernels (ReductionA_branches ra false) /\
    @aligned unit_kernels (ReductionB_branches rb false) /\
    @aligned unit_kernels (InceptionC_branches c false).
Proof.
  destruct (Stem_init_Some 3) as [s Hs]; [lia|].
  destruct InceptionA_init_Some as [a Ha].
  destruct InceptionB_init_Some as [b Hb].
  destruct ReductionA_init_Some as [ra Hra].
  destruct ReductionB_init_Some as [rb Hrb].
  destruct InceptionC_init_Some as [c Hc].
  exists s, a, b, ra, rb, c.
  destruct (@C9_concatenated_branches_agree unit_kernels 3 s a b ra rb c
              false)
    as ((H3a & _) & (HA & _) & (HB & _) & (HRA & _) & (HRB & _)
        & (_ & _ & HC & _)).
  - exists s. split; [exact Hs | left; reflexivity].
  - exists a. split; [exact Ha | left; reflexivity].
  - exists b. split; [exact Hb | left; reflexivity].
  - exists ra. split; [exact Hra | left; reflexivity].
  - exists rb. split; [exact Hrb | left; reflexivity].
  - exists c. split; [exact Hc | left; reflexivity].
  - repeat split; assumption.
Defined.

(** In training mode the output depends on the random state: with kernels
    that trace the state the dropout mask was drawn from, two states give
    two outputs. *)
Remark training_reads_random_state :
  exists m x,
    InceptionV4.init 3 1000 (1 # 5) = Some m /\
    shape x = [1; 3; 299; 299] /\
    option_map (fun p => data (fst p))
      (@InceptionV4.construct tracing_kernels m true x 0) = Some 0 /\
    option_map (fun p => data (fst p))
      (@InceptionV4.construct tracing_kernels m true x 1) = Some 1.
Proof.
  eexists. exists (@mkTensor tracing_kernels [1; 3; 299; 299] 0).
  split; [vm_compute; reflexivity|].
  split; [reflexivity|].
  split; vm_compute; reflexivity.
Qed.

(** * Further properties of the code *)

(** ** Windows of the file on an extent that is not fixed *)

Ltac div_lia :=
  unfold features_out, Stem_out, halve in *;
  Z.to_euclidean_division_equations; lia.

Lemma out_size_valid_3_2 (i : Z) : out_size valid i 3 2 0 = halve i.
Proof.
  unfold out_size, ceil_div. div_lia.
Qed.

Lemma out_size_valid_3_1 (i : Z) : out_size valid i 3 1 0 = i - 2.
Proof.
  unfold out_size. rewrite ceil_div_1. lia.
Qed.

Lemma Stem_out_299 : Stem_out 299 = 35 /\ features_out 299 = 8.
Proof. split; reflexivity. Qed.

Section Sizes.
Context `{Kernels}.

(** *** Backward rules that keep what the window check established *)

Lemma Conv2d_accepted (c : nn.Conv2d.t) (x y : Tensor) :
  nn.Conv2d.construct c x = Some y ->
  exists n h w,
    shape x = [n; nn.Conv2d.in_channels c; h; w] /\
    shape y =
      [n; nn.Conv2d.out_channels c;
       out_size (nn.Conv2d.pad_mode c) h (fst (nn.Conv2d.kernel_size c))
         (fst (nn.Conv2d.stride c)) (nn.Conv2d.padding c);
       out_size (nn.Conv2d.pad_mode c) w (snd (nn.Conv2d.kernel_size c))
         (snd (nn.Conv2d.stride c)) (nn.Conv2d.padding c)] /\
    0 < out_size (nn.Conv2d.pad_mode c) h (fst (nn.Conv2d.kernel_size c))
          (fst (nn.Conv2d.stride c)) (nn.Conv2d.padding c) /\
    0 < out_size (nn.Conv2d.pad_mode c) w (snd (nn.Conv2d.kernel_size c))
          (snd (nn.Conv2d.stride c)) (nn.Conv2d.padding c).
Proof.
  unfold nn.Conv2d.construct. intros Hy.
  destruct (shape x) as [|n [|ci [|h [|w [|? ?]]]]] eqn:Hx; try discriminate.
  apply bind_Some in Hy as (u & Hc & Hy).
  apply check_Some, Z.eqb_eq in Hc. subst ci.
  apply bind_Some in Hy as (s & Hs & Hy).
  apply window_shape_Some in Hs
    as (n' & c' & h' & w' & Hx' & Hh & Hw & ->).
  injection Hx' as <- <- <- <-. injection Hy as <-.
  exists n, h, w. repeat split; assumption.
Qed.

Lemma BasicConv2d_accepted (b : BasicConv2d.t) (training : bool)
    (x y : Tensor) :
  BasicConv2d.construct b training x = Some y ->
  nn.BatchNorm2d.num_features (BasicConv2d.bn b)
  = nn.Conv2d.out_channels (BasicConv2d.conv b) /\
  exists n h w,
    shape x = [n; nn.Conv2d.in_channels (BasicConv2d.conv b); h; w] /\
    shape y =
      [n; nn.Conv2d.out_channels (BasicConv2d.conv b);
       out_size (nn.Conv2d.pad_mode (BasicConv2d.conv b)) h
         (fst (nn.Conv2d.kernel_size (BasicConv2d.conv b)))
         (fst (nn.Conv2d.stride (BasicConv2d.conv b)))
         (nn.Conv2d.padding (BasicConv2d.conv b));
       out_size (nn.Conv2d.pad_mode (BasicConv2d.conv b)) w
         (snd (nn.Conv2d.kernel_size (BasicConv2d.conv b)))
         (snd (nn.Conv2d.stride (BasicConv2d.conv b)))
         (nn.Conv2d.padding (BasicConv2d.conv b))] /\
    0 < out_size (nn.Conv2d.pad_mode (BasicConv2d.conv b)) h
          (fst (nn.Conv2d.kernel_size (BasicConv2d.conv b)))
          (fst (nn.Conv2d.stride (BasicConv2d.conv b)))
          (nn.Conv2d.padding (BasicConv2d.conv b)) /\
    0 < out_size (nn.Conv2d.pad_mode (BasicConv2d.conv b)) w
          (snd (nn.Conv2d.kernel_size (BasicConv2d.conv b)))
          (snd (nn.Conv2d.stride (BasicConv2d.conv b)))
          (nn.Conv2d.padding (BasicConv2d.conv b)).
Proof.
  unfold BasicConv2d.construct. intros Hy.
  apply bind_Some in Hy as (x1 & H1 & Hy).
  apply bind_Some in Hy as (x2 & H2 & Hy).
  apply bind_Some in Hy as (x3 & H3 & Hy).
  injection Hy as <-. injection H3 as <-. cbn [shape].
  pose proof (BatchNorm2d_inv _ _ _ _ H2) as H2s. rewrite H2s.
  apply Conv2d_accepted in H1 as (n & h & w & Hx & Hx1 & Hh & Hw).
  split.
  - unfold nn.BatchNorm2d.construct in H2. rewrite Hx1 in H2.
    apply bind_Some in H2 as (u & Hc & _).
    apply check_Some, Z.eqb_eq in Hc. now symmetry.
  - exists n, h, w. repeat split; assumption.
Qed.

Lemma MaxPool2d_accepted (p : nn.MaxPool2d.t) (x y : Tensor) :
  nn.MaxPool2d.construct p x = Some y ->
  exists n c h w,
    shape x = [n; c; h; w] /\
    shape y =
      [n; c;
       out_size (nn.MaxPool2d.pad_mode p) h (nn.MaxPool2d.kernel_size p)
         (nn.MaxPool2d.stride p) 0;
       out_size (nn.MaxPool2d.pad_mode p) w (nn.MaxPool2d.kernel_size p)
         (nn.MaxPool2d.stride p) 0] /\
    0 < out_size (nn.MaxPool2d.pad_mode p) h (nn.MaxPool2d.kernel_size p)
          (nn.MaxPool2d.stride p) 0 /\
    0 < out_size (nn.MaxPool2d.pad_mode p) w (nn.MaxPool2d.kernel_size p)
          (nn.MaxPool2d.stride p) 0.
Proof.
  unfold nn.MaxPool2d.construct. intros Hy.
  destruct (shape x) as [|n [|c [|h [|w [|? ?]]]]] eqn:Hx; try discriminate.
  apply bind_Some in Hy as (s & Hs & Hy).
  apply window_shape_Some in Hs
    as (n' & c' & h' & w' & Hx' & Hh & Hw & ->).
  injection Hx' as <- <- <- <-. injection Hy as <-.
  exists n, c, h, w. repeat split; assumption.
Qed.

(** *** [BasicConv2d] *)

Lemma BasicConv2d_init_inv (in_channels out_channels : Z)
    (kernel_size : KernelSize) (stride padding : Z) (pad_mode : PadMode)
    (b : BasicConv2d.t) :
  BasicConv2d.init in_channels out_channels kernel_size stride padding
    pad_mode = Some b ->
  nn.Conv2d.in_channels (BasicConv2d.conv b) = in_channels /\
  nn.Conv2d.out_channels (BasicConv2d.conv b) = out_channels /\
  nn.Conv2d.kernel_size (BasicConv2d.conv b) = twice kernel_size /\
  nn.Conv2d.stride (BasicConv2d.conv b) = (stride, stride) /\
  nn.Conv2d.pad_mode (BasicConv2d.conv b) = pad_mode /\
  nn.Conv2d.padding (BasicConv2d.conv b) = padding /\
  nn.BatchNorm2d.num_features (BasicConv2d.bn b) = out_channels.
Proof.
  unfold BasicConv2d.init, nn.Conv2d.init, nn.BatchNorm2d.init. intros Hb.
  apply bind_Some in Hb as (c & Hc & Hb).
  apply bind_Some in Hb as (bn & Hbn & Hb). injection Hb as <-.
  apply bind_Some in Hc as (u1 & _ & Hc).
  apply bind_Some in Hc as (u2 & _ & Hc).
  apply bind_Some in Hc as (u3 & _ & Hc). injection Hc as <-.
  apply bind_Some in Hbn as (u4 & _ & Hbn). injection Hbn as <-.
  repeat split.
Qed.

(** X1. A [BasicConv2d] built by its constructor accepts exactly the
    four-dimensional inputs that have [in_channels] channels and leave the
    window a non-empty output; it then returns [out_channels] channels and
    the extents of the window arithmetic, in training as in inference
    mode.  In particular the batch normalisation it holds always fits the
    convolution, and an input of another rank or channel count is refused. *)
Theorem X1_BasicConv2d_accepts_iff (in_channels out_channels : Z)
    (kernel_size : KernelSize) (stride padding : Z) (pad_mode : PadMode)
    (b : BasicConv2d.t) (training : bool) (x : Tensor) (s : Shape) :
  BasicConv2d.init in_channels out_channels kernel_size stride padding
    pad_mode = Some b ->
  (yields (BasicConv2d.construct b training x) s <->
   exists n h w,
     shape x = [n; in_channels; h; w] /\
     0 < out_size pad_mode h (fst (twice kernel_size)) stride padding /\
     0 < out_size pad_mode w (snd (twice kernel_size)) stride padding /\
     s = [n; out_channels;
          out_size pad_mode h (fst (twice kernel_size)) stride padding;
          out_size pad_mode w (snd (twice kernel_size)) stride padding]).
Proof.
  intros Hb.
  apply BasicConv2d_init_inv in Hb
    as (Hic & Hoc & Hks & Hst & Hpm & Hpad & Hnf).
  split.
  - intros (y & Hy & <-).
    apply BasicConv2d_accepted in Hy
      as (_ & n & h & w & Hx & Hys & Hh & Hw).
    rewrite Hic, Hoc, Hks, Hst, Hpm, Hpad in *. cbn [fst snd] in *.
    exists n, h, w. repeat split; assumption.
  - intros (n & h & w & Hx & Hh & Hw & ->).
    eapply BasicConv2d_yields; try eassumption;
      rewrite ?Hic, ?Hoc, ?Hks, ?Hst, ?Hpm, ?Hpad, ?Hnf; reflexivity.
Qed.

(** *** Stepping with extents that are not fixed *)

Ltac reduce_cfg :=
  cbn [BasicConv2d.conv BasicConv2d.bn
       nn.Conv2d.in_channels nn.Conv2d.out_channels nn.Conv2d.kernel_size
       nn.Conv2d.stride nn.Conv2d.pad_mode nn.Conv2d.padding
       nn.BatchNorm2d.num_features
       nn.MaxPool2d.kernel_size nn.MaxPool2d.stride nn.MaxPool2d.pad_mode
       nn.AvgPool2d.kernel_size nn.AvgPool2d.stride nn.AvgPool2d.pad_mode
       fst snd].

Ltac reduce_cfg_in H :=
  cbn [BasicConv2d.conv BasicConv2d.bn
       nn.Conv2d.in_channels nn.Conv2d.out_channels nn.Conv2d.kernel_size
       nn.Conv2d.stride nn.Conv2d.pad_mode nn.Conv2d.padding
       nn.BatchNorm2d.num_features
       nn.MaxPool2d.kernel_size nn.MaxPool2d.stride nn.MaxPool2d.pad_mode
       nn.AvgPool2d.kernel_size nn.AvgPool2d.stride nn.AvgPool2d.pad_mode
       fst snd] in H.

Ltac reduce_visit :=
  cbn [Stem.visit_cells InceptionA.visit_cells InceptionB.visit_cells
       InceptionC.visit_cells ReductionA.visit_cells ReductionB.visit_cells
       Branch.visit_cells Member.visit_cells BasicConv2d.visit_cells map
       visit.Conv2d visit.BatchNorm2d visit.ReLU visit.MaxPool2d
       visit.AvgPool2d InceptionV4._initialize_cell
       BasicConv2d.conv BasicConv2d.bn BasicConv2d.relu
       Stem.conv2d_1a_3x3 Stem.conv2d_2a_3x3 Stem.conv2d_2b_3x3
       Stem.mixed_3a_branch_0 Stem.mixed_3a_branch_1
       Stem.mixed_4a_branch_0 Stem.mixed_4a_branch_1
       Stem.mixed_5a_branch_0 Stem.mixed_5a_branch_1
       InceptionA.branch_0 InceptionA.branch_1 InceptionA.branch_2
       InceptionA.branch_3
       InceptionB.branch_0 InceptionB.branch_1 InceptionB.branch_2
       InceptionB.branch_3
       InceptionC.branch_0 InceptionC.branch_1 InceptionC.branch_1_1
       InceptionC.branch_1_2 InceptionC.branch_2 InceptionC.branch_2_1
       InceptionC.branch_2_2 InceptionC.branch_3
       ReductionA.branch_0 ReductionA.branch_1 ReductionA.branch_2
       ReductionB.branch_0 ReductionB.branch_1 ReductionB.branch_2].

Ltac open_block Hinit :=
  vm_compute in Hinit; injection Hinit as <-;
  lazymatch goal with
  | |- yields (_ ?blk _ _) _ =>
      let v := eval vm_compute in blk in change blk with v
  end.


Ltac rewrite_sizes :=
  rewrite ?out_size_same_1, ?out_size_pad_3_1_1, ?out_size_valid_3_2,
    ?out_size_valid_3_1.

Ltac rewrite_sizes_in H :=
  rewrite ?out_size_same_1, ?out_size_pad_3_1_1, ?out_size_valid_3_2,
    ?out_size_valid_3_1 in H.

Ltac size_eq := reduce_cfg; rewrite_sizes; reflexivity.

Ltac count_eq :=
  reduce_cfg;
  lazymatch goal with
  | |- _ = ?e => let v := eval vm_compute in e in change e with v
  end;
  reflexivity.

Ltac size_pos := reduce_cfg; rewrite_sizes; try assumption; div_lia.

Ltac shape_fwd_any :=
  lazymatch goal with
  | |- yields (bind _ _) _ =>
      eapply yields_bind; [shape_fwd_any | intros ? ?; shape_fwd_any]
  | |- yields (Some _) _ =>
      apply yields_Some; eassumption
  | |- yields (BasicConv2d.construct _ _ _) _ =>
      eapply BasicConv2d_yields;
      [eassumption | reflexivity | count_eq | reflexivity
       | size_eq | size_eq | size_pos | size_pos]
  | |- yields (nn.MaxPool2d.construct _ _) _ =>
      eapply MaxPool2d_yields;
      [eassumption | size_eq | size_eq | size_pos | size_pos]
  | |- yields (nn.AvgPool2d.construct _ _) _ =>
      eapply AvgPool2d_yields;
      [eassumption | size_eq | size_eq | size_pos | size_pos]
  | |- yields (Branch.construct _ _ _) _ =>
      cbn [Branch.construct nn.SequentialCell.construct Member.construct];
      shape_fwd_any
  | |- yields (ops.concat _ _) _ =>
      eapply concat_yields;
      [discriminate
      | repeat (eapply Forall2_cons; [eassumption|]); apply Forall2_nil
      | count_eq]
  end.

Ltac accepted_calls :=
  repeat match goal with
  | H : bind _ _ = Some _ |- _ =>
      let H1 := fresh "Hcall" in
      apply bind_Some in H as (? & H1 & H)
  | H : Some _ = Some _ |- _ => injection H as H; subst
  | H : ops.concat (?t :: _) 1 = Some _, Ht : shape ?t = [_; _; _; _] |- _ =>
      eapply concat_inv in H; [|exact Ht]; destruct H as (? & H)
  | H : Branch.construct _ _ _ = Some _ |- _ =>
      cbn [Branch.construct nn.SequentialCell.construct Member.construct] in H
  | H : BasicConv2d.construct _ _ _ = Some _ |- _ =>
      apply BasicConv2d_accepted in H as (_ & ? & ? & ? & ? & ? & ? & ?)
  | H : nn.MaxPool2d.construct _ _ = Some _ |- _ =>
      apply MaxPool2d_accepted in H as (? & ? & ? & ? & ? & ? & ? & ?)
  | H : nn.AvgPool2d.construct _ _ = Some _ |- _ =>
      apply AvgPool2d_inv in H as (? & ? & ? & ? & ? & ?)
  end.

Ltac simplify_sizes :=
  repeat match goal with
  | H : shape _ = _ |- _ =>
      progress (reduce_cfg_in H; rewrite_sizes_in H)
  | H : 0 < _ |- _ =>
      progress (reduce_cfg_in H; rewrite_sizes_in H)
  | H1 : shape ?y = _, H2 : shape ?y = _ |- _ =>
      rewrite H1 in H2; injection H2 as H2; subst
  end.

(** *** [Stem] on any input *)

Lemma Stem_any_size (in_channels : Z) (s : Stem.t) (training : bool)
    (x : Tensor) (n h w : Z) :
  is_Stem in_channels s ->
  shape x = [n; in_channels; h; w] -> 27 <= h -> 27 <= w ->
  yields (Stem.construct s training x) [n; 384; Stem_out h; Stem_out w].
Proof.
  intros (s0 & Hs0 & Hs) Hx Hh Hw.
  destruct in_channels as [|p|p]; try (vm_compute in Hs0; discriminate).
  unfold Stem_out.
  destruct Hs as [-> | ->]; open_block Hs0;
    unfold Stem.construct;
    cbn [Stem.conv2d_1a_3x3 Stem.conv2d_2a_3x3 Stem.conv2d_2b_3x3
         Stem.mixed_3a_branch_0 Stem.mixed_3a_branch_1
         Stem.mixed_4a_branch_0 Stem.mixed_4a_branch_1
         Stem.mixed_5a_branch_0 Stem.mixed_5a_branch_1];
    shape_fwd_any.
Qed.

Lemma Stem_accepted (in_channels : Z) (s : Stem.t) (training : bool)
    (x y : Tensor) :
  is_Stem in_channels s ->
  Stem.construct s training x = Some y ->
  exists n h w,
    shape x = [n; in_channels; h; w] /\ 27 <= h /\ 27 <= w.
Proof.
  intros (s0 & Hs0 & Hs) Hy.
  destruct in_channels as [|p|p]; try (vm_compute in Hs0; discriminate).
  vm_compute in Hs0. injection Hs0 as <-.
  unfold Stem.construct in Hy.
  destruct Hs as [-> | ->]; reduce_visit; revert Hy; reduce_visit; intros Hy;
    accepted_calls; simplify_sizes;
    do 3 eexists; (split; [eassumption|]); split; div_lia.
Qed.

Lemma yields_shape (m : option Tensor) (s : Shape) (y : Tensor) :
  yields m s -> m = Some y -> shape y = s.
Proof.
  intros (y' & Hy' & <-) Hy. rewrite Hy in Hy'. now injection Hy' as <-.
Qed.

(** *** The Inception blocks on any input *)

Lemma InceptionA_accepted (a : InceptionA.t) (training : bool)
    (x y : Tensor) :
  is_InceptionA a ->
  InceptionA.construct a training x = Some y ->
  exists n h w, shape x = [n; 384; h; w] /\ 0 < h /\ 0 < w.
Proof.
  intros (a0 & Ha0 & Ha) Hy. vm_compute in Ha0. injection Ha0 as <-.
  unfold InceptionA.construct in Hy.
  apply bind_Some in Hy as (x0 & H0 & _).
  destruct Ha as [-> | ->]; revert H0; reduce_visit; intros H0;
    accepted_calls; simplify_sizes;
    do 3 eexists; repeat split; eassumption.
Qed.

Lemma InceptionB_accepted (b : InceptionB.t) (training : bool)
    (x y : Tensor) :
  is_InceptionB b ->
  InceptionB.construct b training x = Some y ->
  exists n h w, shape x = [n; 1024; h; w] /\ 0 < h /\ 0 < w.
Proof.
  intros (b0 & Hb0 & Hb) Hy. vm_compute in Hb0. injection Hb0 as <-.
  unfold InceptionB.construct in Hy.
  apply bind_Some in Hy as (x0 & H0 & _).
  destruct Hb as [-> | ->]; revert H0; reduce_visit; intros H0;
    accepted_calls; simplify_sizes;
    do 3 eexists; repeat split; eassumption.
Qed.

Lemma InceptionC_accepted (c : InceptionC.t) (training : bool)
    (x y : Tensor) :
  is_InceptionC c ->
  InceptionC.construct c training x = Some y ->
  exists n h w, shape x = [n; 1536; h; w] /\ 0 < h /\ 0 < w.
Proof.
  intros (c0 & Hc0 & Hc) Hy. vm_compute in Hc0. injection Hc0 as <-.
  unfold InceptionC.construct in Hy.
  apply bind_Some in Hy as (x0 & H0 & _).
  destruct Hc as [-> | ->]; revert H0; reduce_visit; intros H0;
    accepted_calls; simplify_sizes;
    do 3 eexists; repeat split; eassumption.
Qed.

(** *** The Reduction blocks on any input *)

Lemma ReductionA_any_size (a : ReductionA.t) (training : bool) (x : Tensor)
    (n h w : Z) :
  is_ReductionA a ->
  shape x = [n; 384; h; w] -> 3 <= h -> 3 <= w ->
  yields (ReductionA.construct a training x) [n; 1024; halve h; halve w].
Proof.
  intros (a0 & Ha0 & Ha) Hx Hh Hw.
  destruct Ha as [-> | ->]; open_block Ha0;
    unfold ReductionA.construct;
    cbn [ReductionA.branch_0 ReductionA.branch_1 ReductionA.branch_2];
    shape_fwd_any.
Qed.

Lemma ReductionA_accepted (a : ReductionA.t) (training : bool)
    (x y : Tensor) :
  is_ReductionA a ->
  ReductionA.construct a training x = Some y ->
  exists n h w, shape x = [n; 384; h; w] /\ 3 <= h /\ 3 <= w.
Proof.
  intros (a0 & Ha0 & Ha) Hy. vm_compute in Ha0. injection Ha0 as <-.
  unfold ReductionA.construct in Hy.
  apply bind_Some in Hy as (x0 & H0 & _).
  destruct Ha as [-> | ->]; revert H0; reduce_visit; intros H0;
    accepted_calls; simplify_sizes;
    do 3 eexists; (split; [eassumption|]); split; div_lia.
Qed.

Lemma ReductionB_any_size (b : ReductionB.t) (training : bool) (x : Tensor)
    (n h w : Z) :
  is_ReductionB b ->
  shape x = [n; 1024; h; w] -> 3 <= h -> 3 <= w ->
  yields (ReductionB.construct b training x) [n; 1536; halve h; halve w].
Proof.
  intros (b0 & Hb0 & Hb) Hx Hh Hw.
  destruct Hb as [-> | ->]; open_block Hb0;
    unfold ReductionB.construct;
    cbn [ReductionB.branch_0 ReductionB.branch_1 ReductionB.branch_2];
    shape_fwd_any.
Qed.

Lemma ReductionB_accepted (b : ReductionB.t) (training : bool)
    (x y : Tensor) :
  is_ReductionB b ->
  ReductionB.construct b training x = Some y ->
  exists n h w, shape x = [n; 1024; h; w] /\ 3 <= h /\ 3 <= w.
Proof.
  intros (b0 & Hb0 & Hb) Hy. vm_compute in Hb0. injection Hb0 as <-.
  unfold ReductionB.construct in Hy.
  apply bind_Some in Hy as (x0 & H0 & _).
  destruct Hb as [-> | ->]; revert H0; reduce_visit; intros H0;
    accepted_calls; simplify_sizes;
    do 3 eexists; (split; [eassumption|]); split; div_lia.
Qed.

(** *** The feature extractor on any input *)

Ltac is_block := eexists; split; [eassumption | right; reflexivity].

Ltac net_fwd_any :=
  lazymatch goal with
  | |- yields (bind _ _) _ =>
      eapply yields_bind; [net_fwd_any | intros ? ?; net_fwd_any]
  | |- yields (Some _) _ =>
      apply yields_Some; eassumption
  | |- yields (Stem.construct _ _ _) _ =>
      eapply Stem_any_size; [is_block | eassumption | div_lia | div_lia]
  | |- yields (InceptionA.construct _ _ _) _ =>
      eapply InceptionA_shape;
      [eassumption | right; reflexivity | eassumption | div_lia | div_lia]
  | |- yields (ReductionA.construct _ _ _) _ =>
      eapply ReductionA_any_size;
      [is_block | eassumption | div_lia | div_lia]
  | |- yields (InceptionB.construct _ _ _) _ =>
      eapply InceptionB_shape;
      [eassumption | right; reflexivity | eassumption | div_lia | div_lia]
  | |- yields (ReductionB.construct _ _ _) _ =>
      eapply ReductionB_any_size;
      [is_block | eassumption | div_lia | div_lia]
  | |- yields (InceptionC.construct _ _ _) _ =>
      eapply InceptionC_shape;
      [eassumption | right; reflexivity | eassumption | div_lia | div_lia]
  end.

Lemma forward_features_any_size (in_channels num_classes : Z)
    (drop_rate : Q) (m : InceptionV4.t) (training : bool) (x : Tensor)
    (n h w : Z) :
  InceptionV4.init in_channels num_classes drop_rate = Some m ->
  shape x = [n; in_channels; h; w] -> 75 <= h -> 75 <= w ->
  yields (InceptionV4.forward_features m training x)
    [n; 1536; features_out h; features_out w].
Proof.
  intros Hm Hx Hh Hw.
  apply InceptionV4_init_inv in Hm
    as (s & a & ra & b & rb & c & d & cl
        & Hs & Ha & Hra & Hb & Hrb & Hc & _ & _ & ->).
  unfold InceptionV4.forward_features, InceptionV4._initialize_weights,
    InceptionV4.visit_cells, blocks_of, features_out.
  cbn [InceptionV4.features app repeat map Block.visit_cells
       nn.SequentialCell.construct Block.construct].
  net_fwd_any.
Qed.

(** The first three stages of the feature extractor already decide which
    inputs pass: the Stem, the first reduction and the second one. *)
Lemma forward_features_accepted (in_channels num_classes : Z)
    (drop_rate : Q) (m : InceptionV4.t) (training : bool) (x y : Tensor) :
  InceptionV4.init in_channels num_classes drop_rate = Some m ->
  InceptionV4.forward_features m training x = Some y ->
  exists n h w, shape x = [n; in_channels; h; w] /\ 75 <= h /\ 75 <= w.
Proof.
  intros Hm Hy.
  apply InceptionV4_init_inv in Hm
    as (s & a & ra & b & rb & c & d & cl
        & Hs & Ha & Hra & Hb & Hrb & Hc & _ & _ & ->).
  unfold InceptionV4.forward_features, InceptionV4._initialize_weights,
    InceptionV4.visit_cells, blocks_of in Hy.
  cbn [InceptionV4.features app repeat map Block.visit_cells
       nn.SequentialCell.construct Block.construct] in Hy.
  apply bind_Some in Hy as (y0 & Hy & _).
  apply bind_Some in Hy as (x1 & H1 & Hy).
  destruct (Stem_accepted in_channels _ training x x1 ltac:(is_block) H1)
    as (n & h & w & Hx & Hh & Hw).
  pose proof (yields_shape _ _ _
                (Stem_any_size in_channels _ training x n h w
                   ltac:(is_block) Hx Hh Hw) H1) as Hx1.
  repeat match goal with
  | H : bind (InceptionA.construct ?a' training ?u) _ = Some _,
    Hu : shape ?u = [_; 384; ?hu; ?wu] |- _ =>
      let v := fresh "v" in
      let Hv := fresh "Hv" in
      apply bind_Some in H as (v & Hv & H);
      pose proof (yields_shape _ _ _
                    (InceptionA_shape a a' training u _ hu wu Ha
                       (or_intror eq_refl) Hu ltac:(div_lia) ltac:(div_lia))
                    Hv);
      clear Hv Hu
  end.
  apply bind_Some in Hy as (x6 & H6 & Hy).
  destruct (ReductionA_accepted _ training _ x6 ltac:(is_block) H6)
    as (n6 & h6 & w6 & Hx5 & Hh6 & Hw6).
  match goal with
  | Hu : shape ?u = [_; 384; Stem_out h; _], Hu' : shape ?u = _ |- _ =>
      rewrite Hu in Hu'; injection Hu' as <- <- <-
  end.
  match goal with
  | Hu : shape ?u = [_; 384; Stem_out h; _] |- _ =>
      pose proof (yields_shape _ _ _
                    (ReductionA_any_size _ training u n _ _
                       ltac:(is_block) Hu Hh6 Hw6) H6) as Hx6
  end.
  repeat match goal with
  | H : bind (InceptionB.construct ?b' training ?u) _ = Some _,
    Hu : shape ?u = [_; 1024; ?hu; ?wu] |- _ =>
      let v := fresh "v" in
      let Hv := fresh "Hv" in
      apply bind_Some in H as (v & Hv & H);
      pose proof (yields_shape _ _ _
                    (InceptionB_shape b b' training u _ hu wu Hb
                       (or_intror eq_refl) Hu ltac:(div_lia) ltac:(div_lia))
                    Hv);
      clear Hv Hu
  end.
  apply bind_Some in Hy as (x14 & H14 & Hy).
  destruct (ReductionB_accepted _ training _ x14 ltac:(is_block) H14)
    as (n14 & h14 & w14 & Hx13 & Hh14 & Hw14).
  match goal with
  | Hu : shape ?u = [_; 1024; halve (Stem_out h); _], Hu' : shape ?u = _
    |- _ =>
      rewrite Hu in Hu'; injection Hu' as <- <- <-
  end.
  exists n, h, w. split; [exact Hx|]. split; div_lia.
Qed.

(** X2. A Stem accepts exactly the four-dimensional inputs that have its
    [in_channels] channels and a height and a width of at least 27; an
    input of height h and width w leaves it with 384 channels, height
    ((((h-1)/2 - 2) - 1)/2 - 2 - 1)/2 and the same for the width.  A
    smaller input, another rank or another channel count is refused. *)
Theorem X2_Stem_accepts_iff (in_channels : Z) (s : Stem.t)
    (training : bool) (x : Tensor) (out : Shape) :
  is_Stem in_channels s ->
  (yields (Stem.construct s training x) out <->
   exists n h w,
     shape x = [n; in_channels; h; w] /\ 27 <= h /\ 27 <= w /\
     out = [n; 384; Stem_out h; Stem_out w]).
Proof.
  intros Hs. split.
  - intros (y & Hy & <-).
    destruct (Stem_accepted in_channels s training x y Hs Hy)
      as (n & h & w & Hx & Hh & Hw).
    exists n, h, w. repeat split; try assumption.
    exact (yields_shape _ _ _
             (Stem_any_size in_channels s training x n h w Hs Hx Hh Hw) Hy).
  - intros (n & h & w & Hx & Hh & Hw & ->).
    now apply (Stem_any_size in_channels).
Qed.

(** X3. InceptionA, InceptionB and InceptionC accept exactly the
    four-dimensional inputs with 384, 1024 and 1536 channels (and positive
    height and width), whatever their spatial size, and return a tensor of
    the shape of the input; any other channel count or rank is refused. *)
Theorem X3_Inception_blocks_accept_iff (a : InceptionA.t) (b : InceptionB.t)
    (c : InceptionC.t) (training : bool) (x : Tensor) (out : Shape) :
  is_InceptionA a -> is_InceptionB b -> is_InceptionC c ->
  (yields (InceptionA.construct a training x) out <->
   exists n h w,
     shape x = [n; 384; h; w] /\ 0 < h /\ 0 < w /\ out = [n; 384; h; w]) /\
  (yields (InceptionB.construct b training x) out <->
   exists n h w,
     shape x = [n; 1024; h; w] /\ 0 < h /\ 0 < w /\ out = [n; 1024; h; w]) /\
  (yields (InceptionC.construct c training x) out <->
   exists n h w,
     shape x = [n; 1536; h; w] /\ 0 < h /\ 0 < w /\ out = [n; 1536; h; w]).
Proof.
  intros Ha Hb Hc. split; [|split]; split.
  - intros (y & Hy & <-).
    destruct (InceptionA_accepted a training x y Ha Hy)
      as (n & h & w & Hx & Hh & Hw).
    exists n, h, w. repeat split; try assumption.
    destruct Ha as (a0 & Ha0 & Ha).
    exact (yields_shape _ _ _
             (InceptionA_shape a0 a training x n h w Ha0 Ha Hx Hh Hw) Hy).
  - intros (n & h & w & Hx & Hh & Hw & ->). destruct Ha as (a0 & Ha0 & Ha).
    exact (InceptionA_shape a0 a training x n h w Ha0 Ha Hx Hh Hw).
  - intros (y & Hy & <-).
    destruct (InceptionB_accepted b training x y Hb Hy)
      as (n & h & w & Hx & Hh & Hw).
    exists n, h, w. repeat split; try assumption.
    destruct Hb as (b0 & Hb0 & Hb).
    exact (yields_shape _ _ _
             (InceptionB_shape b0 b training x n h w Hb0 Hb Hx Hh Hw) Hy).
  - intros (n & h & w & Hx & Hh & Hw & ->). destruct Hb as (b0 & Hb0 & Hb).
    exact (InceptionB_shape b0 b training x n h w Hb0 Hb Hx Hh Hw).
  - intros (y & Hy & <-).
    destruct (InceptionC_accepted c training x y Hc Hy)
      as (n & h & w & Hx & Hh & Hw).
    exists n, h, w. repeat split; try assumption.
    destruct Hc as (c0 & Hc0 & Hc).
    exact (yields_shape _ _ _
             (InceptionC_shape c0 c training x n h w Hc0 Hc Hx Hh Hw) Hy).
  - intros (n & h & w & Hx & Hh & Hw & ->). destruct Hc as (c0 & Hc0 & Hc).
    exact (InceptionC_shape c0 c training x n h w Hc0 Hc Hx Hh Hw).
Qed.

(** X4. ReductionA and ReductionB accept exactly the four-dimensional
    inputs with 384 and 1024 channels whose height and width are at least
    3, and take height h and width w to (h-1)/2 and (w-1)/2 (integer
    division) with 1024 and 1536 channels. *)
Theorem X4_Reduction_blocks_accept_iff (a : ReductionA.t) (b : ReductionB.t)
    (training : bool) (x : Tensor) (out : Shape) :
  is_ReductionA a -> is_ReductionB b ->
  (yields (ReductionA.construct a training x) out <->
   exists n h w,
     shape x = [n; 384; h; w] /\ 3 <= h /\ 3 <= w /\
     out = [n; 1024; (h - 1) / 2; (w - 1) / 2]) /\
  (yields (ReductionB.construct b training x) out <->
   exists n h w,
     shape x = [n; 1024; h; w] /\ 3 <= h /\ 3 <= w /\
     out = [n; 1536; (h - 1) / 2; (w - 1) / 2]).
Proof.
  intros Ha Hb. split; split.
  - intros (y & Hy & <-).
    destruct (ReductionA_accepted a training x y Ha Hy)
      as (n & h & w & Hx & Hh & Hw).
    exists n, h, w. repeat split; try assumption.
    exact (yields_shape _ _ _
             (ReductionA_any_size a training x n h w Ha Hx Hh Hw) Hy).
  - intros (n & h & w & Hx & Hh & Hw & ->).
    now apply ReductionA_any_size.
  - intros (y & Hy & <-).
    destruct (ReductionB_accepted b training x y Hb Hy)
      as (n & h & w & Hx & Hh & Hw).
    exists n, h, w. repeat split; try assumption.
    exact (yields_shape _ _ _
             (ReductionB_any_size b training x n h w Hb Hx Hh Hw) Hy).
  - intros (n & h & w & Hx & Hh & Hw & ->).
    now apply ReductionB_any_size.
Qed.

(** X5. The feature extractor of a built model accepts exactly the
    four-dimensional inputs that have the model's [in_channels] channels
    and a height and a width of at least 75, and returns 1536 channels; the
    spatial size need not be 299 x 299. *)
Theorem X5_forward_features_accepts_iff (in_channels num_classes : Z)
    (drop_rate : Q) (m : InceptionV4.t) (training : bool) (x : Tensor)
    (out : Shape) :
  InceptionV4.init in_channels num_classes drop_rate = Some m ->
  (yields (InceptionV4.forward_features m training x) out <->
   exists n h w,
     shape x = [n; in_channels; h; w] /\ 75 <= h /\ 75 <= w /\
     out = [n; 1536; features_out h; features_out w]).
Proof.
  intros Hm. split.
  - intros (y & Hy & <-).
    destruct (forward_features_accepted _ _ _ m training x y Hm Hy)
      as (n & h & w & Hx & Hh & Hw).
    exists n, h, w. repeat split; try assumption.
    exact (yields_shape _ _ _
             (forward_features_any_size _ _ _ m training x n h w Hm Hx Hh Hw)
             Hy).
  - intros (n & h & w & Hx & Hh & Hw & ->).
    now apply (forward_features_any_size in_channels num_classes drop_rate).
Qed.

(** *** The head on any feature map *)

Lemma reduce_axes_past (axes : list nat) (keep_dims : bool) (i : nat)
    (s : Shape) :
  (forall a, In a axes -> (a < i)%nat) ->
  ops.reduce_axes axes keep_dims i s = s.
Proof.
  revert i. induction s as [|d s IH]; intros i Hlt; [reflexivity|].
  cbn [ops.reduce_axes].
  assert (Hno : existsb (Nat.eqb i) axes = false).
  { destruct (existsb (Nat.eqb i) axes) eqn:E; [|reflexivity].
    apply existsb_exists in E as (a & Ha & Hia).
    apply Nat.eqb_eq in Hia. subst a. apply Hlt in Ha. lia. }
  rewrite Hno, IH; [reflexivity|].
  intros a Ha. apply Hlt in Ha. lia.
Qed.

Lemma spatial_mean_shape (keep_dims : bool) (n c h w : Z) (rest : Shape) :
  ops.reduce_axes [2%nat; 3%nat] keep_dims 0 (n :: c :: h :: w :: rest)
  = n :: c :: (if keep_dims then [1; 1] else []) ++ rest.
Proof.
  cbn [ops.reduce_axes existsb Nat.eqb orb app].
  rewrite reduce_axes_past.
  - now destruct keep_dims.
  - intros a [<- | [<- | []]]; lia.
Qed.

Lemma GlobalAvgPooling_accepted (x p : Tensor) :
  GlobalAvgPooling.construct GlobalAvgPooling.init x = Some p ->
  exists n c h w rest,
    shape x = n :: c :: h :: w :: rest /\ shape p = n :: c :: rest.
Proof.
  unfold GlobalAvgPooling.construct, ops.mean. intros Hp.
  apply bind_Some in Hp as (u & Hc & Hp). injection Hp as <-.
  apply check_Some in Hc. cbn [shape].
  destruct (shape x) as [|n [|c [|h [|w rest]]]]; try discriminate.
  exists n, c, h, w, rest. split; [reflexivity|].
  now rewrite spatial_mean_shape.
Qed.

Lemma GlobalAvgPooling_any_rank (x : Tensor) (n c h w : Z) (rest : Shape) :
  shape x = n :: c :: h :: w :: rest ->
  yields (GlobalAvgPooling.construct GlobalAvgPooling.init x)
    (n :: c :: rest).
Proof.
  intros Hx. unfold GlobalAvgPooling.construct, ops.mean. rewrite Hx.
  cbn [length forallb Nat.ltb Nat.leb andb check bind GlobalAvgPooling.init
       GlobalAvgPooling.keep_dims].
  eexists. split; [reflexivity|]. cbn [shape].
  now rewrite spatial_mean_shape.
Qed.

Lemma Dense_accepted (d : nn.Dense.t) (x y : Tensor) :
  nn.Dense.construct d x = Some y ->
  exists lead,
    shape x = lead ++ [nn.Dense.in_channels d] /\
    shape y = lead ++ [nn.Dense.out_channels d].
Proof.
  unfold nn.Dense.construct. intros Hy.
  destruct (rev (shape x)) as [|c lead] eqn:Hrev; [discriminate|].
  apply bind_Some in Hy as (u & Hc & Hy). injection Hy as <-.
  apply check_Some, Z.eqb_eq in Hc. subst c.
  exists (rev lead). split; [|reflexivity].
  rewrite <- (rev_involutive (shape x)), Hrev. reflexivity.
Qed.

Lemma Dense_any_rank (d : nn.Dense.t) (x : Tensor) (lead : Shape) :
  shape x = lead ++ [nn.Dense.in_channels d] ->
  yields (nn.Dense.construct d x) (lead ++ [nn.Dense.out_channels d]).
Proof.
  intros Hx. unfold nn.Dense.construct.
  rewrite Hx, rev_app_distr. cbn [rev app].
  rewrite Z.eqb_refl. cbn [check bind].
  eexists. split; [reflexivity|]. cbn [shape rev].
  now rewrite rev_involutive.
Qed.

Lemma head_of_model (in_channels num_classes : Z) (drop_rate : Q)
    (m : InceptionV4.t) :
  InceptionV4.init in_channels num_classes drop_rate = Some m ->
  InceptionV4.pool m = GlobalAvgPooling.init /\
  InceptionV4.num_features m = 1536 /\
  nn.Dense.in_channels (InceptionV4.classifier m) = 1536 /\
  nn.Dense.out_channels (InceptionV4.classifier m) = num_classes.
Proof.
  intros Hm.
  apply InceptionV4_init_inv in Hm
    as (s & a & ra & b & rb & c0 & d & cl
        & _ & _ & _ & _ & _ & _ & _ & Hcl & ->).
  apply Dense_init_inv in Hcl as [_ ->]. repeat split.
Qed.

Lemma forward_head_accepted (in_channels num_classes : Z) (drop_rate : Q)
    (m : InceptionV4.t) (training : bool) (f y : Tensor) (r r' : rng) :
  InceptionV4.init in_channels num_classes drop_rate = Some m ->
  InceptionV4.forward_head m training f r = Some (y, r') ->
  exists n c h w rest lead,
    shape f = n :: c :: h :: w :: rest /\
    n :: c :: rest = lead ++ [InceptionV4.num_features m] /\
    shape y = lead ++ [num_classes].
Proof.
  intros Hm Hy.
  destruct (head_of_model _ _ _ m Hm) as (Hpool & Hnf & Hin & Hout).
  unfold InceptionV4.forward_head in Hy. rewrite Hpool in Hy.
  apply bind_Some in Hy as (p & Hp & Hy).
  apply GlobalAvgPooling_accepted in Hp
    as (n & c & h & w & rest & Hf & Hps).
  pose proof (Dropout_shape (InceptionV4.dropout m) training p r) as Hd.
  destruct (nn.Dropout.construct (InceptionV4.dropout m) training p r)
    as [q r1].
  cbn [fst] in Hd.
  apply bind_Some in Hy as (z & Hz & Hy). injection Hy as <- <-.
  apply Dense_accepted in Hz as (lead & Hq & Hzs).
  rewrite Hd, Hps, Hin in Hq. rewrite Hout in Hzs.
  exists n, c, h, w, rest, lead. rewrite Hnf. repeat split; assumption.
Qed.

Lemma forward_head_any_rank (in_channels num_classes : Z) (drop_rate : Q)
    (m : InceptionV4.t) (training : bool) (f : Tensor) (r : rng)
    (n c h w : Z) (rest lead : Shape) :
  InceptionV4.init in_channels num_classes drop_rate = Some m ->
  shape f = n :: c :: h :: w :: rest ->
  n :: c :: rest = lead ++ [InceptionV4.num_features m] ->
  exists y r',
    InceptionV4.forward_head m training f r = Some (y, r') /\
    shape y = lead ++ [num_classes].
Proof.
  intros Hm Hf Hlead.
  destruct (head_of_model _ _ _ m Hm) as (Hpool & Hnf & Hin & Hout).
  unfold InceptionV4.forward_head. rewrite Hpool.
  destruct (GlobalAvgPooling_any_rank f n c h w rest Hf) as (p & -> & Hp).
  cbn [bind].
  pose proof (Dropout_shape (InceptionV4.dropout m) training p r) as Hd.
  destruct (nn.Dropout.construct (InceptionV4.dropout m) training p r)
    as [q r1].
  cbn [fst] in Hd.
  destruct (Dense_any_rank (InceptionV4.classifier m) q lead)
    as (y & -> & Hy).
  { now rewrite Hd, Hp, Hlead, Hnf, Hin. }
  cbn [bind]. exists y, r1. split; [reflexivity|]. now rewrite Hy, Hout.
Qed.

(** X6. The head of a built model averages over axes 2 and 3 and projects
    the last axis that is left.  Of the feature maps of positive extents
    and at most seven dimensions it accepts exactly those of at least four
    dimensions whose shape, once axes 2 and 3 are taken out, ends in
    [num_features] = 1536, and it replaces that last extent by
    [num_classes]: a five-dimensional (1, 7, 2, 3, 1536) gives
    (1, 7, num_classes).  Among four-dimensional feature maps it accepts
    exactly those with 1536 channels, of any height and width, and returns
    (batch, num_classes); a feature map of fewer than four dimensions is
    refused. *)
Theorem X6_forward_head_accepts_iff (in_channels num_classes : Z)
    (drop_rate : Q) (m : InceptionV4.t) (training : bool) (f : Tensor)
    (r : rng) (out : Shape) :
  InceptionV4.init in_channels num_classes drop_rate = Some m ->
  forallb (Z.ltb 0) (shape f) = true ->
  (length (shape f) <=? 7)%nat = true ->
  InceptionV4.num_features m = 1536 /\
  nn.Dense.in_channels (InceptionV4.classifier m)
  = InceptionV4.num_features m /\
  ((exists y r',
      InceptionV4.forward_head m training f r = Some (y, r') /\
      shape y = out) <->
   exists n c h w rest lead,
     shape f = n :: c :: h :: w :: rest /\
     n :: c :: rest = lead ++ [InceptionV4.num_features m] /\
     out = lead ++ [num_classes]) /\
  (forall n c h w,
     shape f = [n; c; h; w] ->
     ((exists y r',
         InceptionV4.forward_head m training f r = Some (y, r') /\
         shape y = out) <->
      c = InceptionV4.num_features m /\ out = [n; num_classes])) /\
  ((length (shape f) < 4)%nat ->
   InceptionV4.forward_head m training f r = None).
Proof.
  intros Hm _ _.
  destruct (head_of_model _ _ _ m Hm) as (_ & Hnf & Hin & _).
  split; [exact Hnf|]. split; [now rewrite Hin, Hnf|].
  assert (Hiff :
    (exists y r',
       InceptionV4.forward_head m training f r = Some (y, r') /\
       shape y = out) <->
    exists n c h w rest lead,
      shape f = n :: c :: h :: w :: rest /\
      n :: c :: rest = lead ++ [InceptionV4.num_features m] /\
      out = lead ++ [num_classes]).
  { split.
    - intros (y & r' & Hy & <-).
      exact (forward_head_accepted _ _ _ m training f y r r' Hm Hy).
    - intros (n & c & h & w & rest & lead & Hf & Hlead & ->).
      exact (forward_head_any_rank _ _ _ m training f r n c h w rest lead
               Hm Hf Hlead). }
  split; [exact Hiff|]. split.
  - intros n c h w Hf. rewrite Hiff. split.
    + intros (n' & c' & h' & w' & rest & lead & Hf' & Hlead & ->).
      rewrite Hf in Hf'. injection Hf' as <- <- <- <- <-.
      change [n; c] with ([n] ++ [c]) in Hlead.
      apply app_inj_tail in Hlead as [<- ->]. split; reflexivity.
    + intros [-> ->]. exists n, (InceptionV4.num_features m), h, w, [], [n].
      repeat split. exact Hf.
  - intros Hlt.
    destruct (InceptionV4.forward_head m training f r) as [[y r']|] eqn:Hy;
      [|reflexivity].
    destruct (forward_head_accepted _ _ _ m training f y r r' Hm Hy)
      as (n & c & h & w & rest & lead & Hf & _).
    rewrite Hf in Hlt. cbn [length] in Hlt. lia.
Qed.

(** X7. A built model accepts exactly the inputs with its [in_channels]
    channels and a height and a width of at least 75, in either mode, and
    returns (batch, num_classes): thanks to the global pool the model is
    not tied to 299 x 299 images, and 75 x 75 is the smallest image it
    takes. *)
Theorem X7_construct_accepts_iff (in_channels num_classes : Z)
    (drop_rate : Q) (m : InceptionV4.t) (training : bool) (x : Tensor)
    (r : rng) (out : Shape) :
  InceptionV4.init in_channels num_classes drop_rate = Some m ->
  ((exists y r',
      InceptionV4.construct m training x r = Some (y, r') /\
      shape y = out) <->
   exists n h w,
     shape x = [n; in_channels; h; w] /\ 75 <= h /\ 75 <= w /\
     out = [n; num_classes]).
Proof.
  intros Hm. unfold InceptionV4.construct. split.
  - intros (y & r' & Hy & <-).
    apply bind_Some in Hy as (f & Hf & Hy).
    destruct (forward_features_accepted _ _ _ m training x f Hm Hf)
      as (n & h & w & Hx & Hh & Hw).
    pose proof (yields_shape _ _ _
                  (forward_features_any_size _ _ _ m training x n h w
                     Hm Hx Hh Hw) Hf) as Hfs.
    destruct (forward_head_accepted _ _ _ m training f y r r' Hm Hy)
      as (n' & c' & h' & w' & rest & lead & Hf' & Hlead & Hys).
    rewrite Hfs in Hf'. injection Hf' as <- <- _ _ <-.
    change [n; 1536] with ([n] ++ [1536]) in Hlead.
    apply app_inj_tail in Hlead as [<- _].
    exists n, h, w. repeat split; assumption.
  - intros (n & h & w & Hx & Hh & Hw & ->).
    destruct (forward_features_any_size _ _ _ m training x n h w
                Hm Hx Hh Hw) as (f & -> & Hfs).
    cbn [bind].
    exact (forward_head_shape in_channels num_classes drop_rate m training
             f r n 1536 _ _ Hm Hfs eq_refl).
Qed.
End Sizes.

(** ** Which arguments [InceptionV4] takes *)





(** ** The initialization pass on any model *)

Lemma _initialize_cell_twice (cell : LeafCell) :
  InceptionV4._initialize_cell (InceptionV4._initialize_cell cell)
  = InceptionV4._initialize_cell cell.
Proof.
  destruct cell; reflexivity.
Qed.






(** ** The default configuration *)

Module config_facts.
Import Stdlib.Strings.String.
Local Open Scope string_scope.

Lemma get_set_same (key : string) (value : config.Value) (d : config.Dict) :
  config.get key (config.set key value d) = Some value.
Proof.
  induction d as [|[k v] d IH]; cbn.
  - now rewrite String.eqb_refl.
  - destruct (String.eqb key k) eqn:E; cbn; rewrite E; [reflexivity | exact IH].
Qed.

Lemma get_set_other (key key' : string) (value : config.Value)
    (d : config.Dict) :
  key <> key' ->
  config.get key (config.set key' value d) = config.get key d.
Proof.
  intros Hne. induction d as [|[k v] d IH]; cbn.
  - apply String.eqb_neq in Hne. now rewrite Hne.
  - destruct (String.eqb key' k) eqn:E; cbn.
    + apply String.eqb_eq in E. subst k.
      apply String.eqb_neq in Hne. now rewrite Hne.
    + now rewrite IH.
Qed.

Lemma get_absent (key : string) (d : config.Dict) :
  ~ In key (map fst d) -> config.get key d = None.
Proof.
  induction d as [|[k v] d IH]; cbn; intros Hin; [reflexivity|].
  destruct (String.eqb key k) eqn:E.
  - apply String.eqb_eq in E. subst k. tauto.
  - apply IH. tauto.
Qed.

Lemma get_unpack (key : string) (d kwargs : config.Dict) :
  NoDup (map fst kwargs) ->
  config.get key (config.unpack d kwargs)
  = match config.get key kwargs with
    | Some v => Some v
    | None => config.get key d
    end.
Proof.
  unfold config.unpack. revert d.
  induction kwargs as [|[k v] kwargs IH]; intros d Hnd; [reflexivity|].
  cbn [fold_left fst snd map config.get] in *.
  inversion Hnd as [|k' ks Hk Hnd']; subst.
  rewrite (IH _ Hnd').
  destruct (String.eqb key k) eqn:E.
  - apply String.eqb_eq in E. subst k.
    rewrite (get_absent _ _ Hk). apply get_set_same.
  - apply String.eqb_neq in E.
    destruct (config.get key kwargs); [reflexivity|].
    now apply get_set_other.
Qed.

Lemma keys_set (key : string) (value : config.Value) (d : config.Dict) :
  NoDup (map fst d) -> NoDup (map fst (config.set key value d)).
Proof.
  induction d as [|[k v] d IH]; cbn; intros Hnd.
  - constructor; [tauto | constructor].
  - inversion Hnd as [|k' ks Hk Hnd']; subst.
    destruct (String.eqb key k) eqn:E; cbn; [exact Hnd|].
    constructor; [|now apply IH].
    intros Hin. apply Hk. clear IH Hnd Hnd' Hk.
    induction d as [|[k1 v1] d IH]; cbn in *.
    + destruct Hin as [<- | []]. now rewrite String.eqb_refl in E.
    + destruct (String.eqb key k1); cbn in Hin; tauto.
Qed.

(** X10. [_cfg(url, **kwargs)] returns a dict in which every keyword
    argument overrides the default of the same name and every other key
    keeps its default: 'url' is the argument, 'num_classes' is 1000 and
    'first_conv' and 'classifier' are empty unless given.  The four default
    keys are always present and no key occurs twice. *)
Theorem X10_cfg_kwargs_override (url : string) (kwargs : config.Dict)
    (key : string) :
  NoDup (map fst kwargs) ->
  config.get "url" kwargs = None ->
  config.get key (config._cfg url kwargs)
  = match config.get key kwargs with
    | Some v => Some v
    | None => config.get key (config._cfg url [])
    end /\
  config.get "url" (config._cfg url kwargs) = Some (config.V_str url) /\
  (config.get "num_classes" kwargs = None ->
   config.get "num_classes" (config._cfg url kwargs)
   = Some (config.V_int 1000)) /\
  (forall k, In k ["url"; "num_classes"; "first_conv"; "classifier"] ->
     config.get k (config._cfg url kwargs) <> None) /\
  NoDup (map fst (config._cfg url kwargs)).
Proof.
  intros Hnd Hurl. unfold config._cfg.
  split; [apply get_unpack, Hnd|].
  split; [rewrite (get_unpack _ _ _ Hnd), Hurl; reflexivity|].
  split; [intros Hnc; rewrite (get_unpack _ _ _ Hnd), Hnc; reflexivity|].
  split.
  - intros k Hk. rewrite (get_unpack _ _ _ Hnd).
    destruct (config.get k kwargs); [discriminate|].
    cbn in Hk. destruct Hk as [<- | [<- | [<- | [<- | []]]]]; discriminate.
  - unfold config.unpack. clear Hnd Hurl.
    assert (Hd : NoDup (map fst
                          [("url", config.V_str url);
                           ("num_classes", config.V_int 1000);
                           ("first_conv", config.V_str "");
                           ("classifier", config.V_str "")])).
    { cbn. repeat constructor; cbn; intuition discriminate. }
    revert Hd. generalize
      [("url", config.V_str url); ("num_classes", config.V_int 1000);
       ("first_conv", config.V_str ""); ("classifier", config.V_str "")].
    induction kwargs as [|[k v] kwargs IH]; intros d Hd; [exact Hd|].
    cbn [fold_left fst snd]. apply IH. now apply keys_set.
Qed.

Lemma X10_witness :
  config.get "num_classes"
    (config._cfg "" [("num_classes", config.V_int 10)])
  = Some (config.V_int 10) /\
  config.get "url" (config._cfg "" [("num_classes", config.V_int 10)])
  = Some (config.V_str "").
Proof.
  assert (Hnd : NoDup (map fst [("num_classes", config.V_int 10)])).
  { cbn. constructor; [intros [] | constructor]. }
  destruct (X10_cfg_kwargs_override "" [("num_classes", config.V_int 10)]
              "num_classes" Hnd eq_refl) as (Hget & Hurl & _).
  split; [exact Hget | exact Hurl].
Defined.
End config_facts.

(** ** The further properties at concrete inputs *)

(** The first convolution of the Stem on an image of 299 x 299. *)
Lemma X1_witness :
  exists b,
    BasicConv2d.init 3 32 (K_int 3) 2 0 valid = Some b /\
    yields (BasicConv2d.construct b false (blank [1; 3; 299; 299]))
      [1; 32; 149; 149].
Proof.
  assert (exists b, BasicConv2d.init 3 32 (K_int 3) 2 0 valid = Some b)
    as [b Hb] by (eexists; vm_compute; reflexivity).
  exists b. split; [exact Hb|].
  apply (proj2 (@X1_BasicConv2d_accepts_iff unit_kernels 3 32 (K_int 3) 2 0
                  valid b false (blank [1; 3; 299; 299]) [1; 32; 149; 149]
                  Hb)).
  exists 1, 299, 299. repeat split.
Defined.

(** The smallest image a Stem takes, and one that is too small. *)
Lemma X2_witness :
  exists s,
    Stem.init 3 = Some s /\
    yields (Stem.construct s false (blank [1; 3; 27; 27])) [1; 384; 1; 1] /\
    forall out,
      ~ yields (Stem.construct s false (blank [1; 3; 26; 26])) out.
Proof.
  destruct (Stem_init_Some 3) as [s Hs]; [lia|].
  assert (Hsk : is_Stem 3 s) by (exists s; split; [exact Hs | now left]).
  exists s. split; [exact Hs|]. split.
  - apply (proj2 (@X2_Stem_accepts_iff unit_kernels 3 s false
                    (blank [1; 3; 27; 27]) [1; 384; 1; 1] Hsk)).
    exists 1, 27, 27. repeat split; lia.
  - intros out Hout.
    apply (proj1 (@X2_Stem_accepts_iff unit_kernels 3 s false
                    (blank [1; 3; 26; 26]) out Hsk)) in Hout
      as (n & h & w & Hx & Hh & _).
    cbn in Hx. injection Hx as <- <- <-. lia.
Defined.

(** An InceptionA on a feature map of 5 x 9, and on one with 383
    channels. *)
Lemma X3_witness :
  exists a b c,
    InceptionA.init = Some a /\ InceptionB.init = Some b /\
    InceptionC.init = Some c /\
    yields (InceptionA.construct a false (blank [2; 384; 5; 9]))
      [2; 384; 5; 9] /\
    forall out,
      ~ yields (InceptionA.construct a false (blank [2; 383; 5; 9])) out.
Proof.
  destruct InceptionA_init_Some as [a Ha].
  destruct InceptionB_init_Some as [b Hb].
  destruct InceptionC_init_Some as [c Hc].
  assert (Hak : is_InceptionA a) by (exists a; split; [exact Ha | now left]).
  assert (Hbk : is_InceptionB b) by (exists b; split; [exact Hb | now left]).
  assert (Hck : is_InceptionC c) by (exists c; split; [exact Hc | now left]).
  exists a, b, c. repeat split; try assumption.
  - apply (proj2 (proj1 (@X3_Inception_blocks_accept_iff unit_kernels a b c
                           false (blank [2; 384; 5; 9]) [2; 384; 5; 9]
                           Hak Hbk Hck))).
    exists 2, 5, 9. repeat split; lia.
  - intros out Hout.
    apply (proj1 (proj1 (@X3_Inception_blocks_accept_iff unit_kernels a b c
                           false (blank [2; 383; 5; 9]) out Hak Hbk Hck)))
      in Hout as (n & h & w & Hx & _).
    cbn in Hx. discriminate.
Defined.

(** A ReductionA on 35 x 35, and a ReductionB on 4 x 3. *)
Lemma X4_witness :
  exists a b,
    ReductionA.init = Some a /\ ReductionB.init = Some b /\
    yields (ReductionA.construct a false (blank [1; 384; 35; 35]))
      [1; 1024; 17; 17] /\
    yields (ReductionB.construct b false (blank [1; 1024; 4; 3]))
      [1; 1536; 1; 1].
Proof.
  destruct ReductionA_init_Some as [a Ha].
  destruct ReductionB_init_Some as [b Hb].
  assert (Hak : is_ReductionA a) by (exists a; split; [exact Ha | now left]).
  assert (Hbk : is_ReductionB b) by (exists b; split; [exact Hb | now left]).
  exists a, b. repeat split; try assumption.
  - apply (proj2 (proj1 (@X4_Reduction_blocks_accept_iff unit_kernels a b
                           false (blank [1; 384; 35; 35]) [1; 1024; 17; 17]
                           Hak Hbk))).
    exists 1, 35, 35. repeat split; lia.
  - apply (proj2 (proj2 (@X4_Reduction_blocks_accept_iff unit_kernels a b
                           false (blank [1; 1024; 4; 3]) [1; 1536; 1; 1]
                           Hak Hbk))).
    exists 1, 4, 3. repeat split; lia.
Defined.

(** The default model on the smallest image it takes, 75 x 75, on a
    wider one, and on one that is too small. *)
Lemma X5_witness :
  exists m,
    InceptionV4.init 3 1000 (1 # 5) = Some m /\
    yields (InceptionV4.forward_features m false (blank [1; 3; 75; 331]))
      [1; 1536; 1; 9] /\
    forall out,
      ~ yields (InceptionV4.forward_features m false (blank [1; 3; 74; 331]))
          out.
Proof.
  destruct default_model_Some as [m Hm].
  exists m. split; [exact Hm|]. split.
  - apply (proj2 (@X5_forward_features_accepts_iff unit_kernels 3 1000
                    (1 # 5) m false (blank [1; 3; 75; 331]) [1; 1536; 1; 9]
                    Hm)).
    exists 1, 75, 331. repeat split; lia.
  - intros out Hout.
    apply (proj1 (@X5_forward_features_accepts_iff unit_kernels 3 1000
                    (1 # 5) m false (blank [1; 3; 74; 331]) out Hm)) in Hout
      as (n & h & w & Hx & Hh & _).
    cbn in Hx. injection Hx as <- <- <-. lia.
Defined.

(** The default model's head on a four-dimensional feature map, on a
    five-dimensional one whose last extent is 1536, and on one of three
    dimensions. *)
Lemma X6_witness :
  exists m y r' y5 r5,
    InceptionV4.init 3 1000 (1 # 5) = Some m /\
    InceptionV4.forward_head m false (blank [4; 1536; 2; 3]) tt
    = Some (y, r') /\
    shape y = [4; 1000] /\
    InceptionV4.forward_head m false (blank [1; 7; 2; 3; 1536]) tt
    = Some (y5, r5) /\
    shape y5 = [1; 7; 1000] /\
    InceptionV4.forward_head m false (blank [4; 1536; 2]) tt = None.
Proof.
  destruct default_model_Some as [m Hm].
  destruct (@X6_forward_head_accepts_iff unit_kernels 3 1000 (1 # 5) m false
              (blank [4; 1536; 2; 3]) tt [4; 1000] Hm eq_refl eq_refl)
    as (Hnf & _ & _ & H4 & _).
  destruct (proj2 (H4 4 1536 2 3 eq_refl)) as (y & r' & Hy & Hys).
  { rewrite Hnf. split; reflexivity. }
  destruct (@X6_forward_head_accepts_iff unit_kernels 3 1000 (1 # 5) m false
              (blank [1; 7; 2; 3; 1536]) tt [1; 7; 1000] Hm eq_refl eq_refl)
    as (_ & _ & H5 & _).
  destruct (proj2 H5) as (y5 & r5 & Hy5 & Hys5).
  { exists 1, 7, 2, 3, [1536], [1; 7]. rewrite Hnf.
    repeat split; reflexivity. }
  destruct (@X6_forward_head_accepts_iff unit_kernels 3 1000 (1 # 5) m false
              (blank [4; 1536; 2]) tt [] Hm eq_refl eq_refl)
    as (_ & _ & _ & _ & H3).
  exists m, y, r', y5, r5.
  split; [exact Hm|]. split; [exact Hy|]. split; [exact Hys|].
  split; [exact Hy5|]. split; [exact Hys5|].
  apply H3. cbn. lia.
Defined.

Lemma X7_witness :
  exists m y r',
    InceptionV4.init 3 1000 (1 # 5) = Some m /\
    InceptionV4.construct m false (blank [2; 3; 75; 75]) tt = Some (y, r') /\
    shape y = [2; 1000] /\
    InceptionV4.construct m false (blank [2; 3; 74; 74]) tt = None.
Proof.
  destruct default_model_Some as [m Hm].
  destruct (proj2 (@X7_construct_accepts_iff unit_kernels 3 1000 (1 # 5) m
                     false (blank [2; 3; 75; 75]) tt [2; 1000] Hm))
    as (y & r' & Hy & Hys).
  - exists 2, 75, 75. repeat split; lia.
  - exists m, y, r'. repeat split; try assumption.
    destruct (InceptionV4.construct m false (blank [2; 3; 74; 74]) tt)
      as [[z r1]|] eqn:Hz; [|reflexivity].
    destruct (proj1 (@X7_construct_accepts_iff unit_kernels 3 1000 (1 # 5) m
                       false (blank [2; 3; 74; 74]) tt (shape z) Hm))
      as (n & h & w & Hx & Hh & _).
    + exists z, r1. split; [exact Hz | reflexivity].
    + cbn in Hx. injection Hx as <- <- <-. lia.
Defined.
